(** * Blockza directory MCP server: upstream client and call handlers

    A shallow embedding of [src/index.ts] (the version with the events
    API): the [BlockzaAPIClient] class, the resource, tool and prompt
    handlers registered on the server, and the properties the
    specification states about them.

    Modelling conventions.
    - JavaScript strings are [string]s; the default ordering of
      [Array.prototype.sort] (code-unit order) is [String.compare].
    - JavaScript numbers that hold counters, limits and HTTP statuses are
      integers ([Z]); [NaN] is [None] where the code can produce it.
      Sums of integers are exact in the embedding; those of the code are
      exact up to [Number.MAX_SAFE_INTEGER].
    - A body the upstream sends is a listing of records that carry every
      field of the interfaces [Company] and [Event]. The code reads the
      body unchecked, so what is stated about the records of an answer is
      stated for such a listing; failing calls, unsuccessful envelopes and
      bodies that are not arrays are covered as the code treats them.
    - [async] functions are computations over an explicit world: the
      upstream answers, the clock, and the trace of HTTP requests issued.
      A computation completes normally or throws.
    - [console.error] writes to the process log only and is left out.
    - [JSON.stringify], [Date] parsing and [Number.prototype.toFixed]
      belong to the runtime and are parameters of the handlers. *)

From Stdlib Require Import List String Ascii ZArith Lia Bool.
From Stdlib Require Import Sorting.Sorted Sorting.Permutation.
From Stdlib Require Import DecimalString DecimalPos.
Import ListNotations.

Set Warnings "-register-all".

Local Open Scope Z_scope.
Local Open Scope list_scope.

(** ** Strings, numbers and truthiness *)

(** A template literal: the concatenation of its pieces. *)
Definition tpl (pieces : list string) : string := String.concat "" pieces.

(** [Number.prototype.toString] on an integer. *)
Definition Z_toString (z : Z) : string := NilZero.string_of_int (Z.to_int z).

Definition bool_toString (b : bool) : string :=
  if b then "true"%string else "false"%string.

(** Truthiness of a string: every string but the empty one. *)
Definition truthy_string (s : string) : bool :=
  match s with EmptyString => false | String _ _ => true end.

(** Truthiness of a number: every number but 0 (and NaN). *)
Definition truthy_number (z : Z) : bool := negb (z =? 0).

(** Truthiness of an optional value: [undefined] is falsy. *)
Definition truthy_opt {A} (truthy : A -> bool) (o : option A) : bool :=
  match o with None => false | Some a => truthy a end.

(** ** Upstream records *)

Module SocialLinks.
Record t := mk
  { facebook : string; linkedin : string; telegram : string;
    twitter : string; youtube : string }.
End SocialLinks.

Module PromotionSettings.
Record t := mk
  { hasAffiliateProgram : bool; interestedInBusinessPartnership : bool }.
End PromotionSettings.

Module TeamMember.
Record t := mk
  { _id : string; name : string; title : string; email : string;
    image : string; linkedinUrl : string; price : Z;
    bookingMethods : list string; status : string; followers : Z;
    responseRate : Z }.
End TeamMember.

Module Company.
Record t := mk
  { _id : string; name : string; slug : string;
    shortDescription : string; detail : string; category : string;
    logo : string; banner : string; founderName : string;
    founderDetails : string; founderEmail : string;
    founderImage : string; verificationStatus : string; url : string;
    isPromoted : bool; likes : Z; views : Z;
    socialLinks : SocialLinks.t;
    promotionSettings : PromotionSettings.t;
    teamMembers : list TeamMember.t;
    createdAt : string; updatedAt : string; followerPrice : Z;
    founderFollowers : Z; founderResponseRate : Z }.
End Company.

Module ApiResponse.
Record t := mk { success : bool; data : list Company.t }.
End ApiResponse.

Module EventSocialLinks.
Record t := mk
  { linkedin : string; telegram : string; twitter : string;
    instagram : string }.
End EventSocialLinks.

Module Event.
Record t := mk
  { _id : string; title : string; company : string;
    description : string; location : string; country : string;
    city : string; eventStartDate : string; eventEndDate : string;
    category : string; website : string; featuredImage : string;
    socialLinks : EventSocialLinks.t; createdAt : string;
    updatedAt : string; __v : Z }.
End Event.

(** ** Values handed to [JSON.stringify] *)

Inductive Json : Type :=
| JNull
| JBool (b : bool)
| JNum (z : Z)
| JStr (s : string)
| JArr (items : list Json)
| JObj (fields : list (string * Json)).

(** ** Errors and completions *)

Module JsError.
Record t := mk { name : string; message : string }.

(** [new Error(msg)]. *)
Definition Error (msg : string) : t := mk "Error" msg.

(** [Error.prototype.toString], as a template literal applies it. *)
Definition toString (e : t) : string :=
  if negb (truthy_string (name e)) then message e
  else if negb (truthy_string (message e)) then name e
  else tpl [name e; ": "; message e]%string.
End JsError.

Inductive Completion (A : Type) : Type :=
| Normal (a : A)
| Throw (e : JsError.t).
Arguments Normal {A} a.
Arguments Throw {A} e.

(** ** The upstream world *)

Module URL.
Record t := mk { base : string; searchParams : list (string * string) }.

Definition new (b : string) : t := mk b [].

(** [url.searchParams.set(k, v)]: the first pair named [k] takes the
    value and later ones are dropped; without one, the pair is appended. *)
Fixpoint set_pairs (k v : string) (ps : list (string * string))
  : list (string * string) :=
  match ps with
  | [] => [(k, v)]
  | (k', v') :: rest =>
      if String.eqb k' k
      then (k, v) :: filter (fun p => negb (String.eqb (fst p) k)) rest
      else (k', v') :: set_pairs k v rest
  end.

Definition set (k v : string) (u : t) : t :=
  mk (base u) (set_pairs k v (searchParams u)).

Definition has (k : string) (u : t) : bool :=
  existsb (fun p => String.eqb (fst p) k) (searchParams u).
End URL.

(** The requests issued so far, oldest first. *)
Definition Trace := list URL.t.

(** What [response.json()] settles to. *)
Inductive JsonBody (T : Type) : Type :=
| SyntaxErr (e : JsError.t)
| Parsed (v : T).
Arguments SyntaxErr {T} e.
Arguments Parsed {T} v.

Module Response.
Record t (T : Type) := mk
  { status : Z; statusText : string; json : JsonBody T }.
Arguments mk {T}.
Arguments status {T}.
Arguments statusText {T}.
Arguments json {T}.

(** [response.ok]: the status is in the range 200-299. *)
Definition ok {T} (r : t T) : bool :=
  (200 <=? status r) && (status r <=? 299).
End Response.

(** What [fetch] settles to: a rejection (network failure) or a response. *)
Inductive FetchOutcome (T : Type) : Type :=
| Rejected (e : JsError.t)
| Responded (r : Response.t T).
Arguments Rejected {T} e.
Arguments Responded {T} r.

(** A parsed body of the events endpoint: an array of events, or any other
    JSON value. *)
Inductive EventsPayload : Type :=
| EventsArray (events : list Event.t)
| NotAnArray (j : Json).

Module World.
Record t := mk
  { directoryApi : Trace -> URL.t -> FetchOutcome ApiResponse.t;
    eventsApi : Trace -> URL.t -> FetchOutcome EventsPayload;
    (** [new Date()] in milliseconds, given the requests made so far *)
    clock : Trace -> Z }.
End World.

(** ** Asynchronous computations

    An [async] function reads the world, extends the trace of requests
    and completes normally or by throwing. *)

Definition Async (A : Type) : Type :=
  World.t -> Trace -> Completion A * Trace.

Definition ret {A} (a : A) : Async A := fun _ tr => (Normal a, tr).

Definition throw {A} (e : JsError.t) : Async A := fun _ tr => (Throw e, tr).

Definition bind {A B} (m : Async A) (k : A -> Async B) : Async B :=
  fun w tr =>
    match m w tr with
    | (Normal a, tr') => k a w tr'
    | (Throw e, tr') => (Throw e, tr')
    end.

(** [try { body } catch (error) { handler }]. *)
Definition tryCatch {A} (body : Async A) (handler : JsError.t -> Async A)
  : Async A :=
  fun w tr =>
    match body w tr with
    | (Normal a, tr') => (Normal a, tr')
    | (Throw e, tr') => handler e w tr'
    end.

Declare Scope async_scope.
Delimit Scope async_scope with async.
Notation "x <- m ;; k" := (bind m (fun x => k))
  (at level 61, m at next level, right associativity) : async_scope.
Local Open Scope async_scope.

(** [await fetch(url)] against one of the two fixed endpoints: the request
    is recorded, then the answer of the upstream is awaited. *)
Definition fetch {T} (api : World.t -> Trace -> URL.t -> FetchOutcome T)
    (u : URL.t) : Async (Response.t T) :=
  fun w tr =>
    match api w tr u with
    | Rejected e => (Throw e, tr ++ [u])
    | Responded r => (Normal r, tr ++ [u])
    end.

(** [await response.json()]. *)
Definition response_json {T} (r : Response.t T) : Async T :=
  match Response.json r with
  | SyntaxErr e => throw e
  | Parsed v => ret v
  end.

(** [new Date()] as a number of milliseconds. *)
Definition Date_now : Async Z := fun w tr => (Normal (World.clock w tr), tr).

(** Running a handler from an empty trace. *)
Definition run {A} (m : Async A) (w : World.t) : Completion A * Trace :=
  m w [].

(** ** Arrays *)

(** [xs.slice(0, end)]: a negative [end] counts from the end of the array,
    [NaN] is 0, and the result is clamped to the array. *)
Definition slice0 {A} (xs : list A) (end_ : option Z) : list A :=
  let len := Z.of_nat (List.length xs) in
  let relEnd := match end_ with None => 0 | Some e => e end in
  let final := if relEnd <? 0 then Z.max (len + relEnd) 0
               else Z.min relEnd len in
  firstn (Z.to_nat final) xs.

(** [xs.sort(compareFn)]: the sort is stable; here by insertion, each
    element placed before the first element of the sorted rest it does not
    come after. *)
Fixpoint sort_insert {A} (cmp : A -> A -> Z) (x : A) (sorted : list A)
  : list A :=
  match sorted with
  | [] => [x]
  | y :: rest =>
      if cmp x y <=? 0 then x :: y :: rest
      else y :: sort_insert cmp x rest
  end.

Fixpoint Array_sort {A} (cmp : A -> A -> Z) (xs : list A) : list A :=
  match xs with
  | [] => []
  | x :: rest => sort_insert cmp x (Array_sort cmp rest)
  end.

(** The comparison [xs.sort()] uses without a [compareFn]: strings by
    code units. *)
Definition default_compare (a b : string) : Z :=
  match String.compare a b with Lt => -1 | Eq => 0 | Gt => 1 end.

(** ** [Set<string>]: members in insertion order *)

Module StringSet.
Definition t := list string.

Definition empty : t := [].

Definition has (s : t) (x : string) : bool :=
  existsb (String.eqb x) s.

Definition add (s : t) (x : string) : t :=
  if has s x then s else s ++ [x].

Definition size (s : t) : Z := Z.of_nat (List.length s).

(** [Array.from(s)] *)
Definition toArray (s : t) : list string := s.
End StringSet.

(** ** [parseInt(s, 10)] *)

(** White space and line terminators that [parseInt] skips. *)
Definition is_white_space (c : ascii) : bool :=
  let n := nat_of_ascii c in
  ((9 <=? n) && (n <=? 13) || (n =? 32) || (n =? 160))%nat.

Fixpoint trim_start (s : string) : string :=
  match s with
  | String c rest => if is_white_space c then trim_start rest else s
  | EmptyString => s
  end.

Definition digit_value (c : ascii) : option Z :=
  let n := nat_of_ascii c in
  if ((48 <=? n) && (n <=? 57))%nat then Some (Z.of_nat n - 48) else None.

(** The value of the longest prefix of decimal digits, if there is one;
    [acc] holds the digits read so far. *)
Fixpoint parse_digits (s : string) (acc : option Z) : option Z :=
  match s with
  | String c rest =>
      match digit_value c with
      | Some d =>
          parse_digits rest
            (Some (10 * match acc with Some a => a | None => 0 end + d))
      | None => acc
      end
  | EmptyString => acc
  end.

(** [None] is [NaN]. *)
Definition parseInt10 (s : string) : option Z :=
  match trim_start s with
  | String "-" rest => option_map Z.opp (parse_digits rest None)
  | String "+" rest => parse_digits rest None
  | t => parse_digits t None
  end.

(** ** Request parameters *)

Module CompanyParams.
Record t := mk
  { limit : option Z; category : option string; search : option string;
    verified : option bool }.
Definition none : t := mk None None None None.
End CompanyParams.

Module EventParams.
Record t := mk
  { limit : option Z; category : option string; search : option string;
    country : option string; city : option string;
    upcoming : option bool }.
Definition none : t := mk None None None None None None.
End EventParams.

(** [params?.field] *)
Definition optChain {P A} (params : option P) (field : P -> option A)
  : option A :=
  match params with None => None | Some p => field p end.

(** [a || b] on values that are objects or [undefined]/[null]. *)
Definition or_else {A} (a b : option A) : option A :=
  match a with Some _ => a | None => b end.

(** [if (v) url.searchParams.set(k, show(v))] *)
Definition set_if_truthy {A} (truthy : A -> bool) (show : A -> string)
    (k : string) (v : option A) (u : URL.t) : URL.t :=
  match v with
  | Some a => if truthy a then URL.set k (show a) u else u
  | None => u
  end.

(** [if (v !== undefined) url.searchParams.set(k, show(v))] *)
Definition set_if_defined {A} (show : A -> string)
    (k : string) (v : option A) (u : URL.t) : URL.t :=
  match v with
  | Some a => URL.set k (show a) u
  | None => u
  end.

Definition id_string (s : string) : string := s.

(** ** [class BlockzaAPIClient] *)

Section Server.

(** [Date.parse]: the time value of a date string in milliseconds, [None]
    for an invalid date (whose time value is [NaN]). *)
Variable Date_parse : string -> option Z.

(** [JSON.stringify(value, null, 2)] *)
Variable JSON_stringify : Json -> string.

(** [(sum / count).toFixed(2)] for a non-zero [count] *)
Variable toFixed2 : Z -> Z -> string.

Definition baseUrl : string := "https://api.blockza.io/api/directory".
Definition eventsUrl : string := "https://api.blockza.io/api/events".

Definition http_error {T} (r : Response.t T) : JsError.t :=
  JsError.Error
    (tpl ["HTTP "; Z_toString (Response.status r); ": ";
          Response.statusText r]%string).

Definition companies_url (params : option CompanyParams.t) : URL.t :=
  let url := URL.new baseUrl in
  let url := set_if_truthy truthy_number Z_toString "limit"
               (optChain params CompanyParams.limit) url in
  let url := set_if_truthy truthy_string id_string "category"
               (optChain params CompanyParams.category) url in
  let url := set_if_truthy truthy_string id_string "search"
               (optChain params CompanyParams.search) url in
  let url := set_if_defined bool_toString "verified"
               (optChain params CompanyParams.verified) url in
  url.

Definition getCompanies (params : option CompanyParams.t)
  : Async ApiResponse.t :=
  tryCatch
    (let url := companies_url params in
     response <- fetch World.directoryApi url ;;
     if negb (Response.ok response) then throw (http_error response)
     else response_json response)
    (fun error => throw error).

Definition getCompanyBySlug (slug : string) : Async (option Company.t) :=
  tryCatch
    (data <- getCompanies
               (Some (CompanyParams.mk None None (Some slug) None)) ;;
     if ApiResponse.success data
        && (0 <? Z.of_nat (List.length (ApiResponse.data data)))
     then
       let company :=
         find (fun c => String.eqb (Company.slug c) slug)
              (ApiResponse.data data) in
       ret (or_else company (or_else (hd_error (ApiResponse.data data)) None))
     else ret None)
    (fun error => ret None).

Definition getCompaniesByCategory (category : string)
  : Async (list Company.t) :=
  tryCatch
    (data <- getCompanies
               (Some (CompanyParams.mk None (Some category) None None)) ;;
     ret (if ApiResponse.success data then ApiResponse.data data else []))
    (fun error => ret []).

Definition events_url (params : option EventParams.t) : URL.t :=
  let url := URL.new eventsUrl in
  let url := set_if_truthy truthy_number Z_toString "limit"
               (optChain params EventParams.limit) url in
  let url := set_if_truthy truthy_string id_string "category"
               (optChain params EventParams.category) url in
  let url := set_if_truthy truthy_string id_string "search"
               (optChain params EventParams.search) url in
  let url := set_if_truthy truthy_string id_string "country"
               (optChain params EventParams.country) url in
  let url := set_if_truthy truthy_string id_string "city"
               (optChain params EventParams.city) url in
  let url := set_if_defined bool_toString "upcoming"
               (optChain params EventParams.upcoming) url in
  url.

Definition getEvents (params : option EventParams.t)
  : Async (list Event.t) :=
  tryCatch
    (let url := events_url params in
     response <- fetch World.eventsApi url ;;
     if negb (Response.ok response) then throw (http_error response)
     else
       data <- response_json response ;;
       ret (match data with
            | EventsArray events => events
            | NotAnArray _ => []
            end))
    (fun error => throw error).

Definition getEventById (id : string) : Async (option Event.t) :=
  tryCatch
    (events <- getEvents None ;;
     ret (or_else (find (fun event => String.eqb (Event._id event) id) events)
                  None))
    (fun error => ret None).

Definition getEventsByCategory (category : string) : Async (list Event.t) :=
  tryCatch
    (getEvents
       (Some (EventParams.mk None (Some category) None None None None)))
    (fun error => ret []).

(** [new Date(s) > now]: false when [s] is not a valid date. *)
Definition starts_after (now : Z) (event : Event.t) : bool :=
  match Date_parse (Event.eventStartDate event) with
  | Some t => now <? t
  | None => false
  end.

Definition getUpcomingEvents : Async (list Event.t) :=
  tryCatch
    (events <- getEvents None ;;
     now <- Date_now ;;
     ret (filter (starts_after now) events))
    (fun error => ret []).

Definition getEventsByLocation (country city : option string)
  : Async (list Event.t) :=
  tryCatch
    (getEvents (Some (EventParams.mk None None None country city None)))
    (fun error => ret []).

(** ** Shapes handed back to the protocol host *)

(** A tool result: one text content item and the [isError] flag, [false]
    where the handler leaves the flag out. *)
Record ToolResult := mkTool { text : string; isError : bool }.

(** A resource result: one content item. *)
Record ResourceResult := mkResource
  { res_uri : string; res_text : string; mimeType : option string }.

(** A prompt result: one message of role "user" with a text content. *)
Record PromptResult := mkPrompt { role : string; prompt_text : string }.

Definition nl : string := String (ascii_of_nat 10) EmptyString.
Definition dquote : string := String (ascii_of_nat 34) EmptyString.

(** [${value}] of a string that may be [undefined]. *)
Definition show_opt (o : option string) : string :=
  match o with Some s => s | None => "undefined"%string end.

(** [n || 0] on a number. *)
Definition num_or_0 (n : Z) : Z := if truthy_number n then n else 0.

(** [limit ? xs.slice(0, limit) : xs] *)
Definition take_limit {A} (limit : option Z) (xs : list A) : list A :=
  if truthy_opt truthy_number limit then slice0 xs limit else xs.

Definition len {A} (xs : list A) : Z := Z.of_nat (List.length xs).

(** The distinct truthy values of a field, in order of first occurrence:
    [xs.forEach(x => { if (x.field) set.add(x.field) })]. *)
Definition collect {A} (field : A -> string) (xs : list A) : StringSet.t :=
  fold_left
    (fun set x => if truthy_string (field x) then StringSet.add set (field x)
                  else set)
    xs StringSet.empty.

(** [Array.from(set).sort()] as a JSON array of strings. *)
Definition sorted_members (set : StringSet.t) : list string :=
  Array_sort default_compare (StringSet.toArray set).

Definition strings_json (xs : list string) : Json := JArr (map JStr xs).

(** *** Serialised views of the upstream records *)

Definition socialLinks_json (l : SocialLinks.t) : Json :=
  JObj [("facebook", JStr (SocialLinks.facebook l));
        ("linkedin", JStr (SocialLinks.linkedin l));
        ("telegram", JStr (SocialLinks.telegram l));
        ("twitter", JStr (SocialLinks.twitter l));
        ("youtube", JStr (SocialLinks.youtube l))]%string.

Definition promotionSettings_json (p : PromotionSettings.t) : Json :=
  JObj [("hasAffiliateProgram",
         JBool (PromotionSettings.hasAffiliateProgram p));
        ("interestedInBusinessPartnership",
         JBool (PromotionSettings.interestedInBusinessPartnership p))]%string.

Definition teamMember_json (m : TeamMember.t) : Json :=
  JObj [("_id", JStr (TeamMember._id m));
        ("name", JStr (TeamMember.name m));
        ("title", JStr (TeamMember.title m));
        ("email", JStr (TeamMember.email m));
        ("image", JStr (TeamMember.image m));
        ("linkedinUrl", JStr (TeamMember.linkedinUrl m));
        ("price", JNum (TeamMember.price m));
        ("bookingMethods", strings_json (TeamMember.bookingMethods m));
        ("status", JStr (TeamMember.status m));
        ("followers", JNum (TeamMember.followers m));
        ("responseRate", JNum (TeamMember.responseRate m))]%string.

Definition eventSocialLinks_json (l : EventSocialLinks.t) : Json :=
  JObj [("linkedin", JStr (EventSocialLinks.linkedin l));
        ("telegram", JStr (EventSocialLinks.telegram l));
        ("twitter", JStr (EventSocialLinks.twitter l));
        ("instagram", JStr (EventSocialLinks.instagram l))]%string.

(** The summary shape of the company tools. *)
Definition company_summary (company : Company.t) : Json :=
  JObj [("_id", JStr (Company._id company));
        ("name", JStr (Company.name company));
        ("slug", JStr (Company.slug company));
        ("category", JStr (Company.category company));
        ("shortDescription", JStr (Company.shortDescription company));
        ("logo", JStr (Company.logo company));
        ("banner", JStr (Company.banner company));
        ("founderName", JStr (Company.founderName company));
        ("verificationStatus", JStr (Company.verificationStatus company));
        ("url", JStr (Company.url company));
        ("likes", JNum (Company.likes company));
        ("views", JNum (Company.views company))]%string.

Definition event_location (event : Event.t) : string :=
  tpl [Event.city event; ", "; Event.country event]%string.

(** The summary shape of [get_events_by_category]. *)
Definition event_summary_plain (event : Event.t) : Json :=
  JObj [("id", JStr (Event._id event));
        ("title", JStr (Event.title event));
        ("company", JStr (Event.company event));
        ("location", JStr (event_location event));
        ("eventStartDate", JStr (Event.eventStartDate event));
        ("eventEndDate", JStr (Event.eventEndDate event));
        ("website", JStr (Event.website event))]%string.

(** The summary shape of [get_upcoming_events] and
    [get_events_by_location]. *)
Definition event_summary (event : Event.t) : Json :=
  JObj [("id", JStr (Event._id event));
        ("title", JStr (Event.title event));
        ("company", JStr (Event.company event));
        ("category", JStr (Event.category event));
        ("location", JStr (event_location event));
        ("eventStartDate", JStr (Event.eventStartDate event));
        ("eventEndDate", JStr (Event.eventEndDate event));
        ("website", JStr (Event.website event))]%string.

(** ** Resource handlers *)

Definition json_mime : option string := Some "application/json"%string.

Definition error_doc (msg : string) : Json := JObj [("error"%string, JStr msg)].

Definition categories_doc (set : StringSet.t) : Json :=
  JObj [("success", JBool true);
        ("categories", strings_json (sorted_members set))]%string.

(** [blockza://categories] *)
Definition categories_resource (uri : string) : Async ResourceResult :=
  tryCatch
    (data <- getCompanies None ;;
     let categories :=
       if ApiResponse.success data
       then collect Company.category (ApiResponse.data data)
       else StringSet.empty in
     ret (mkResource uri (JSON_stringify (categories_doc categories))
                     json_mime))
    (fun error =>
       ret (mkResource uri
              (JSON_stringify
                 (error_doc (tpl ["Failed to fetch categories: ";
                                  JsError.toString error]%string)))
              json_mime)).

(** [blockza://events/categories] *)
Definition event_categories_resource (uri : string) : Async ResourceResult :=
  tryCatch
    (events <- getEvents None ;;
     let categories := collect Event.category events in
     ret (mkResource uri (JSON_stringify (categories_doc categories))
                     json_mime))
    (fun error =>
       ret (mkResource uri
              (JSON_stringify
                 (error_doc (tpl ["Failed to fetch event categories: ";
                                  JsError.toString error]%string)))
              json_mime)).

(** ** Tool handlers *)

Definition tool_error (pieces : list string) : ToolResult :=
  mkTool (tpl pieces) true.

Definition data_block (tag : string) (rows : list Json) (summary : list string)
  : string :=
  tpl [tag; "_DATA_START"; nl; JSON_stringify (JArr rows); nl;
       tag; "_DATA_END"; nl; nl; tpl summary]%string.

(** [search_companies] *)
Definition search_companies (search category : option string)
    (limit : option Z) (verified_only : option bool) : Async ToolResult :=
  tryCatch
    (let params := CompanyParams.mk limit category search verified_only in
     data <- getCompanies (Some params) ;;
     if negb (ApiResponse.success data) then
       ret (tool_error
              ["Failed to search companies: API returned unsuccessful response"%string])
     else
       let companies := ApiResponse.data data in
       let results := map company_summary companies in
       ret (mkTool
              (data_block "COMPANIES" results
                 ["Found "; Z_toString (len results);
                  " companies matching your search criteria."]%string)
              false))
    (fun error =>
       ret (tool_error ["Error searching companies: ";
                        JsError.toString error]%string)).

Definition company_details (company : Company.t) (include_team : bool)
  : Json :=
  JObj ([("basic_info",
          JObj [("name", JStr (Company.name company));
                ("slug", JStr (Company.slug company));
                ("category", JStr (Company.category company));
                ("shortDescription", JStr (Company.shortDescription company));
                ("detail", JStr (Company.detail company));
                ("logo", JStr (Company.logo company));
                ("banner", JStr (Company.banner company));
                ("url", JStr (Company.url company));
                ("verificationStatus",
                 JStr (Company.verificationStatus company))]);
         ("founder",
          JObj [("name", JStr (Company.founderName company));
                ("details", JStr (Company.founderDetails company));
                ("email", JStr (Company.founderEmail company));
                ("image", JStr (Company.founderImage company));
                ("followers", JNum (Company.founderFollowers company));
                ("responseRate",
                 JNum (Company.founderResponseRate company))]);
         ("social_links", socialLinks_json (Company.socialLinks company));
         ("promotion_settings",
          promotionSettings_json (Company.promotionSettings company));
         ("stats",
          JObj [("likes", JNum (Company.likes company));
                ("views", JNum (Company.views company));
                ("followerPrice", JNum (Company.followerPrice company))])]%string
        ++ (if include_team
            then [("team_members"%string,
                   JArr (map teamMember_json (Company.teamMembers company)))]
            else [])).

(** [get_company_details]; [include_team] defaults to [false]. *)
Definition get_company_details (identifier : string)
    (include_team : option bool) : Async ToolResult :=
  let include_team :=
    match include_team with Some b => b | None => false end in
  tryCatch
    (company <- getCompanyBySlug identifier ;;
     match company with
     | None => ret (tool_error ["Company not found: "; identifier]%string)
     | Some company =>
         ret (mkTool (JSON_stringify (company_details company include_team))
                     false)
     end)
    (fun error =>
       ret (tool_error ["Error getting company details: ";
                        JsError.toString error]%string)).

(** [get_companies_by_category] *)
Definition get_companies_by_category (category : string) (limit : option Z)
  : Async ToolResult :=
  tryCatch
    (companies <- getCompaniesByCategory category ;;
     let results := take_limit limit companies in
     let summary := map company_summary results in
     ret (mkTool
            (data_block "COMPANIES" summary
               ["Found "; Z_toString (len results);
                " companies in category "; dquote; category; dquote;
                "."]%string)
            false))
    (fun error =>
       ret (tool_error ["Error getting companies by category: ";
                        JsError.toString error]%string)).

(** The mean of a counter over [count] companies, as the statistics report
    it: the [toFixed(2)] string, or the number 0 without companies. *)
Definition average (total count : Z) : Json :=
  if 0 <? count then JStr (toFixed2 total count) else JNum 0.

Definition directory_stats (companies : list Company.t) : Json :=
  let verifiedCount :=
    len (filter (fun c => String.eqb (Company.verificationStatus c) "verified")
                companies) in
  let promotedCount := len (filter Company.isPromoted companies) in
  let withAffiliateProgram :=
    len (filter (fun c => PromotionSettings.hasAffiliateProgram
                            (Company.promotionSettings c)) companies) in
  let totalLikes :=
    fold_left (fun sum c => sum + num_or_0 (Company.likes c)) companies 0 in
  let totalViews :=
    fold_left (fun sum c => sum + num_or_0 (Company.views c)) companies 0 in
  let categories := collect Company.category companies in
  JObj [("total_companies", JNum (len companies));
        ("verified_companies", JNum verifiedCount);
        ("promoted_companies", JNum promotedCount);
        ("companies_with_affiliate_programs", JNum withAffiliateProgram);
        ("total_categories", JNum (StringSet.size categories));
        ("categories", strings_json (sorted_members categories));
        ("total_likes", JNum totalLikes);
        ("total_views", JNum totalViews);
        ("average_likes_per_company", average totalLikes (len companies));
        ("average_views_per_company", average totalViews (len companies))]%string.

(** [get_directory_stats] *)
Definition get_directory_stats : Async ToolResult :=
  tryCatch
    (data <- getCompanies None ;;
     if negb (ApiResponse.success data) then
       ret (tool_error ["Failed to get directory statistics"%string])
     else
       let companies := ApiResponse.data data in
       ret (mkTool (JSON_stringify (directory_stats companies)) false))
    (fun error =>
       ret (tool_error ["Error getting directory statistics: ";
                        JsError.toString error]%string)).

Definition event_details (event : Event.t) : Json :=
  JObj [("basic_info",
         JObj [("id", JStr (Event._id event));
               ("title", JStr (Event.title event));
               ("company", JStr (Event.company event));
               ("category", JStr (Event.category event));
               ("description", JStr (Event.description event))]);
        ("location",
         JObj [("venue", JStr (Event.location event));
               ("city", JStr (Event.city event));
               ("country", JStr (Event.country event))]);
        ("dates",
         JObj [("start", JStr (Event.eventStartDate event));
               ("end", JStr (Event.eventEndDate event))]);
        ("links",
         JObj [("website", JStr (Event.website event));
               ("featuredImage", JStr (Event.featuredImage event))]);
        ("social_links", eventSocialLinks_json (Event.socialLinks event));
        ("metadata",
         JObj [("createdAt", JStr (Event.createdAt event));
               ("updatedAt", JStr (Event.updatedAt event))])]%string.

(** [get_event_details] *)
Definition get_event_details (event_id : string) : Async ToolResult :=
  tryCatch
    (event <- getEventById event_id ;;
     match event with
     | None => ret (tool_error ["Event not found: "; event_id]%string)
     | Some event => ret (mkTool (JSON_stringify (event_details event)) false)
     end)
    (fun error =>
       ret (tool_error ["Error getting event details: ";
                        JsError.toString error]%string)).

(** [get_events_by_category] *)
Definition get_events_by_category (category : string) (limit : option Z)
  : Async ToolResult :=
  tryCatch
    (events <- getEventsByCategory category ;;
     let results := take_limit limit events in
     let summary := map event_summary_plain results in
     ret (mkTool
            (data_block "EVENTS" summary
               ["Found "; Z_toString (len results);
                " events in category "; dquote; category; dquote;
                "."]%string)
            false))
    (fun error =>
       ret (tool_error ["Error getting events by category: ";
                        JsError.toString error]%string)).

(** [get_upcoming_events] *)
Definition get_upcoming_events (limit : option Z) : Async ToolResult :=
  tryCatch
    (events <- getUpcomingEvents ;;
     let results := take_limit limit events in
     let summary := map event_summary results in
     ret (mkTool
            (data_block "EVENTS" summary
               ["Found "; Z_toString (len results);
                " upcoming events."]%string)
            false))
    (fun error =>
       ret (tool_error ["Error getting upcoming events: ";
                        JsError.toString error]%string)).

Definition location_validation_error : ToolResult :=
  tool_error ["Please provide either a country or city parameter"%string].

(** [get_events_by_location] *)
Definition get_events_by_location (country city : option string)
    (limit : option Z) : Async ToolResult :=
  tryCatch
    (if negb (truthy_opt truthy_string country)
        && negb (truthy_opt truthy_string city)
     then ret location_validation_error
     else
       events <- getEventsByLocation country city ;;
       let results := take_limit limit events in
       let summary := map event_summary results in
       let location :=
         if truthy_opt truthy_string city
         then tpl [show_opt city; ", "; show_opt country]%string
         else show_opt country in
       ret (mkTool
              (data_block "EVENTS" summary
                 ["Found "; Z_toString (len results); " events in ";
                  location; "."]%string)
              false))
    (fun error =>
       ret (tool_error ["Error getting events by location: ";
                        JsError.toString error]%string)).

Definition events_stats (events upcomingEvents : list Event.t) : Json :=
  let categories := collect Event.category events in
  let countries := collect Event.country events in
  let cities := collect Event.city events in
  let companies := collect Event.company events in
  JObj [("total_events", JNum (len events));
        ("upcoming_events", JNum (len upcomingEvents));
        ("past_events", JNum (len events - len upcomingEvents));
        ("total_categories", JNum (StringSet.size categories));
        ("categories", strings_json (sorted_members categories));
        ("total_countries", JNum (StringSet.size countries));
        ("countries", strings_json (sorted_members countries));
        ("total_cities", JNum (StringSet.size cities));
        ("cities", strings_json (sorted_members cities));
        ("total_companies", JNum (StringSet.size companies));
        ("companies", strings_json (sorted_members companies))]%string.

(** [get_events_stats] *)
Definition get_events_stats : Async ToolResult :=
  tryCatch
    (events <- getEvents None ;;
     upcomingEvents <- getUpcomingEvents ;;
     ret (mkTool (JSON_stringify (events_stats events upcomingEvents)) false))
    (fun error =>
       ret (tool_error ["Error getting events statistics: ";
                        JsError.toString error]%string)).

(** ** Prompt handlers *)

Definition user_message (pieces : list string) : PromptResult :=
  mkPrompt "user" (tpl pieces).

(** [(a, b) => (b.views + b.likes) - (a.views + a.likes)] *)
Definition by_engagement_desc (a b : Company.t) : Z :=
  (Company.views b + Company.likes b) - (Company.views a + Company.likes a).

(** [limit ? parseInt(limit, 10) : 5], [None] for [NaN]. *)
Definition numLimit (limit : string) : option Z :=
  if truthy_string limit then parseInt10 limit else Some 5.

(** The companies a comparison is made of. *)
Definition topCompanies (companies : list Company.t) (limit : string)
  : list Company.t :=
  slice0 (Array_sort by_engagement_desc companies) (numLimit limit).

Definition company_comparison_row (company : Company.t) : Json :=
  JObj [("name", JStr (Company.name company));
        ("description", JStr (Company.shortDescription company));
        ("founder", JStr (Company.founderName company));
        ("verification", JStr (Company.verificationStatus company));
        ("engagement",
         JObj [("likes", JNum (Company.likes company));
               ("views", JNum (Company.views company))]);
        ("hasAffiliateProgram",
         JBool (PromotionSettings.hasAffiliateProgram
                  (Company.promotionSettings company)));
        ("teamSize", JNum (num_or_0 (len (Company.teamMembers company))));
        ("url", JStr (Company.url company))]%string.

Definition comparison_instructions : list string :=
  ["Please provide a detailed comparison covering:"; nl;
   "1. Market positioning and unique value propositions"; nl;
   "2. Founder backgrounds and leadership styles"; nl;
   "3. User engagement and community presence"; nl;
   "4. Business model differences"; nl;
   "5. Partnership and growth opportunities"; nl;
   "6. Competitive advantages and weaknesses"; nl;
   "7. Recommendations for each company's improvement areas"; nl; nl;
   "Rank them by overall potential and explain your reasoning."]%string.

(** The message that asks for the comparison of [top]. *)
Definition comparison_message (category : string) (top : list Company.t)
  : PromptResult :=
  let companyData := map company_comparison_row top in
  user_message
    (["Please compare the following "%string; Z_toString (len top);
      " companies in the "%string; dquote; category; dquote;
      " category:"%string; nl; nl;
      JSON_stringify (JArr companyData); nl; nl]
     ++ comparison_instructions).

(** The guidance given when there is nothing to compare. *)
Definition no_companies_message (category : string) : PromptResult :=
  user_message
    ["No companies found in category "; dquote; category; dquote;
     ". Please suggest how to find companies in this category or recommend similar categories."]%string.

(** [limit = "5"] in the parameter list: the default of an absent limit. *)
Definition limit_or_default (limit : option string) : string :=
  match limit with Some l => l | None => "5"%string end.

(** The [compare_companies] prompt. *)
Definition compare_companies (category limit : option string)
  : Async PromptResult :=
  let limit := limit_or_default limit in
  if negb (truthy_opt truthy_string category) then
    ret (user_message
           ["Please provide a category to compare companies within."%string])
  else
    let category := show_opt category in
    companies <- getCompaniesByCategory category ;;
    let top := topCompanies companies limit in
    if len top =? 0 then ret (no_companies_message category)
    else ret (comparison_message category top).

End Server.

(** ** Properties stated over the handlers' results *)

(** The value of a field of a JSON object. *)
Definition Json_get (key : string) (doc : Json) : option Json :=
  match doc with
  | JObj fields =>
      option_map snd (find (fun kv => String.eqb (fst kv) key) fields)
  | _ => None
  end.

(** Lexicographic order on strings by character code, strict. *)
Definition string_lt (a b : string) : Prop := String.compare a b = Lt.

(** An aggregate set as the handlers report it: strictly ascending, hence
    without duplicates, and free of the empty string. *)
Definition aggregate_ok (l : list string) : Prop :=
  StronglySorted string_lt l /\ NoDup l /\ ~ In EmptyString l.

(** A field of a document holds such an aggregate, whose members are the
    non-empty strings among [values]. *)
Definition aggregate_field (doc : Json) (key : string) (values : list string)
  : Prop :=
  exists l,
    Json_get key doc = Some (strings_json l)
    /\ aggregate_ok l
    /\ forall s, In s l <-> s <> EmptyString /\ In s values.

(** [sub] keeps some elements of [full], in their order. *)
Inductive subseq {A} : list A -> list A -> Prop :=
| subseq_nil : subseq [] []
| subseq_skip x sub full : subseq sub full -> subseq sub (x :: full)
| subseq_keep x sub full : subseq sub full -> subseq (x :: sub) (x :: full).



(** The completion of a list call, read off the answer of the upstream. *)
Definition settle {T} (o : FetchOutcome T) : Completion T :=
  match o with
  | Rejected e => Throw e
  | Responded r =>
      if Response.ok r
      then match Response.json r with
           | SyntaxErr e => Throw e
           | Parsed v => Normal v
           end
      else Throw (http_error r)
  end.

Definition array_or_empty (p : EventsPayload) : list Event.t :=
  match p with EventsArray events => events | NotAnArray _ => [] end.

(** A 2xx response whose body parses to [v]. *)
Definition ok_response {T} (status : Z) (statusText : string) (v : T)
  : FetchOutcome T :=
  Responded (Response.mk status statusText (Parsed v)).

(** The sum of a counter over a listing. *)
Definition total {A} (counter : A -> Z) (xs : list A) : Z :=
  fold_right Z.add 0 (map counter xs).

(** The request of a slug lookup and of a category listing. *)
Definition search_url (slug : string) : URL.t :=
  companies_url (Some (CompanyParams.mk None None (Some slug) None)).

Definition category_url (category : string) : URL.t :=
  companies_url (Some (CompanyParams.mk None (Some category) None None)).

(** ** Fixtures for concrete runs *)

(** A company of the fixture listings; fields that play no part are empty. *)
Definition company_fixture (slug category : string) (likes views : Z)
  : Company.t :=
  Company.mk slug slug slug "" "" category "" "" "" "" "" "" "verified" ""
    false likes views (SocialLinks.mk "" "" "" "" "")
    (PromotionSettings.mk false false) [] "" "" 0 0 0.

(** An event of the fixture listings, its start date written as a number
    of milliseconds. *)
Definition event_fixture (id category country city start : string)
  : Event.t :=
  Event.mk id id "Blockza" "" "" country city start start category "" ""
    (EventSocialLinks.mk "" "" "" "") "" "" 0.

(** A world whose endpoints give the same answer to every request, at a
    fixed time. *)
Definition world_of (directory : FetchOutcome ApiResponse.t)
    (events : FetchOutcome EventsPayload) (now : Z) : World.t :=
  World.mk (fun _ _ => directory) (fun _ _ => events) (fun _ => now).

(** A 500 answer with an HTML body. *)
Definition internal_server_error {T} : FetchOutcome T :=
  Responded
    (Response.mk 500 "Internal Server Error"
       (SyntaxErr (JsError.mk "SyntaxError" "Unexpected token < in JSON"))).

(** A network failure. *)
Definition fetch_failed {T} : FetchOutcome T :=
  Rejected (JsError.mk "TypeError" "fetch failed").

Definition no_companies : FetchOutcome ApiResponse.t :=
  ok_response 200 "OK" (ApiResponse.mk true []).

Definition no_events : FetchOutcome EventsPayload :=
  ok_response 200 "OK" (EventsArray []).

(** Runtime functions for the concrete runs: dates are decimal numbers of
    milliseconds, documents are rendered by their kind only, and a mean is
    the integer quotient. *)
Definition sample_Date_parse (s : string) : option Z := parse_digits s None.

Definition sample_stringify (j : Json) : string :=
  match j with
  | JNull => "null"
  | JBool b => bool_toString b
  | JNum z => Z_toString z
  | JStr s => s
  | JArr items => tpl ["["; Z_toString (len items); " items]"]
  | JObj fields => tpl ["{"; Z_toString (len fields); " fields}"]
  end%string.

Definition sample_toFixed2 (sum count : Z) : string :=
  Z_toString (sum / count).

(** The fixture listings. *)
Definition acme : Company.t := company_fixture "acme" "AI" 10 100.
Definition beta : Company.t := company_fixture "beta" "DeFi" 5 500.
Definition gamma : Company.t := company_fixture "gamma" "AI" 1 2.

Definition conference : Event.t :=
  event_fixture "evt-1" "Conference" "France" "Paris" "500".
Definition meetup : Event.t :=
  event_fixture "evt-2" "Meetup" "Japan" "Tokyo" "1500".
Definition summit : Event.t :=
  event_fixture "evt-3" "Conference" "France" "Lyon" "2000".
Definition undated : Event.t :=
  event_fixture "evt-4" "" "Japan" "" "soon".

(** The directory lists three companies and four events; it is 1000. *)
Definition world_listed : World.t :=
  world_of (ok_response 200 "OK" (ApiResponse.mk true [acme; beta; gamma]))
           (ok_response 200 "OK"
              (EventsArray [conference; meetup; summit; undated]))
           1000.

(** The upstream answers, with nothing to list. *)
Definition world_empty : World.t := world_of no_companies no_events 1000.

(** The upstream answers every request with status 500. *)
Definition world_failing : World.t :=
  world_of internal_server_error internal_server_error 1000.

(** The upstream cannot be reached. *)
Definition world_unreachable : World.t :=
  world_of fetch_failed fetch_failed 1000.

(** The upstream answers 200 with bodies that do not conform: an
    unsuccessful envelope that still carries a record, and an error object
    where the array of events should be. *)
Definition world_non_conforming : World.t :=
  world_of (ok_response 200 "OK" (ApiResponse.mk false [acme]))
           (ok_response 200 "OK"
              (NotAnArray (JObj [("error"%string, JStr "maintenance")])))
           1000.

(** * The rest of the server *)

(** ** More of the string runtime *)

(** [String.prototype.toLowerCase] on one Latin-1 code unit: the letters
    A-Z and the accented capitals other than the multiplication sign move
    32 places up. *)
Definition lower_char (c : ascii) : ascii :=
  let n := nat_of_ascii c in
  if ((65 <=? n) && (n <=? 90)
      || (192 <=? n) && (n <=? 222) && negb (n =? 215))%nat
  then ascii_of_nat (n + 32)
  else c.

Fixpoint toLowerCase (s : string) : string :=
  match s with
  | EmptyString => EmptyString
  | String c rest => String (lower_char c) (toLowerCase rest)
  end.

(** [s.includes(sub)]: [sub] occurs in [s] at some position. *)
Fixpoint includes (s sub : string) : bool :=
  String.prefix sub s
  || match s with
     | EmptyString => false
     | String _ rest => includes rest sub
     end.

(** [a.toLowerCase().includes(b.toLowerCase())] *)
Definition includes_ci (a b : string) : bool :=
  includes (toLowerCase a) (toLowerCase b).

(** [s.split(',')]: the pieces between the commas, empty ones included. *)
Fixpoint split_comma (s : string) : list string :=
  match s with
  | EmptyString => [EmptyString]
  | String c rest =>
      if Ascii.eqb c ","
      then EmptyString :: split_comma rest
      else match split_comma rest with
           | piece :: pieces => String c piece :: pieces
           | [] => [String c EmptyString]
           end
  end.

Fixpoint trim_end (s : string) : string :=
  match s with
  | EmptyString => EmptyString
  | String c rest =>
      match trim_end rest with
      | EmptyString => if is_white_space c then EmptyString
                       else String c EmptyString
      | kept => String c kept
      end
  end.

(** [s.trim()] *)
Definition trim (s : string) : string := trim_end (trim_start s).

(** [xs.join(', ')] *)
Definition join_comma (xs : list string) : string := String.concat ", " xs.

(** ** Full serialised views *)

(** A company as [JSON.stringify] sees it. *)
Definition company_json (c : Company.t) : Json :=
  JObj [("_id", JStr (Company._id c));
        ("name", JStr (Company.name c));
        ("slug", JStr (Company.slug c));
        ("shortDescription", JStr (Company.shortDescription c));
        ("detail", JStr (Company.detail c));
        ("category", JStr (Company.category c));
        ("logo", JStr (Company.logo c));
        ("banner", JStr (Company.banner c));
        ("founderName", JStr (Company.founderName c));
        ("founderDetails", JStr (Company.founderDetails c));
        ("founderEmail", JStr (Company.founderEmail c));
        ("founderImage", JStr (Company.founderImage c));
        ("verificationStatus", JStr (Company.verificationStatus c));
        ("url", JStr (Company.url c));
        ("isPromoted", JBool (Company.isPromoted c));
        ("likes", JNum (Company.likes c));
        ("views", JNum (Company.views c));
        ("socialLinks", socialLinks_json (Company.socialLinks c));
        ("promotionSettings",
         promotionSettings_json (Company.promotionSettings c));
        ("teamMembers", JArr (map teamMember_json (Company.teamMembers c)));
        ("createdAt", JStr (Company.createdAt c));
        ("updatedAt", JStr (Company.updatedAt c));
        ("followerPrice", JNum (Company.followerPrice c));
        ("founderFollowers", JNum (Company.founderFollowers c));
        ("founderResponseRate", JNum (Company.founderResponseRate c))]%string.

Definition apiResponse_json (r : ApiResponse.t) : Json :=
  JObj [("success", JBool (ApiResponse.success r));
        ("data", JArr (map company_json (ApiResponse.data r)))]%string.

(** An event as [JSON.stringify] sees it. *)
Definition event_json (e : Event.t) : Json :=
  JObj [("_id", JStr (Event._id e));
        ("title", JStr (Event.title e));
        ("company", JStr (Event.company e));
        ("description", JStr (Event.description e));
        ("location", JStr (Event.location e));
        ("country", JStr (Event.country e));
        ("city", JStr (Event.city e));
        ("eventStartDate", JStr (Event.eventStartDate e));
        ("eventEndDate", JStr (Event.eventEndDate e));
        ("category", JStr (Event.category e));
        ("website", JStr (Event.website e));
        ("featuredImage", JStr (Event.featuredImage e));
        ("socialLinks", eventSocialLinks_json (Event.socialLinks e));
        ("createdAt", JStr (Event.createdAt e));
        ("updatedAt", JStr (Event.updatedAt e));
        ("__v", JNum (Event.__v e))]%string.

(** A variable of a resource template: a string, or a list of strings. *)
Inductive TemplateVar : Type :=
| VarString (s : string)
| VarList (l : list string).

Section Directory.

Variable Date_parse : string -> option Z.
Variable JSON_stringify : Json -> string.

(** [date.toLocaleDateString()] of a time value; [None] is an invalid
    date. *)
Variable toLocaleDateString : option Z -> string.

(** ** The other resource handlers *)

Definition json_resource (uri : string) (doc : Json) : ResourceResult :=
  mkResource uri (JSON_stringify doc) json_mime.

Definition failed_resource (uri what : string) (error : JsError.t)
  : ResourceResult :=
  json_resource uri
    (error_doc (tpl ["Failed to fetch "; what; ": ";
                     JsError.toString error]%string)).

(** [blockza://companies] *)
Definition companies_resource (uri : string) : Async ResourceResult :=
  tryCatch
    (data <- getCompanies None ;;
     ret (json_resource uri (apiResponse_json data)))
    (fun error => ret (failed_resource uri "companies" error)).

(** [blockza://company/{slug}] *)
Definition company_profile_resource (uri : string) (slug : TemplateVar)
  : Async ResourceResult :=
  tryCatch
    (match slug with
     | VarList _ =>
         ret (json_resource uri (error_doc "Invalid slug parameter"))
     | VarString slug =>
         company <- getCompanyBySlug slug ;;
         match company with
         | None =>
             ret (json_resource uri
                    (error_doc (tpl ["Company not found: "; slug]%string)))
         | Some company => ret (json_resource uri (company_json company))
         end
     end)
    (fun error => ret (failed_resource uri "company" error)).

(** [blockza://events] *)
Definition events_resource (uri : string) : Async ResourceResult :=
  tryCatch
    (events <- getEvents None ;;
     ret (json_resource uri (JArr (map event_json events))))
    (fun error => ret (failed_resource uri "events" error)).

(** [blockza://event/{id}] *)
Definition event_details_resource (uri : string) (id : TemplateVar)
  : Async ResourceResult :=
  tryCatch
    (match id with
     | VarList _ =>
         ret (json_resource uri (error_doc "Invalid event ID parameter"))
     | VarString id =>
         event <- getEventById id ;;
         match event with
         | None =>
             ret (json_resource uri
                    (error_doc (tpl ["Event not found: "; id]%string)))
         | Some event => ret (json_resource uri (event_json event))
         end
     end)
    (fun error => ret (failed_resource uri "event" error)).

(** [blockza://events/upcoming] *)
Definition upcoming_events_resource (uri : string) : Async ResourceResult :=
  tryCatch
    (events <- getUpcomingEvents Date_parse ;;
     ret (json_resource uri (JArr (map event_json events))))
    (fun error => ret (failed_resource uri "upcoming events" error)).

(** ** The other tool handlers *)

Definition team_member_row (member : TeamMember.t) : Json :=
  JObj [("name", JStr (TeamMember.name member));
        ("title", JStr (TeamMember.title member));
        ("email", JStr (TeamMember.email member));
        ("linkedin", JStr (TeamMember.linkedinUrl member));
        ("image", JStr (TeamMember.image member));
        ("status", JStr (TeamMember.status member));
        ("followers", JNum (TeamMember.followers member));
        ("responseRate", JNum (TeamMember.responseRate member));
        ("price", JNum (TeamMember.price member));
        ("bookingMethods",
         strings_json (TeamMember.bookingMethods member))]%string.

Definition team_info (company : Company.t) : Json :=
  JObj [("company", JStr (Company.name company));
        ("team_members",
         JArr (map team_member_row (Company.teamMembers company)))]%string.

(** [get_team_members] *)
Definition get_team_members (company_slug : string) : Async ToolResult :=
  tryCatch
    (company <- getCompanyBySlug company_slug ;;
     match company with
     | None => ret (tool_error ["Company not found: "; company_slug]%string)
     | Some company =>
         if len (Company.teamMembers company) =? 0 then
           ret (mkTool (tpl ["No team members found for ";
                             Company.name company]%string) false)
         else
           ret (mkTool
                  (tpl ["TEAM_DATA_START"; nl;
                        JSON_stringify (team_info company); nl;
                        "TEAM_DATA_END"; nl; nl;
                        "Found ";
                        Z_toString
                          (len (map team_member_row
                                    (Company.teamMembers company)));
                        " team members for "; Company.name company;
                        "."]%string)
                  false)
     end)
    (fun error =>
       ret (tool_error ["Error getting team members: ";
                        JsError.toString error]%string)).

(** The summary shape of [search_events]. *)
Definition event_search_row (event : Event.t) : Json :=
  JObj [("id", JStr (Event._id event));
        ("title", JStr (Event.title event));
        ("company", JStr (Event.company event));
        ("category", JStr (Event.category event));
        ("location", JStr (event_location event));
        ("eventStartDate", JStr (Event.eventStartDate event));
        ("eventEndDate", JStr (Event.eventEndDate event));
        ("website", JStr (Event.website event));
        ("featuredImage", JStr (Event.featuredImage event))]%string.

(** [search_events] *)
Definition search_events (search category country city : option string)
    (limit : option Z) (upcoming_only : option bool) : Async ToolResult :=
  tryCatch
    (let params :=
       EventParams.mk limit category search country city upcoming_only in
     events <- getEvents (Some params) ;;
     filteredEvents <-
       (if truthy_opt (fun b : bool => b) upcoming_only
        then now <- Date_now ;;
             ret (filter (starts_after Date_parse now) events)
        else ret events) ;;
     let results := map event_search_row filteredEvents in
     ret (mkTool
            (data_block JSON_stringify "EVENTS" results
               ["Found "; Z_toString (len results);
                " events matching your search criteria."]%string)
            false))
    (fun error =>
       ret (tool_error ["Error searching events: ";
                        JsError.toString error]%string)).

(** ** The other prompt handlers *)

(** The [analyze_company] prompt. *)
Definition company_analysis (company : Company.t) : PromptResult :=
  user_message
    ["Please analyze the following company from the Blockza directory:";
     nl; nl;
     "Company: "; Company.name company; nl;
     "Category: "; Company.category company; nl;
     "Verification Status: "; Company.verificationStatus company; nl;
     "Description: "; Company.shortDescription company; nl; nl;
     "Detailed Information:"; nl;
     Company.detail company; nl; nl;
     "Founder: "; Company.founderName company; nl;
     "Founder Details: "; Company.founderDetails company; nl; nl;
     "Social Presence:"; nl;
     "- Website: "; Company.url company; nl;
     "- Twitter: "; SocialLinks.twitter (Company.socialLinks company); nl;
     "- LinkedIn: "; SocialLinks.linkedin (Company.socialLinks company); nl;
     "- Telegram: "; SocialLinks.telegram (Company.socialLinks company); nl;
     "- Facebook: "; SocialLinks.facebook (Company.socialLinks company); nl;
     "- YouTube: "; SocialLinks.youtube (Company.socialLinks company); nl; nl;
     "Business Information:"; nl;
     "- Has Affiliate Program: ";
     bool_toString
       (PromotionSettings.hasAffiliateProgram
          (Company.promotionSettings company)); nl;
     "- Interested in Business Partnerships: ";
     bool_toString
       (PromotionSettings.interestedInBusinessPartnership
          (Company.promotionSettings company)); nl;
     "- Is Promoted: "; bool_toString (Company.isPromoted company); nl; nl;
     "Engagement Metrics:"; nl;
     "- Likes: "; Z_toString (Company.likes company); nl;
     "- Views: "; Z_toString (Company.views company); nl;
     "- Founder Followers: "; Z_toString (Company.founderFollowers company);
     nl; nl;
     "Team Size: ";
     Z_toString (num_or_0 (len (Company.teamMembers company)));
     " members"; nl; nl;
     "Please provide a comprehensive analysis covering:"; nl;
     "1. Business overview and market position"; nl;
     "2. Founder background and leadership"; nl;
     "3. Social media presence and engagement"; nl;
     "4. Growth potential and partnership opportunities"; nl;
     "5. Competitive advantages"; nl;
     "6. Any notable observations or recommendations"]%string.

Definition company_slug_missing : PromptResult :=
  user_message ["Please provide a company slug to analyze."%string].

Definition company_analysis_fallback (company_slug : string) : PromptResult :=
  user_message
    ["Please provide an analysis template for when a company ";
     dquote; company_slug; dquote;
     " is not found in the directory."]%string.

Definition analyze_company (company_slug : option string)
  : Async PromptResult :=
  if negb (truthy_opt truthy_string company_slug) then
    ret company_slug_missing
  else
    let company_slug := show_opt company_slug in
    company <- getCompanyBySlug company_slug ;;
    match company with
    | None => ret (company_analysis_fallback company_slug)
    | Some company => ret (company_analysis company)
    end.

(** [startDate > now] on dates: false when a date is invalid. *)
Definition date_gt (a : option Z) (now : Z) : bool :=
  match a with Some t => now <? t | None => false end.

(** [date <= other] on dates: false when either date is invalid. *)
Definition date_le (a b : option Z) : bool :=
  match a, b with Some x, Some y => x <=? y | _, _ => false end.

(** [isUpcoming ? 'Upcoming' : isOngoing ? 'Ongoing' : 'Past'] *)
Definition event_status (now : Z) (event : Event.t) : string :=
  let startDate := Date_parse (Event.eventStartDate event) in
  let endDate := Date_parse (Event.eventEndDate event) in
  let isUpcoming := date_gt startDate now in
  let isOngoing := date_le startDate (Some now) && date_le (Some now) endDate in
  if isUpcoming then "Upcoming"%string
  else if isOngoing then "Ongoing"%string
  else "Past"%string.

Definition event_analysis (now : Z) (event : Event.t) : PromptResult :=
  let startDate := Date_parse (Event.eventStartDate event) in
  let endDate := Date_parse (Event.eventEndDate event) in
  user_message
    ["Please analyze the following event from the Blockza events directory:";
     nl; nl;
     "Event: "; Event.title event; nl;
     "Organizer: "; Event.company event; nl;
     "Category: "; Event.category event; nl;
     "Status: "; event_status now event; nl; nl;
     "Description:"; nl;
     Event.description event; nl; nl;
     "Location: "; Event.location event; ", "; Event.city event; ", ";
     Event.country event; nl;
     "Dates: "; toLocaleDateString startDate; " - ";
     toLocaleDateString endDate; nl; nl;
     "Links:"; nl;
     "- Website: "; Event.website event; nl;
     "- Featured Image: "; Event.featuredImage event; nl; nl;
     "Social Media:"; nl;
     "- Twitter: "; EventSocialLinks.twitter (Event.socialLinks event); nl;
     "- LinkedIn: "; EventSocialLinks.linkedin (Event.socialLinks event); nl;
     "- Telegram: "; EventSocialLinks.telegram (Event.socialLinks event); nl;
     "- Instagram: "; EventSocialLinks.instagram (Event.socialLinks event);
     nl; nl;
     "Please provide a comprehensive analysis covering:"; nl;
     "1. Event overview and significance in the Web3 ecosystem"; nl;
     "2. Organizer reputation and track record"; nl;
     "3. Target audience and value proposition"; nl;
     "4. Location and timing analysis"; nl;
     "5. Social media presence and marketing strategy"; nl;
     "6. Potential impact and networking opportunities"; nl;
     "7. Recommendations for attendees or organizers"; nl;
     "8. Market positioning and competitive landscape"]%string.

Definition event_id_missing : PromptResult :=
  user_message ["Please provide an event ID to analyze."%string].

Definition event_analysis_fallback (event_id : string) : PromptResult :=
  user_message
    ["Please provide an analysis template for when an event ";
     dquote; event_id; dquote; " is not found in the directory."]%string.

(** The [analyze_event] prompt. *)
Definition analyze_event (event_id : option string) : Async PromptResult :=
  if negb (truthy_opt truthy_string event_id) then ret event_id_missing
  else
    let event_id := show_opt event_id in
    event <- getEventById event_id ;;
    match event with
    | None => ret (event_analysis_fallback event_id)
    | Some event =>
        now <- Date_now ;;
        ret (event_analysis now event)
    end.

(** [event.country] or [event.city] contains [location], letter case
    aside. *)
Definition in_location (location : string) (event : Event.t) : bool :=
  includes_ci (Event.country event) location
  || includes_ci (Event.city event) location.

(** [(a, b) => new Date(a.eventStartDate).getTime()
               - new Date(b.eventStartDate).getTime()]; the sort reads a
    [NaN] difference as 0. On events with valid dates the comparison is
    consistent and the stable sort has one result; with an invalid date
    among them the runtime may leave another order, so what is stated
    about the order below is stated for valid dates. *)
Definition by_start_date (a b : Event.t) : Z :=
  match Date_parse (Event.eventStartDate a),
        Date_parse (Event.eventStartDate b) with
  | Some x, Some y => x - y
  | _, _ => 0
  end.

(** The events a comparison is made of. *)
Definition topEvents (events : list Event.t) (limit : string)
  : list Event.t :=
  slice0 (Array_sort by_start_date events) (numLimit limit).






(** [interests.toLowerCase().split(',').map(term => term.trim())] *)
Definition interest_terms (interests : string) : list string :=
  map trim (split_comma (toLowerCase interests)).

(** An event matches a term that occurs in its title, description or
    category, lowered. *)
Definition matches_term (event : Event.t) (term : string) : bool :=
  includes (toLowerCase (Event.title event)) term
  || includes (toLowerCase (Event.description event)) term
  || includes (toLowerCase (Event.category event)) term.

Definition by_interests (interests : option string) (events : list Event.t)
  : list Event.t :=
  match interests with
  | Some i =>
      if truthy_string i
      then filter (fun event => existsb (matches_term event) (interest_terms i))
                  events
      else events
  | None => events
  end.

Definition by_location (location : option string) (events : list Event.t)
  : list Event.t :=
  match location with
  | Some l => if truthy_string l then filter (in_location l) events else events
  | None => events
  end.

Definition by_event_type (event_type : option string)
    (events : list Event.t) : list Event.t :=
  match event_type with
  | Some t =>
      if truthy_string t
      then filter (fun event => includes_ci (Event.category event) t) events
      else events
  | None => events
  end.

(** [90 * 24 * 60 * 60 * 1000] *)
Definition ninety_days : Z := 90 * 24 * 60 * 60 * 1000.

(** The timeframe filter at time [now]: the next three months, or up to
    the end of 2025, or none. *)
Definition by_timeframe (timeframe : string) (now : Z)
    (events : list Event.t) : list Event.t :=
  let threeMonthsFromNow := now + ninety_days in
  let endOf2025 := Date_parse "2025-12-31" in
  if includes (toLowerCase timeframe) "next 3 months" then
    filter (fun event =>
              let eventDate := Date_parse (Event.eventStartDate event) in
              date_le (Some now) eventDate
              && date_le eventDate (Some threeMonthsFromNow))
           events
  else if includes (toLowerCase timeframe) "2025" then
    filter (fun event =>
              let eventDate := Date_parse (Event.eventStartDate event) in
              date_le eventDate endOf2025)
           events
  else events.

(** [events.sort(...).slice(0, 10)] *)
Definition top_recommendations (events : list Event.t) : list Event.t :=
  slice0 (Array_sort by_start_date events) (Some 10).

Definition recommendation_row (event : Event.t) : Json :=
  JObj [("id", JStr (Event._id event));
        ("title", JStr (Event.title event));
        ("organizer", JStr (Event.company event));
        ("category", JStr (Event.category event));
        ("location", JStr (event_location event));
        ("dates", JStr (Event.eventStartDate event));
        ("website", JStr (Event.website event));
        ("description",
         JStr (String.substring 0 200 (Event.description event) ++ "..."))]%string.

(** [if (value) criteria.push(`Label: ${value}`)] *)
Definition criterion (label : string) (value : option string) : list string :=
  match value with
  | Some v => if truthy_string v then [tpl [label; ": "; v]%string] else []
  | None => []
  end.

Definition recommendation_criteria
    (interests location timeframe event_type : option string) : list string :=
  criterion "Interests" interests ++ criterion "Location" location
  ++ criterion "Timeframe" timeframe ++ criterion "Event Type" event_type.

Definition recommendations_message (criteria : list string)
    (recommendations : list Event.t) : PromptResult :=
  user_message
    ["Based on your criteria: "; join_comma criteria; nl; nl;
     "I found "; Z_toString (len recommendations);
     " events that match your preferences:"; nl; nl;
     JSON_stringify (JArr (map recommendation_row recommendations)); nl; nl;
     "Please provide personalized recommendations covering:"; nl;
     "1. Why each event matches the user's criteria"; nl;
     "2. Expected value and learning opportunities"; nl;
     "3. Networking potential and target audience"; nl;
     "4. Logistics and practical considerations"; nl;
     "5. Alternative options if the top recommendations don't work"; nl;
     "6. Tips for maximizing the event experience"; nl;
     "7. Follow-up actions and preparation suggestions"; nl; nl;
     "Rank the recommendations by relevance and explain your reasoning."]%string.

Definition recommendations_failed (error : JsError.t) : PromptResult :=
  user_message
    ["Error generating event recommendations: "; JsError.toString error;
     ". Please provide guidance on how to help users find relevant events."]%string.

(** The [event_recommendations] prompt. *)
Definition event_recommendations
    (interests location timeframe event_type : option string)
  : Async PromptResult :=
  tryCatch
    (events <- getEvents None ;;
     let events := by_interests interests events in
     let events := by_location location events in
     let events := by_event_type event_type events in
     events <-
       (if truthy_opt truthy_string timeframe
        then now <- Date_now ;;
             ret (by_timeframe (show_opt timeframe) now events)
        else ret events) ;;
     let recommendations := top_recommendations events in
     let criteria :=
       recommendation_criteria interests location timeframe event_type in
     ret (recommendations_message criteria recommendations))
    (fun error => ret (recommendations_failed error)).

End Directory.

(** ** The HTTP front of the server

    The request listener of [main] in HTTP mode, up to the point where it
    hands the request to a transport of the protocol library. *)

(** What [transports[sessionId]] holds when it holds something: a
    [StreamableHTTPServerTransport], or any other value. *)
Inductive TransportKind : Type :=
| StreamableHTTP
| OtherTransport.

Module HttpRequest.
Record t := mk
  { method : string;
    (** [url.parse(req.url || '').pathname] *)
    pathname : option string;
    (** [req.headers['mcp-session-id']] *)
    sessionId : option string;
    (** the chunks of the request body, concatenated *)
    body : string }.
End HttpRequest.

(** What the listener does with a request: it answers itself, or it hands
    the request and the parsed body to the transport of an existing session,
    or to a new transport that it connects to the server first. *)
Inductive HttpOutcome : Type :=
| Reply (status : Z) (contentType : option string) (text : string)
| HandleWith (sessionId : string) (parsedBody : option Json)
| ConnectAndHandle (parsedBody : option Json).

(** Truthiness of a parsed JSON value. *)
Definition truthy_json (j : Json) : bool :=
  match j with
  | JNull => false
  | JBool b => b
  | JNum z => truthy_number z
  | JStr s => truthy_string s
  | JArr _ => true
  | JObj _ => true
  end.

Definition jsonrpc_error (code : Z) (message : string) : Json :=
  JObj [("jsonrpc", JStr "2.0");
        ("error", JObj [("code", JNum code); ("message", JStr message)]);
        ("id", JNull)]%string.

Definition health_doc : Json :=
  JObj [("status", JStr "healthy");
        ("server", JStr "blockza-directory-mcp-server");
        ("tools", JNum 12)]%string.

Section HttpFront.

(** [JSON.stringify(value)] *)
Variable JSON_stringify_compact : Json -> string.

(** [JSON.parse(text)], [None] when it throws. *)
Variable JSON_parse : string -> option Json.

(** [isInitializeRequest] of the protocol library. *)
Variable isInitializeRequest : Json -> bool.

(** The session registry: [transports[sessionId]], [None] when falsy. *)
Variable transports : string -> option TransportKind.

Definition json_reply (status : Z) (doc : Json) : HttpOutcome :=
  Reply status (Some "application/json"%string) (JSON_stringify_compact doc).

(** The [/mcp] endpoint. *)
Definition handle_mcp (req : HttpRequest.t) : HttpOutcome :=
  let body :=
    if String.eqb (HttpRequest.method req) "POST" then HttpRequest.body req
    else EmptyString in
  (* [body ? JSON.parse(body) : undefined], [None] when it throws *)
  let parsed :=
    if truthy_string body then option_map Some (JSON_parse body)
    else Some None in
  match parsed with
  | None => json_reply 500 (jsonrpc_error (-32603) "Internal server error")
  | Some parsedBody =>
      let sessionId := HttpRequest.sessionId req in
      let existing :=
        match sessionId with
        | Some sid => if truthy_string sid then transports sid else None
        | None => None
        end in
      match existing with
      | Some StreamableHTTP => HandleWith (show_opt sessionId) parsedBody
      | Some OtherTransport =>
          json_reply 400
            (jsonrpc_error (-32000)
               "Bad Request: Session exists but uses a different transport protocol")
      | None =>
          if negb (truthy_opt truthy_string sessionId)
             && String.eqb (HttpRequest.method req) "POST"
             && truthy_opt truthy_json parsedBody
             && truthy_opt isInitializeRequest parsedBody
          then ConnectAndHandle parsedBody
          else
            json_reply 400
              (jsonrpc_error (-32000)
                 "Bad Request: No valid session ID provided or not an initialization request")
      end
  end.

(** The request listener. *)
Definition handle_http (req : HttpRequest.t) : HttpOutcome :=
  if String.eqb (HttpRequest.method req) "OPTIONS" then
    Reply 200 None EmptyString
  else
    match HttpRequest.pathname req with
    | Some path =>
        if String.eqb path "/health" then json_reply 200 health_doc
        else if String.eqb path "/mcp" then handle_mcp req
        else
          Reply 404 (Some "text/plain"%string)
            "MCP Server - Use /mcp for StreamableHTTP connection or /health for status"
    | None =>
        Reply 404 (Some "text/plain"%string)
          "MCP Server - Use /mcp for StreamableHTTP connection or /health for status"
    end.

End HttpFront.

(** ** Properties stated over the rest of the server *)

(** The upstream call fails: the request is rejected, the status is not
    2xx, or the body is not JSON. *)
Definition failed {T} (o : FetchOutcome T) : Prop :=
  (exists e, o = Rejected e)
  \/ (exists r, o = Responded r
                /\ (Response.ok r = false
                    \/ exists e, Response.json r = SyntaxErr e)).

(** The query pair of a parameter that is sent only when truthy, and of one
    that is sent whenever it is defined. *)
Definition pair_if_truthy {A} (truthy : A -> bool) (show : A -> string)
    (k : string) (v : option A) : list (string * string) :=
  match v with
  | Some a => if truthy a then [(k, show a)] else []
  | None => []
  end.

Definition pair_if_defined {A} (show : A -> string) (k : string)
    (v : option A) : list (string * string) :=
  match v with Some a => [(k, show a)] | None => [] end.

(** Ascending by start time, for events whose start dates are valid. *)
Definition starts_no_later (Date_parse : string -> option Z)
    (a b : Event.t) : Prop :=
  exists x y,
    Date_parse (Event.eventStartDate a) = Some x
    /\ Date_parse (Event.eventStartDate b) = Some y
    /\ x <= y.

(** [Number.MAX_SAFE_INTEGER]: up to it the integers are JavaScript numbers
    and the sum of two of them that does not exceed it is exact. *)
Definition MAX_SAFE_INTEGER : Z := 2 ^ 53 - 1.

(** An integer that a JavaScript number holds exactly, and that
    [Number.prototype.toString] prints in plain decimal digits. *)
Definition safe_integer (z : Z) : Prop :=
  - MAX_SAFE_INTEGER <= z <= MAX_SAFE_INTEGER.

(** ** More fixtures *)

Definition alice : TeamMember.t :=
  TeamMember.mk "m-1" "Alice" "CTO" "" "" "" 0 [] "active" 0 0.
Definition bob : TeamMember.t :=
  TeamMember.mk "m-2" "Bob" "COO" "" "" "" 0 [] "active" 0 0.

(** A company with a team of two. *)
Definition staffed : Company.t :=
  Company.mk "c-9" "Staffed" "staffed" "" "" "AI" "" "" "" "" "" ""
    "verified" "" false 1 1 (SocialLinks.mk "" "" "" "" "")
    (PromotionSettings.mk false false) [alice; bob] "" "" 0 0 0.

Definition world_staffed : World.t :=
  world_of (ok_response 200 "OK" (ApiResponse.mk true [staffed; acme]))
           no_events 1000.

(** The events endpoint answers the first request and fails afterwards. *)
Definition world_flaky : World.t :=
  World.mk (fun _ _ => no_companies)
           (fun tr _ =>
              match tr with
              | [] => ok_response 200 "OK"
                        (EventsArray [conference; meetup; summit; undated])
              | _ :: _ => fetch_failed
              end)
           (fun _ => 1000).


Definition sample_toLocaleDateString (d : option Z) : string :=
  match d with Some t => Z_toString t | None => "Invalid Date"%string end.

(** Fixtures for the HTTP front: a parser that knows two bodies, the
    recogniser of initialize requests, and a registry of two sessions. *)
Definition initialize_request : Json :=
  JObj [("jsonrpc", JStr "2.0"); ("method", JStr "initialize")]%string.

Definition sample_JSON_parse (s : string) : option Json :=
  if String.eqb s "init" then Some initialize_request
  else if String.eqb s "0" then Some (JNum 0)
  else None.

Definition sample_isInitializeRequest (j : Json) : bool :=
  match Json_get "method" j with
  | Some (JStr m) => String.eqb m "initialize"
  | _ => false
  end.

Definition sample_transports (sid : string) : option TransportKind :=
  if String.eqb sid "s-1" then Some StreamableHTTP
  else if String.eqb sid "s-2" then Some OtherTransport
  else None.

Definition sample_handle_http : HttpRequest.t -> HttpOutcome :=
  handle_http sample_stringify sample_JSON_parse sample_isInitializeRequest
    sample_transports.

(** * Lemmas *)

(** ** Sorting *)

Section Sorting.
Context {A : Type} (cmp : A -> A -> Z).

Let le (a b : A) : Prop := cmp a b <= 0.

Lemma sort_insert_perm x l : Permutation (sort_insert cmp x l) (x :: l).
Proof.
  induction l as [|y l IH]; simpl; [reflexivity|].
  destruct (cmp x y <=? 0); [reflexivity|].
  rewrite IH. apply perm_swap.
Qed.

Lemma Array_sort_perm l : Permutation (Array_sort cmp l) l.
Proof.
  induction l as [|x l IH]; simpl; [constructor|].
  rewrite sort_insert_perm. now constructor.
Qed.

(** Stability on ties: an array that is in order already is left as it
    is, so records that compare equal keep their relative order. *)
Lemma Array_sort_in_order l :
  StronglySorted le l -> Array_sort cmp l = l.
Proof.
  induction 1 as [|x l Hs IH Hall]; simpl; [reflexivity|].
  rewrite IH. destruct l as [|y l]; [reflexivity|]. simpl.
  inversion Hall as [|? ? Hxy _]; subst. unfold le in Hxy.
  now replace (cmp x y <=? 0) with true by (symmetry; apply Z.leb_le; lia).
Qed.

Hypothesis cmp_total : forall a b, 0 < cmp a b -> cmp b a <= 0.
Hypothesis cmp_trans : forall a b c, cmp a b <= 0 -> cmp b c <= 0 -> cmp a c <= 0.

Lemma sort_insert_sorted x l :
  StronglySorted le l -> StronglySorted le (sort_insert cmp x l).
Proof.
  induction 1 as [|y l Hs IH Hall]; simpl.
  - repeat constructor.
  - destruct (cmp x y <=? 0) eqn:E.
    + apply Z.leb_le in E. constructor; [now constructor|].
      constructor; [exact E|].
      eapply Forall_impl; [|exact Hall].
      intros z Hz. eapply cmp_trans; eauto.
    + apply Z.leb_gt in E. constructor; [exact IH|].
      eapply Permutation_Forall.
      * symmetry. apply sort_insert_perm.
      * constructor; [now apply cmp_total | exact Hall].
Qed.

Lemma Array_sort_sorted l : StronglySorted le (Array_sort cmp l).
Proof.
  induction l as [|x l IH]; simpl; [constructor|].
  now apply sort_insert_sorted.
Qed.
End Sorting.

(** ** The order on strings *)

Lemma ascii_compare_lt_trans a b c :
  Ascii.compare a b = Lt -> Ascii.compare b c = Lt -> Ascii.compare a c = Lt.
Proof.
  unfold Ascii.compare. rewrite !N.compare_lt_iff. lia.
Qed.

Lemma string_lt_trans a : forall b c,
  string_lt a b -> string_lt b c -> string_lt a c.
Proof.
  unfold string_lt.
  induction a as [|x a IH]; intros [|y b] [|z c]; simpl; try congruence.
  destruct (Ascii.compare x y) eqn:Exy; try discriminate;
    destruct (Ascii.compare y z) eqn:Eyz; try discriminate; intros H1 H2.
  - apply Ascii.compare_eq_iff in Exy, Eyz. subst.
    replace (Ascii.compare z z) with Eq
      by (symmetry; unfold Ascii.compare; apply N.compare_refl).
    eauto.
  - apply Ascii.compare_eq_iff in Exy. subst. now rewrite Eyz.
  - apply Ascii.compare_eq_iff in Eyz. subst. now rewrite Exy.
  - now rewrite (ascii_compare_lt_trans _ _ _ Exy Eyz).
Qed.

Lemma string_compare_refl a : String.compare a a = Eq.
Proof.
  induction a as [|x a IH]; simpl; [reflexivity|].
  replace (Ascii.compare x x) with Eq
    by (symmetry; unfold Ascii.compare; apply N.compare_refl).
  exact IH.
Qed.

Lemma default_compare_le a b :
  default_compare a b <= 0 <-> a = b \/ string_lt a b.
Proof.
  unfold default_compare, string_lt.
  destruct (String.compare a b) eqn:E; split; intros H; try lia; auto.
  - left. now apply String.compare_eq_iff.
  - destruct H as [->|H]; [|discriminate].
    rewrite string_compare_refl in E. discriminate.
Qed.

Lemma default_compare_total a b :
  0 < default_compare a b -> default_compare b a <= 0.
Proof.
  unfold default_compare. rewrite (String.compare_antisym b a).
  destruct (String.compare a b); simpl; lia.
Qed.

Lemma default_compare_trans a b c :
  default_compare a b <= 0 -> default_compare b c <= 0 ->
  default_compare a c <= 0.
Proof.
  rewrite !default_compare_le.
  intros [->|H1] [->|H2]; auto.
  right. eapply string_lt_trans; eauto.
Qed.

(** ** Sets in insertion order *)

Lemma StringSet_has_In s x : StringSet.has s x = true <-> In x s.
Proof.
  unfold StringSet.has. rewrite existsb_exists. split.
  - intros [y [Hy E]]. apply String.eqb_eq in E. now subst.
  - intros H. exists x. split; [exact H | apply String.eqb_refl].
Qed.

Lemma StringSet_add_In s x y : In y (StringSet.add s x) <-> In y s \/ y = x.
Proof.
  unfold StringSet.add. destruct (StringSet.has s x) eqn:E.
  - apply StringSet_has_In in E. split; [auto | now intros [H| ->]].
  - rewrite in_app_iff. simpl. intuition.
Qed.

Lemma StringSet_add_NoDup s x : NoDup s -> NoDup (StringSet.add s x).
Proof.
  intros Hs. unfold StringSet.add. destruct (StringSet.has s x) eqn:E; auto.
  apply NoDup_app; [exact Hs | repeat constructor; auto |].
  intros y Hy [<-|[]].
  apply StringSet_has_In in Hy. congruence.
Qed.

Section Collect.
Context {A : Type} (field : A -> string).

Let step (set : StringSet.t) (x : A) : StringSet.t :=
  if truthy_string (field x) then StringSet.add set (field x) else set.

Lemma truthy_string_iff s : truthy_string s = true <-> s <> EmptyString.
Proof. destruct s; simpl; split; congruence. Qed.

Lemma collect_from_In xs : forall init y,
  In y (fold_left step xs init) <->
  In y init \/ (y <> EmptyString /\ exists x, In x xs /\ field x = y).
Proof.
  induction xs as [|x xs IH]; intros init y; simpl.
  - split; [auto | intros [H|[_ [x [[] _]]]]; exact H].
  - rewrite IH. unfold step.
    destruct (truthy_string (field x)) eqn:E.
    + rewrite StringSet_add_In. apply truthy_string_iff in E.
      split.
      * intros [[H| ->]|[Hy [z [Hz Ez]]]]; eauto 8.
      * intros [H|[Hy [z [[->|Hz] Ez]]]]; eauto 8.
    + split.
      * intros [H|[Hy [z [Hz Ez]]]]; eauto 8.
      * intros [H|[Hy [z [[->|Hz] Ez]]]]; eauto 8.
        subst y. apply truthy_string_iff in Hy. congruence.
Qed.

Lemma collect_from_NoDup xs : forall init,
  NoDup init -> NoDup (fold_left step xs init).
Proof.
  induction xs as [|x xs IH]; intros init Hi; simpl; [exact Hi|].
  apply IH. unfold step.
  destruct (truthy_string (field x)); [now apply StringSet_add_NoDup | exact Hi].
Qed.

Lemma collect_In xs y :
  In y (collect field xs) <->
  y <> EmptyString /\ exists x, In x xs /\ field x = y.
Proof.
  unfold collect. fold step. rewrite collect_from_In. simpl. tauto.
Qed.

Lemma collect_NoDup xs : NoDup (collect field xs).
Proof. unfold collect. fold step. apply collect_from_NoDup. constructor. Qed.
End Collect.

(** ** Sorted members of a set *)

Lemma sorted_members_In set y : In y (sorted_members set) <-> In y set.
Proof.
  unfold sorted_members, StringSet.toArray.
  split; apply Permutation_in;
    [| symmetry]; apply Array_sort_perm.
Qed.

Lemma strictly_sorted_of_NoDup l :
  StronglySorted (fun a b => default_compare a b <= 0) l -> NoDup l ->
  StronglySorted string_lt l.
Proof.
  induction 1 as [|x l Hs IH Hall]; intros Hnd; [constructor|].
  inversion Hnd as [|? ? Hx Hl]; subst.
  constructor; [now apply IH|].
  rewrite Forall_forall in *. intros y Hy.
  destruct (proj1 (default_compare_le x y) (Hall y Hy)) as [->|H]; tauto.
Qed.

Lemma sorted_members_ok set :
  NoDup set -> ~ In EmptyString set -> aggregate_ok (sorted_members set).
Proof.
  intros Hnd Hne.
  assert (Hp : Permutation (sorted_members set) set)
    by apply Array_sort_perm.
  assert (Hnd' : NoDup (sorted_members set))
    by (eapply Permutation_NoDup; [symmetry; exact Hp | exact Hnd]).
  repeat split.
  - apply strictly_sorted_of_NoDup; [|exact Hnd'].
    apply Array_sort_sorted;
      [apply default_compare_total | apply default_compare_trans].
  - exact Hnd'.
  - rewrite sorted_members_In. exact Hne.
Qed.

Lemma collected_aggregate_ok {A} (field : A -> string) xs :
  aggregate_ok (sorted_members (collect field xs)).
Proof.
  apply sorted_members_ok; [apply collect_NoDup|].
  rewrite collect_In. tauto.
Qed.

Lemma collected_aggregate_field {A} (field : A -> string) xs doc key :
  Json_get key doc = Some (strings_json (sorted_members (collect field xs))) ->
  aggregate_field doc key (map field xs).
Proof.
  intros H. eexists. split; [exact H|].
  split; [apply collected_aggregate_ok|].
  intros s. rewrite sorted_members_In, collect_In, in_map_iff.
  split; intros [Hs [x Hx]]; (split; [exact Hs|]); exists x; tauto.
Qed.

(** ** What the client's list calls settle to *)

Lemma getCompanies_run params w tr :
  getCompanies params w tr =
  (settle (World.directoryApi w tr (companies_url params)),
   tr ++ [companies_url params]).
Proof.
  unfold getCompanies, tryCatch, bind, fetch, settle, response_json, throw, ret.
  destruct (World.directoryApi w tr (companies_url params)) as [e|r];
    [reflexivity|].
  destruct (Response.ok r); simpl; [|reflexivity].
  destruct (Response.json r); reflexivity.
Qed.

Lemma getEvents_run params w tr :
  getEvents params w tr =
  (match settle (World.eventsApi w tr (events_url params)) with
   | Normal data => Normal (array_or_empty data)
   | Throw e => Throw e
   end,
   tr ++ [events_url params]).
Proof.
  unfold getEvents, tryCatch, bind, fetch, settle, response_json, throw, ret.
  destruct (World.eventsApi w tr (events_url params)) as [e|r];
    [reflexivity|].
  destruct (Response.ok r); simpl; [|reflexivity].
  destruct (Response.json r) as [e|[events|j]]; reflexivity.
Qed.

(** The selection [getCompanyBySlug] makes in a non-empty listing. *)
Lemma getCompanyBySlug_run slug w tr :
  let url := companies_url (Some (CompanyParams.mk None None (Some slug) None)) in
  getCompanyBySlug slug w tr =
  (match settle (World.directoryApi w tr url) with
   | Normal data =>
       if ApiResponse.success data
       then match find (fun c => String.eqb (Company.slug c) slug)
                       (ApiResponse.data data) with
            | Some c => Normal (Some c)
            | None => Normal (hd_error (ApiResponse.data data))
            end
       else Normal None
   | Throw _ => Normal None
   end,
   tr ++ [url]).
Proof.
  intros url. unfold getCompanyBySlug, tryCatch, bind.
  rewrite getCompanies_run. fold url.
  destruct (settle (World.directoryApi w tr url)) as [data|e]; [|reflexivity].
  destruct (ApiResponse.success data); simpl; [|reflexivity].
  destruct (ApiResponse.data data) as [|c0 rest] eqn:E; [reflexivity|].
  change (0 <? Z.of_nat (List.length (c0 :: rest))) with true. simpl.
  destruct (String.eqb (Company.slug c0) slug); [reflexivity|].
  destruct (find _ rest); reflexivity.
Qed.

Lemma getCompaniesByCategory_run category w tr :
  let url :=
    companies_url (Some (CompanyParams.mk None (Some category) None None)) in
  getCompaniesByCategory category w tr =
  (match settle (World.directoryApi w tr url) with
   | Normal data =>
       Normal (if ApiResponse.success data then ApiResponse.data data else [])
   | Throw _ => Normal []
   end,
   tr ++ [url]).
Proof.
  intros url. unfold getCompaniesByCategory, tryCatch, bind.
  rewrite getCompanies_run. fold url.
  destruct (settle (World.directoryApi w tr url)); reflexivity.
Qed.

Lemma getEventById_run id w tr :
  getEventById id w tr =
  (match settle (World.eventsApi w tr (events_url None)) with
   | Normal data =>
       Normal (find (fun event => String.eqb (Event._id event) id)
                    (array_or_empty data))
   | Throw _ => Normal None
   end,
   tr ++ [events_url None]).
Proof.
  unfold getEventById, tryCatch, bind. rewrite getEvents_run.
  destruct (settle _) as [data|e]; [|reflexivity].
  unfold ret, or_else. destruct (find _ _); reflexivity.
Qed.

Lemma getUpcomingEvents_run Date_parse w tr :
  getUpcomingEvents Date_parse w tr =
  (match settle (World.eventsApi w tr (events_url None)) with
   | Normal data =>
       Normal (filter (starts_after Date_parse
                         (World.clock w (tr ++ [events_url None])))
                      (array_or_empty data))
   | Throw _ => Normal []
   end,
   tr ++ [events_url None]).
Proof.
  unfold getUpcomingEvents, tryCatch, bind. rewrite getEvents_run.
  destruct (settle _) as [data|e]; reflexivity.
Qed.

Lemma getEventsByCategory_run category w tr :
  let url :=
    events_url
      (Some (EventParams.mk None (Some category) None None None None)) in
  getEventsByCategory category w tr =
  (match settle (World.eventsApi w tr url) with
   | Normal data => Normal (array_or_empty data)
   | Throw _ => Normal []
   end,
   tr ++ [url]).
Proof.
  intros url. unfold getEventsByCategory, tryCatch. rewrite getEvents_run.
  fold url. destruct (settle _); reflexivity.
Qed.

Lemma settle_ok {T} status statusText (v : T) :
  200 <= status <= 299 ->
  settle (ok_response status statusText v) = Normal v.
Proof.
  intros H. unfold settle, ok_response, Response.ok. simpl.
  replace (200 <=? status) with true by (symmetry; apply Z.leb_le; lia).
  replace (status <=? 299) with true by (symmetry; apply Z.leb_le; lia).
  reflexivity.
Qed.

Lemma filter_subseq {A} (keep : A -> bool) xs : subseq (filter keep xs) xs.
Proof.
  induction xs as [|x xs IH]; simpl; [constructor|].
  destruct (keep x); now constructor.
Qed.

Lemma fold_left_sum {A} (counter : A -> Z) xs : forall acc,
  fold_left (fun sum c => sum + num_or_0 (counter c)) xs acc
  = acc + total counter xs.
Proof.
  unfold total.
  induction xs as [|x xs IH]; intros acc; simpl; [lia|].
  rewrite IH. unfold num_or_0, truthy_number.
  destruct (counter x =? 0) eqn:E; simpl; [apply Z.eqb_eq in E|]; lia.
Qed.

(** ** Truncation and ranking *)

Lemma slice0_count {A} (xs : list A) (n : nat) :
  slice0 xs (Some (Z.of_nat n)) = firstn n xs.
Proof.
  unfold slice0.
  replace (Z.of_nat n <? 0) with false by (symmetry; apply Z.ltb_ge; lia).
  destruct (Nat.le_gt_cases n (List.length xs)) as [H|H].
  - rewrite Z.min_l by lia. now rewrite Nat2Z.id.
  - rewrite Z.min_r by lia. rewrite Nat2Z.id.
    rewrite firstn_all. symmetry. apply firstn_all2. lia.
Qed.

Lemma take_limit_zero {A} (xs : list A) : take_limit (Some 0) xs = xs.
Proof. reflexivity. Qed.


(** ** Query parameters *)

Lemma existsb_filter_other (k k' : string) ps :
  String.eqb k' k = false ->
  existsb (fun p : string * string => String.eqb (fst p) k)
          (filter (fun p => negb (String.eqb (fst p) k')) ps)
  = existsb (fun p => String.eqb (fst p) k) ps.
Proof.
  intros Hk. induction ps as [|[k1 v1] ps IH]; simpl; [reflexivity|].
  destruct (String.eqb k1 k') eqn:E; simpl.
  - apply String.eqb_eq in E. subst k1. now rewrite Hk.
  - now rewrite IH.
Qed.

Lemma URL_has_set_other k k' v u :
  String.eqb k' k = false -> URL.has k (URL.set k' v u) = URL.has k u.
Proof.
  intros Hk. unfold URL.has, URL.set. simpl.
  induction (URL.searchParams u) as [|[k1 v1] ps IH]; simpl.
  - now rewrite Hk.
  - destruct (String.eqb k1 k') eqn:E; simpl.
    + apply String.eqb_eq in E. subst k1. rewrite Hk. simpl.
      now apply existsb_filter_other.
    + now rewrite IH.
Qed.

Lemma URL_has_set_same k v u : URL.has k (URL.set k v u) = true.
Proof.
  unfold URL.has, URL.set. simpl.
  induction (URL.searchParams u) as [|[k1 v1] ps IH]; simpl.
  - now rewrite String.eqb_refl.
  - destruct (String.eqb k1 k) eqn:E; simpl.
    + now rewrite String.eqb_refl.
    + now rewrite E.
Qed.

Lemma has_set_if_truthy_other {A} k k' (truthy : A -> bool) show v u :
  String.eqb k' k = false ->
  URL.has k (set_if_truthy truthy show k' v u) = URL.has k u.
Proof.
  intros Hk. unfold set_if_truthy. destruct v as [a|]; [|reflexivity].
  destruct (truthy a); [now apply URL_has_set_other | reflexivity].
Qed.

Lemma has_set_if_defined_other {A} k k' (show : A -> string) v u :
  String.eqb k' k = false ->
  URL.has k (set_if_defined show k' v u) = URL.has k u.
Proof.
  intros Hk. unfold set_if_defined. destruct v as [a|]; [|reflexivity].
  now apply URL_has_set_other.
Qed.

Lemma companies_url_has_limit params :
  URL.has "limit" (companies_url params)
  = truthy_opt truthy_number (optChain params CompanyParams.limit).
Proof.
  unfold companies_url.
  rewrite has_set_if_defined_other by reflexivity.
  rewrite !has_set_if_truthy_other by reflexivity.
  unfold set_if_truthy, truthy_opt.
  destruct (optChain params CompanyParams.limit) as [l|]; [|reflexivity].
  destruct (truthy_number l); [apply URL_has_set_same | reflexivity].
Qed.

Lemma events_url_has_limit params :
  URL.has "limit" (events_url params)
  = truthy_opt truthy_number (optChain params EventParams.limit).
Proof.
  unfold events_url.
  rewrite has_set_if_defined_other by reflexivity.
  rewrite !has_set_if_truthy_other by reflexivity.
  unfold set_if_truthy, truthy_opt.
  destruct (optChain params EventParams.limit) as [l|]; [|reflexivity].
  destruct (truthy_number l); [apply URL_has_set_same | reflexivity].
Qed.

(** ** Reading back a printed number *)

Ltac eval_digit :=
  match goal with
  | |- context [digit_value ?c] =>
      let v := eval vm_compute in (digit_value c) in
      change (digit_value c) with v
  end.

Lemma parse_digits_from_pos d : forall p : positive,
  parse_digits (NilEmpty.string_of_uint d) (Some (Z.pos p))
  = Some (Z.pos (Pos.of_uint_acc d p)).
Proof.
  induction d; intros p; cbn [NilEmpty.string_of_uint parse_digits Pos.of_uint_acc];
    [reflexivity | ..]; eval_digit; cbv iota beta; rewrite <- IHd;
    do 2 f_equal; lia.
Qed.

Lemma parse_digits_from_zero d :
  parse_digits (NilEmpty.string_of_uint d) (Some 0)
  = Some (Z.of_N (Pos.of_uint d)).
Proof.
  induction d; cbn [NilEmpty.string_of_uint parse_digits Pos.of_uint];
    [reflexivity | ..]; eval_digit; cbv iota beta;
    [exact IHd | ..]; apply parse_digits_from_pos.
Qed.

Lemma parseInt10_digits d :
  d <> Decimal.Nil ->
  parse_digits (NilEmpty.string_of_uint d) None
  = Some (Z.of_N (Pos.of_uint d))
  /\ parseInt10 (NilEmpty.string_of_uint d)
     = parse_digits (NilEmpty.string_of_uint d) None.
Proof.
  intros Hd. split.
  - rewrite <- parse_digits_from_zero. destruct d; [congruence | ..]; reflexivity.
  - destruct d; [congruence | ..]; reflexivity.
Qed.

Lemma parseInt10_Z_toString z : parseInt10 (Z_toString z) = Some z.
Proof.
  assert (Hpos : forall p,
             parse_digits (NilZero.string_of_uint (Pos.to_uint p)) None
             = Some (Z.pos p)
             /\ parseInt10 (NilZero.string_of_uint (Pos.to_uint p))
                = Some (Z.pos p)).
  { intros p. pose proof (Unsigned.to_uint_nonnil p) as Hn.
    destruct (parseInt10_digits _ Hn) as [H1 H2].
    rewrite Unsigned.of_to in H1.
    assert (E : NilZero.string_of_uint (Pos.to_uint p)
                = NilEmpty.string_of_uint (Pos.to_uint p))
      by (destruct (Pos.to_uint p); [congruence | ..]; reflexivity).
    rewrite E, H2. split; exact H1. }
  unfold Z_toString. destruct z as [|p|p]; [reflexivity | apply Hpos |].
  cbn [Z.to_int NilZero.string_of_int].
  change (parseInt10 (String "-" (NilZero.string_of_uint (Pos.to_uint p))))
    with (option_map Z.opp
            (parse_digits (NilZero.string_of_uint (Pos.to_uint p)) None)).
  now rewrite (proj1 (Hpos p)).
Qed.

(** * Properties of the client and of the handlers *)

(** C1. A slug lookup issues one search-filtered listing request and never
    fails. When the search answers with a successful listing: if a record
    of the listing has exactly the slug looked up, the lookup returns a
    record of the listing with exactly that slug; if the listing is not
    empty and no record has the slug, it returns the first record; if the
    listing is empty, it returns the absent value. *)
Theorem getCompanyBySlug_exact_else_first
    (w : World.t) (tr : Trace) (slug : string) :
  snd (getCompanyBySlug slug w tr) = tr ++ [search_url slug]
  /\ (slug <> EmptyString ->
      search_url slug = URL.mk baseUrl [("search"%string, slug)])
  /\ (exists r, fst (getCompanyBySlug slug w tr) = Normal r)
  /\ forall status statusText companies,
       200 <= status <= 299 ->
       World.directoryApi w tr (search_url slug)
       = ok_response status statusText (ApiResponse.mk true companies) ->
       ((exists c, In c companies /\ Company.slug c = slug) ->
        exists c, fst (getCompanyBySlug slug w tr) = Normal (Some c)
                  /\ In c companies /\ Company.slug c = slug)
       /\ (forall c0 rest,
             companies = c0 :: rest ->
             (forall c, In c companies -> Company.slug c <> slug) ->
             fst (getCompanyBySlug slug w tr) = Normal (Some c0))
       /\ (companies = [] ->
           fst (getCompanyBySlug slug w tr) = Normal None).
Proof.
  pose proof (getCompanyBySlug_run slug w tr) as Hrun. cbv zeta in Hrun.
  fold (search_url slug) in Hrun. rewrite Hrun. simpl fst. simpl snd.
  split; [reflexivity|]. split.
  { intros Hs. destruct slug; [congruence | reflexivity]. }
  split.
  { destruct (settle _) as [data|e]; [|eauto].
    destruct (ApiResponse.success data); [|eauto].
    destruct (find _ _); eauto. }
  intros status statusText companies Hst Hw.
  rewrite Hw, (settle_ok _ _ _ Hst). simpl.
  split; [|split].
  - intros [c [Hin Hslug]].
    destruct (find (fun c => String.eqb (Company.slug c) slug) companies)
      as [c'|] eqn:F.
    + apply find_some in F. destruct F as [Hin' E].
      apply String.eqb_eq in E. eauto.
    + exfalso. apply (find_none _ _ F) in Hin.
      rewrite Hslug, String.eqb_refl in Hin. discriminate.
  - intros c0 rest -> Hno.
    destruct (find (fun c => String.eqb (Company.slug c) slug) (c0 :: rest))
      as [c'|] eqn:F; [|reflexivity].
    apply find_some in F. destruct F as [Hin' E].
    apply String.eqb_eq in E. now apply Hno in Hin'.
  - intros ->. reflexivity.
Qed.

(** C2, as the code has it. A list call fails with an error that carries
    the diagnostic when the request is rejected (the rejection itself), when
    the status is not 2xx (an error naming the status and its text) and
    when the body is not JSON (the parser's error). A well-formed body that
    does not conform is not a failure: the companies call hands back the
    envelope it received, successful or not, and the events call gives the
    empty collection for a body that is not an array. *)
Theorem list_call_failures_and_envelopes (w : World.t) (tr : Trace) :
  (forall params,
     let o := World.directoryApi w tr (companies_url params) in
     let result := fst (getCompanies params w tr) in
     (forall e, o = Rejected e -> result = Throw e)
     /\ (forall r, o = Responded r -> Response.ok r = false ->
         result = Throw (JsError.Error
                           (tpl ["HTTP "; Z_toString (Response.status r);
                                 ": "; Response.statusText r]%string)))
     /\ (forall r e, o = Responded r -> Response.ok r = true ->
         Response.json r = SyntaxErr e -> result = Throw e)
     /\ (forall r envelope, o = Responded r -> Response.ok r = true ->
         Response.json r = Parsed envelope -> result = Normal envelope))
  /\ (forall params,
        let o := World.eventsApi w tr (events_url params) in
        let result := fst (getEvents params w tr) in
        (forall e, o = Rejected e -> result = Throw e)
        /\ (forall r, o = Responded r -> Response.ok r = false ->
            result = Throw (JsError.Error
                              (tpl ["HTTP "; Z_toString (Response.status r);
                                    ": "; Response.statusText r]%string)))
        /\ (forall r e, o = Responded r -> Response.ok r = true ->
            Response.json r = SyntaxErr e -> result = Throw e)
        /\ (forall r events, o = Responded r -> Response.ok r = true ->
            Response.json r = Parsed (EventsArray events) ->
            result = Normal events)
        /\ (forall r j, o = Responded r -> Response.ok r = true ->
            Response.json r = Parsed (NotAnArray j) -> result = Normal [])).
Proof.
  split; intros params o result; subst result.
  - rewrite getCompanies_run. fold o. simpl fst.
    repeat split.
    + intros e ->. reflexivity.
    + intros r -> Hok. simpl. now rewrite Hok.
    + intros r e -> Hok Hj. simpl. now rewrite Hok, Hj.
    + intros r envelope -> Hok Hj. simpl. now rewrite Hok, Hj.
  - rewrite getEvents_run. fold o. simpl fst.
    repeat split.
    + intros e ->. reflexivity.
    + intros r -> Hok. simpl. now rewrite Hok.
    + intros r e -> Hok Hj. simpl. now rewrite Hok, Hj.
    + intros r events -> Hok Hj. simpl. now rewrite Hok, Hj.
    + intros r j -> Hok Hj. simpl. now rewrite Hok, Hj.
Qed.

(** C3, as the code has it. [get_event_details] reports an event that is
    absent from a successful listing as a not-found error result.
    [get_company_details] reports not-found when the search gives no
    record, be the listing empty or the envelope unsuccessful; when the
    search lists records of which none has the slug, the tool answers
    with the details of the first record and no error flag. An upstream
    failure, be it a network error, a status that is not 2xx or a body
    that is not JSON, is absorbed by the client lookup and reported as
    the very same not-found result, whose text names the identifier and
    nothing else. *)
Theorem detail_tools_report_not_found
    (JSON_stringify : Json -> string) (w : World.t) (tr : Trace) :
  (forall identifier include_team,
     let o := World.directoryApi w tr (search_url identifier) in
     let result :=
       fst (get_company_details JSON_stringify identifier include_team w tr) in
     let not_found :=
       Normal (mkTool (tpl ["Company not found: "; identifier]%string) true) in
     (forall status statusText,
        200 <= status <= 299 ->
        o = ok_response status statusText (ApiResponse.mk true []) ->
        result = not_found)
     /\ (forall e, o = Rejected e -> result = not_found)
     /\ (forall r, o = Responded r -> Response.ok r = false ->
         result = not_found)
     /\ (forall r e, o = Responded r -> Response.ok r = true ->
         Response.json r = SyntaxErr e -> result = not_found)
     /\ (forall status statusText companies,
           200 <= status <= 299 ->
           o = ok_response status statusText (ApiResponse.mk false companies) ->
           result = not_found)
     /\ (forall status statusText first others,
           200 <= status <= 299 ->
           o = ok_response status statusText
                 (ApiResponse.mk true (first :: others)) ->
           exists company,
             In company (first :: others)
             /\ result
                = Normal
                    (mkTool
                       (JSON_stringify
                          (company_details company
                             (match include_team with
                              | Some b => b
                              | None => false
                              end)))
                       false)
             /\ ((forall c, In c (first :: others) ->
                            Company.slug c <> identifier) ->
                 company = first)
             /\ ((exists c, In c (first :: others)
                            /\ Company.slug c = identifier) ->
                 Company.slug company = identifier)))
  /\ (forall event_id,
        let o := World.eventsApi w tr (events_url None) in
        let result := fst (get_event_details JSON_stringify event_id w tr) in
        let not_found :=
          Normal (mkTool (tpl ["Event not found: "; event_id]%string) true) in
        (forall status statusText events,
           200 <= status <= 299 ->
           o = ok_response status statusText (EventsArray events) ->
           (forall ev, In ev events -> Event._id ev <> event_id) ->
           result = not_found)
        /\ (forall e, o = Rejected e -> result = not_found)
        /\ (forall r, o = Responded r -> Response.ok r = false ->
            result = not_found)
        /\ (forall r e, o = Responded r -> Response.ok r = true ->
            Response.json r = SyntaxErr e -> result = not_found)
        /\ (forall status statusText events ev,
              200 <= status <= 299 ->
              o = ok_response status statusText (EventsArray events) ->
              In ev events -> Event._id ev = event_id ->
              exists event,
                In event events /\ Event._id event = event_id
                /\ result
                   = Normal
                       (mkTool (JSON_stringify (event_details event)) false))).
Proof.
  split.
  - intros identifier include_team o result not_found.
    subst result not_found.
    unfold get_company_details, tryCatch, bind.
    pose proof (getCompanyBySlug_run identifier w tr) as Hrun.
    cbv zeta in Hrun. fold (search_url identifier) in Hrun. fold o in Hrun.
    rewrite Hrun.
    split; [|split; [|split; [|split; [|split]]]].
    + intros status statusText Hst ->. now rewrite (settle_ok _ _ _ Hst).
    + intros e ->. reflexivity.
    + intros r -> Hok. simpl. now rewrite Hok.
    + intros r e -> Hok Hj. simpl. now rewrite Hok, Hj.
    + intros status statusText companies Hst ->.
      now rewrite (settle_ok _ _ _ Hst).
    + intros status statusText first others Hst ->.
      rewrite (settle_ok _ _ _ Hst).
      cbn [ApiResponse.success ApiResponse.data].
      destruct (find (fun c => String.eqb (Company.slug c) identifier)
                     (first :: others)) as [c|] eqn:F.
      * apply find_some in F. destruct F as [Hin E].
        apply String.eqb_eq in E.
        exists c. split; [exact Hin|]. split; [reflexivity|].
        split; [|intros _; exact E].
        intros Hno. now apply Hno in Hin.
      * exists first. split; [now left|]. split; [reflexivity|].
        split; [reflexivity|].
        intros [c [Hin E]].
        apply (find_none _ _ F) in Hin. cbv beta in Hin.
        apply String.eqb_neq in Hin. congruence.
  - intros event_id o result not_found. subst result not_found.
    unfold get_event_details, tryCatch, bind.
    rewrite getEventById_run. fold o.
    split; [|split; [|split; [|split]]].
    + intros status statusText events Hst -> Hno.
      rewrite (settle_ok _ _ _ Hst).
      change (array_or_empty (EventsArray events)) with events.
      destruct (find (fun event => String.eqb (Event._id event) event_id)
                     events) as [ev|] eqn:F; [|reflexivity].
      apply find_some in F. destruct F as [Hin E].
      apply String.eqb_eq in E. now apply Hno in Hin.
    + intros e ->. reflexivity.
    + intros r -> Hok. simpl. now rewrite Hok.
    + intros r e -> Hok Hj. simpl. now rewrite Hok, Hj.
    + intros status statusText events ev Hst -> Hin Hid.
      rewrite (settle_ok _ _ _ Hst).
      change (array_or_empty (EventsArray events)) with events.
      destruct (find (fun event => String.eqb (Event._id event) event_id)
                     events) as [found|] eqn:F.
      * apply find_some in F. destruct F as [Hf E].
        apply String.eqb_eq in E. exists found. now repeat split.
      * apply (find_none _ _ F) in Hin. cbv beta in Hin.
        apply String.eqb_neq in Hin. congruence.
Qed.

(** C4. At evaluation time [T], when the upstream answers with an event
    listing, the upcoming events are exactly the events of the listing
    whose start date parses to a time strictly after [T], in the order of
    the listing. An event that starts at [T] or before, or whose start
    date is not a date, is left out. *)
Theorem getUpcomingEvents_strictly_after
    (Date_parse : string -> option Z) (w : World.t) (tr : Trace)
    (status : Z) (statusText : string) (events : list Event.t) :
  200 <= status <= 299 ->
  World.eventsApi w tr (events_url None)
  = ok_response status statusText (EventsArray events) ->
  let T := World.clock w (tr ++ [events_url None]) in
  exists upcoming,
    fst (getUpcomingEvents Date_parse w tr) = Normal upcoming
    /\ (forall e, In e upcoming <->
                  In e events
                  /\ exists t, Date_parse (Event.eventStartDate e) = Some t
                               /\ T < t)
    /\ subseq upcoming events
    /\ upcoming
       = filter (fun e => match Date_parse (Event.eventStartDate e) with
                          | Some t => T <? t
                          | None => false
                          end) events.
Proof.
  intros Hst Hw T. rewrite getUpcomingEvents_run, Hw, (settle_ok _ _ _ Hst).
  simpl fst. fold T. eexists. split; [reflexivity|].
  simpl array_or_empty. split; [|split].
  - intros e. rewrite filter_In. unfold starts_after.
    split.
    + intros [Hin Hp]. split; [exact Hin|].
      destruct (Date_parse (Event.eventStartDate e)) as [t|]; [|discriminate].
      exists t. split; [reflexivity | now apply Z.ltb_lt].
    + intros [Hin [t [Ht Hlt]]]. split; [exact Hin|].
      rewrite Ht. now apply Z.ltb_lt.
  - apply filter_subseq.
  - reflexivity.
Qed.

(** C5. When the upstream answers with a successful listing, the directory
    statistics report each average engagement as the quotient of the sum
    of the counter by the number of companies, guarded: for an empty
    listing each average is the number 0, and the quotient is not
    taken. *)
Theorem directory_stats_average_guarded
    (JSON_stringify : Json -> string) (toFixed2 : Z -> Z -> string)
    (w : World.t) (tr : Trace)
    (status : Z) (statusText : string) (companies : list Company.t) :
  200 <= status <= 299 ->
  World.directoryApi w tr (companies_url None)
  = ok_response status statusText (ApiResponse.mk true companies) ->
  let count := Z.of_nat (List.length companies) in
  let mean sum := if count =? 0 then JNum 0 else JStr (toFixed2 sum count) in
  let stats := directory_stats toFixed2 companies in
  fst (get_directory_stats JSON_stringify toFixed2 w tr)
  = Normal (mkTool (JSON_stringify stats) false)
  /\ Json_get "average_likes_per_company" stats
     = Some (mean (total Company.likes companies))
  /\ Json_get "average_views_per_company" stats
     = Some (mean (total Company.views companies))
  /\ (companies = [] ->
      Json_get "average_likes_per_company" stats = Some (JNum 0)
      /\ Json_get "average_views_per_company" stats = Some (JNum 0)).
Proof.
  intros Hst Hw count mean stats.
  split.
  { unfold get_directory_stats, tryCatch, bind.
    now rewrite getCompanies_run, Hw, (settle_ok _ _ _ Hst). }
  subst stats. unfold directory_stats. cbv zeta.
  rewrite !fold_left_sum, !Z.add_0_l.
  cbn [Json_get find fst snd option_map String.eqb Ascii.eqb Bool.eqb].
  unfold average, len. fold count.
  assert (Hmean : forall sum,
             (if 0 <? count then JStr (toFixed2 sum count) else JNum 0)
             = mean sum).
  { intros sum. unfold mean.
    destruct (0 <? count) eqn:E1, (count =? 0) eqn:E2; try reflexivity.
    - apply Z.ltb_lt in E1. apply Z.eqb_eq in E2. lia.
    - apply Z.ltb_ge in E1. apply Z.eqb_neq in E2. unfold count in *. lia. }
  rewrite !Hmean. split; [reflexivity|]. split; [reflexivity|].
  intros ->. split; reflexivity.
Qed.

(** C6. When both the country and the city are absent, the location tool
    returns the validation error that asks for one of the two, and issues
    no request to the upstream. With a country or a city given, it issues
    exactly one. *)
Theorem get_events_by_location_validates_first
    (JSON_stringify : Json -> string) (limit : option Z)
    (w : World.t) (tr : Trace) :
  get_events_by_location JSON_stringify None None limit w tr
  = (Normal
       (mkTool "Please provide either a country or city parameter" true),
     tr)
  /\ forall country city,
       truthy_opt truthy_string country || truthy_opt truthy_string city
       = true ->
       snd (get_events_by_location JSON_stringify country city limit w tr)
       = tr ++ [events_url
                  (Some (EventParams.mk None None None country city None))].
Proof.
  split; [reflexivity|].
  intros country city H.
  unfold get_events_by_location, tryCatch, bind.
  destruct (truthy_opt truthy_string country),
           (truthy_opt truthy_string city); try discriminate; simpl;
    unfold getEventsByLocation, tryCatch; rewrite getEvents_run;
    destruct (settle _); reflexivity.
Qed.

(** C7. A category listing issues the one request of the list call with
    the category filter, and gives the empty sequence, never an error,
    whenever that call fails: on a network error, on a status that is not
    2xx, on a body that is not JSON and on an unsuccessful envelope. A
    successful envelope gives its records. *)
Theorem getCompaniesByCategory_best_effort
    (w : World.t) (tr : Trace) (category : string) :
  let o := World.directoryApi w tr (category_url category) in
  let result := fst (getCompaniesByCategory category w tr) in
  snd (getCompaniesByCategory category w tr) = tr ++ [category_url category]
  /\ (category <> EmptyString ->
      category_url category = URL.mk baseUrl [("category"%string, category)])
  /\ (exists companies, result = Normal companies)
  /\ (forall e, o = Rejected e -> result = Normal [])
  /\ (forall r, o = Responded r -> Response.ok r = false -> result = Normal [])
  /\ (forall r e, o = Responded r -> Response.json r = SyntaxErr e ->
      result = Normal [])
  /\ (forall r envelope, o = Responded r ->
      Response.json r = Parsed envelope ->
      ApiResponse.success envelope = false -> result = Normal [])
  /\ (forall r envelope, o = Responded r -> Response.ok r = true ->
      Response.json r = Parsed envelope ->
      ApiResponse.success envelope = true ->
      result = Normal (ApiResponse.data envelope)).
Proof.
  intros o result. subst result.
  pose proof (getCompaniesByCategory_run category w tr) as Hrun.
  cbv zeta in Hrun. fold (category_url category) in Hrun. fold o in Hrun.
  rewrite Hrun. simpl fst. simpl snd.
  split; [reflexivity|]. split.
  { intros Hc. destruct category; [congruence | reflexivity]. }
  split.
  { destruct (settle o); eauto. }
  repeat split.
  - intros e ->. reflexivity.
  - intros r -> Hok. simpl. now rewrite Hok.
  - intros r e -> Hj. simpl. rewrite Hj. now destruct (Response.ok r).
  - intros r envelope -> Hj Hs. simpl. rewrite Hj.
    destruct (Response.ok r); [now rewrite Hs | reflexivity].
  - intros r envelope -> Hok Hj Hs. simpl. now rewrite Hok, Hj, Hs.
Qed.

(** C8. When the upstream answers with a listing, the category resources
    and the statistics tools serialise documents whose [categories] field
    (and for the events statistics also [countries], [cities] and
    [companies]) is strictly ascending in the lexicographic order, so
    sorted and free of duplicates, holds no empty string, and has exactly
    the non-empty values of the field in the listing as members. *)
Theorem aggregate_sets_sorted_distinct_nonempty
    (JSON_stringify : Json -> string) (toFixed2 : Z -> Z -> string)
    (Date_parse : string -> option Z) (w : World.t) (tr : Trace) :
  (forall status statusText companies,
     200 <= status <= 299 ->
     World.directoryApi w tr (companies_url None)
     = ok_response status statusText (ApiResponse.mk true companies) ->
     let categories := map Company.category companies in
     (forall uri, exists doc,
        fst (categories_resource JSON_stringify uri w tr)
        = Normal (mkResource uri (JSON_stringify doc) json_mime)
        /\ doc = categories_doc (collect Company.category companies)
        /\ aggregate_field doc "categories" categories)
     /\ (exists doc,
           fst (get_directory_stats JSON_stringify toFixed2 w tr)
           = Normal (mkTool (JSON_stringify doc) false)
           /\ doc = directory_stats toFixed2 companies
           /\ aggregate_field doc "categories" categories))
  /\ (forall status statusText events,
        200 <= status <= 299 ->
        World.eventsApi w tr (events_url None)
        = ok_response status statusText (EventsArray events) ->
        (forall uri, exists doc,
           fst (event_categories_resource JSON_stringify uri w tr)
           = Normal (mkResource uri (JSON_stringify doc) json_mime)
           /\ doc = categories_doc (collect Event.category events)
           /\ aggregate_field doc "categories" (map Event.category events))
        /\ (exists doc upcoming,
              fst (get_events_stats Date_parse JSON_stringify w tr)
              = Normal (mkTool (JSON_stringify doc) false)
              /\ doc = events_stats events upcoming
              /\ aggregate_field doc "categories"
                   (map Event.category events)
              /\ aggregate_field doc "countries" (map Event.country events)
              /\ aggregate_field doc "cities" (map Event.city events)
              /\ aggregate_field doc "companies"
                   (map Event.company events))).
Proof.
  split.
  - intros status statusText companies Hst Hw categories. split.
    + intros uri. unfold categories_resource, tryCatch, bind.
      rewrite getCompanies_run, Hw, (settle_ok _ _ _ Hst). simpl.
      eexists. split; [reflexivity|]. split; [reflexivity|].
      now apply collected_aggregate_field.
    + unfold get_directory_stats, tryCatch, bind.
      rewrite getCompanies_run, Hw, (settle_ok _ _ _ Hst). simpl.
      eexists. split; [reflexivity|]. split; [reflexivity|].
      now apply collected_aggregate_field.
  - intros status statusText events Hst Hw. split.
    + intros uri. unfold event_categories_resource, tryCatch, bind.
      rewrite getEvents_run, Hw, (settle_ok _ _ _ Hst). simpl.
      eexists. split; [reflexivity|]. split; [reflexivity|].
      now apply collected_aggregate_field.
    + unfold get_events_stats, tryCatch, bind.
      rewrite getEvents_run, Hw, (settle_ok _ _ _ Hst).
      rewrite getUpcomingEvents_run.
      destruct (settle _) as [data|e]; simpl;
        (eexists; eexists; split; [reflexivity|]; split; [reflexivity|]);
        repeat split; now apply collected_aggregate_field.
Qed.

(** [n || 0] is [n] on every number but [NaN]. *)
Lemma num_or_0_same n : num_or_0 n = n.
Proof.
  unfold num_or_0, truthy_number.
  destruct (n =? 0) eqn:E; [apply Z.eqb_eq in E|]; simpl; congruence.
Qed.


(** C10. A limit of 0 is no limit: [get_companies_by_category],
    [get_events_by_category] and [get_upcoming_events] behave with it as
    without a limit, and each of them, given limit 0 and a listing from
    the upstream, returns one row for every fetched record, in the order
    of the listing, and counts them all in its summary sentence. The
    client builds the request of a list call with limit 0 without the
    [limit] query parameter, as it does without a limit, while any other
    limit is sent. *)
Theorem zero_limit_is_no_limit
    (JSON_stringify : Json -> string) (Date_parse : string -> option Z)
    (w : World.t) (tr : Trace) :
  (forall A (xs : list A), take_limit (Some 0) xs = xs)
  /\ (forall category,
        get_companies_by_category JSON_stringify category (Some 0) w tr
        = get_companies_by_category JSON_stringify category None w tr)
  /\ (forall category status statusText companies,
        200 <= status <= 299 ->
        World.directoryApi w tr (category_url category)
        = ok_response status statusText (ApiResponse.mk true companies) ->
        fst (get_companies_by_category JSON_stringify category (Some 0) w tr)
        = Normal
            (mkTool
               (tpl
                  ["COMPANIES_DATA_START"; nl;
                   JSON_stringify
                     (JArr
                        (map
                           (fun company =>
                              JObj
                                [("_id", JStr (Company._id company));
                                 ("name", JStr (Company.name company));
                                 ("slug", JStr (Company.slug company));
                                 ("category",
                                  JStr (Company.category company));
                                 ("shortDescription",
                                  JStr (Company.shortDescription company));
                                 ("logo", JStr (Company.logo company));
                                 ("banner", JStr (Company.banner company));
                                 ("founderName",
                                  JStr (Company.founderName company));
                                 ("verificationStatus",
                                  JStr (Company.verificationStatus company));
                                 ("url", JStr (Company.url company));
                                 ("likes", JNum (Company.likes company));
                                 ("views", JNum (Company.views company))])
                           companies));
                   nl; "COMPANIES_DATA_END"; nl; nl;
                   "Found "; Z_toString (Z.of_nat (List.length companies));
                   " companies in category "; dquote; category; dquote;
                   "."]%string)
               false))
  /\ (forall category,
        get_events_by_category JSON_stringify category (Some 0) w tr
        = get_events_by_category JSON_stringify category None w tr)
  /\ (forall category status statusText events,
        200 <= status <= 299 ->
        World.eventsApi w tr
          (events_url
             (Some (EventParams.mk None (Some category) None None None None)))
        = ok_response status statusText (EventsArray events) ->
        fst (get_events_by_category JSON_stringify category (Some 0) w tr)
        = Normal
            (mkTool
               (tpl
                  ["EVENTS_DATA_START"; nl;
                   JSON_stringify
                     (JArr
                        (map
                           (fun event =>
                              JObj
                                [("id", JStr (Event._id event));
                                 ("title", JStr (Event.title event));
                                 ("company", JStr (Event.company event));
                                 ("location",
                                  JStr
                                    (tpl [Event.city event; ", ";
                                          Event.country event]));
                                 ("eventStartDate",
                                  JStr (Event.eventStartDate event));
                                 ("eventEndDate",
                                  JStr (Event.eventEndDate event));
                                 ("website", JStr (Event.website event))])
                           events));
                   nl; "EVENTS_DATA_END"; nl; nl;
                   "Found "; Z_toString (Z.of_nat (List.length events));
                   " events in category "; dquote; category; dquote;
                   "."]%string)
               false))
  /\ get_upcoming_events Date_parse JSON_stringify (Some 0) w tr
     = get_upcoming_events Date_parse JSON_stringify None w tr
  /\ (forall status statusText events,
        200 <= status <= 299 ->
        World.eventsApi w tr (events_url None)
        = ok_response status statusText (EventsArray events) ->
        let now := World.clock w (tr ++ [events_url None]) in
        let upcoming :=
          filter
            (fun event =>
               match Date_parse (Event.eventStartDate event) with
               | Some start => now <? start
               | None => false
               end)
            events in
        fst (get_upcoming_events Date_parse JSON_stringify (Some 0) w tr)
        = Normal
            (mkTool
               (tpl
                  ["EVENTS_DATA_START"; nl;
                   JSON_stringify
                     (JArr
                        (map
                           (fun event =>
                              JObj
                                [("id", JStr (Event._id event));
                                 ("title", JStr (Event.title event));
                                 ("company", JStr (Event.company event));
                                 ("category", JStr (Event.category event));
                                 ("location",
                                  JStr
                                    (tpl [Event.city event; ", ";
                                          Event.country event]));
                                 ("eventStartDate",
                                  JStr (Event.eventStartDate event));
                                 ("eventEndDate",
                                  JStr (Event.eventEndDate event));
                                 ("website", JStr (Event.website event))])
                           upcoming));
                   nl; "EVENTS_DATA_END"; nl; nl;
                   "Found "; Z_toString (Z.of_nat (List.length upcoming));
                   " upcoming events."]%string)
               false))
  /\ (forall category search verified,
        companies_url
          (Some (CompanyParams.mk (Some 0) category search verified))
        = companies_url
            (Some (CompanyParams.mk None category search verified))
        /\ URL.has "limit"
             (companies_url
                (Some (CompanyParams.mk (Some 0) category search verified)))
           = false)
  /\ (forall category search country city upcoming,
        events_url
          (Some (EventParams.mk (Some 0) category search country city
                                upcoming))
        = events_url
            (Some (EventParams.mk None category search country city upcoming))
        /\ URL.has "limit"
             (events_url
                (Some (EventParams.mk (Some 0) category search country city
                                      upcoming)))
           = false)
  /\ (forall limit category search verified,
        limit <> 0 ->
        URL.has "limit"
          (companies_url
             (Some (CompanyParams.mk (Some limit) category search verified)))
        = true).
Proof.
  split; [reflexivity|].
  split; [reflexivity|].
  split.
  { intros category status statusText companies Hst Hw.
    unfold get_companies_by_category, tryCatch, bind.
    pose proof (getCompaniesByCategory_run category w tr) as Hrun.
    cbv zeta in Hrun. fold (category_url category) in Hrun.
    rewrite Hrun, Hw, (settle_ok _ _ _ Hst). reflexivity. }
  split; [reflexivity|].
  split.
  { intros category status statusText events Hst Hw.
    unfold get_events_by_category, tryCatch, bind.
    pose proof (getEventsByCategory_run category w tr) as Hrun.
    cbv zeta in Hrun. rewrite Hrun, Hw, (settle_ok _ _ _ Hst). reflexivity. }
  split; [reflexivity|].
  split.
  { intros status statusText events Hst Hw now upcoming.
    unfold get_upcoming_events, tryCatch, bind.
    rewrite getUpcomingEvents_run, Hw, (settle_ok _ _ _ Hst). reflexivity. }
  split; [|split].
  - intros category search verified. split; [reflexivity|].
    now rewrite companies_url_has_limit.
  - intros category search country city upcoming. split; [reflexivity|].
    now rewrite events_url_has_limit.
  - intros limit category search verified Hl.
    rewrite companies_url_has_limit. simpl. unfold truthy_number.
    apply Z.eqb_neq in Hl. now rewrite Hl.
Qed.

(** * Concrete runs *)

(** ** The runtime model on small inputs *)

Example parseInt10_examples :
  parseInt10 " 42px" = Some 42 /\ parseInt10 "-3" = Some (-3)
  /\ parseInt10 "+7" = Some 7 /\ parseInt10 "abc" = None
  /\ parseInt10 "" = None /\ parseInt10 "-" = None.
Proof. repeat split. Qed.

Example Z_toString_examples :
  Z_toString 0 = "0"%string /\ Z_toString 500 = "500"%string
  /\ Z_toString (-12) = "-12"%string.
Proof. repeat split. Qed.

Example slice0_examples :
  slice0 [1; 2; 3] (Some 2) = [1; 2] /\ slice0 [1; 2; 3] (Some 5) = [1; 2; 3]
  /\ slice0 [1; 2; 3] (Some (-1)) = [1; 2] /\ slice0 [1; 2; 3] None = []
  /\ slice0 [1; 2; 3] (Some (-7)) = [].
Proof. repeat split. Qed.

Example default_sort_example :
  Array_sort default_compare ["b"; "a"; "B"; "ab"]%string
  = ["B"; "a"; "ab"; "b"]%string.
Proof. reflexivity. Qed.

Example searchParams_set_example :
  URL.searchParams
    (URL.set "limit" "3"
       (URL.mk baseUrl [("limit", "1"); ("search", "x"); ("limit", "2")]%string))
  = [("limit", "3"); ("search", "x")]%string.
Proof. reflexivity. Qed.

(** ** The client and the handlers on the fixtures *)

Example getCompanyBySlug_falls_back_to_first :
  fst (run (getCompanyBySlug "zeta") world_listed) = Normal (Some acme).
Proof. reflexivity. Qed.

(** An unsuccessful envelope is a search that found nothing, whatever
    records it carries. *)
Example getCompanyBySlug_unsuccessful_envelope :
  fst (run (getCompanyBySlug "acme") world_non_conforming) = Normal None.
Proof. reflexivity. Qed.

Example getCompanies_request_example :
  snd (run (getCompanies
              (Some (CompanyParams.mk (Some 10) (Some "AI"%string) None
                                      (Some true))))
           world_listed)
  = [URL.mk baseUrl
       [("limit", "10"); ("category", "AI"); ("verified", "true")]%string].
Proof. reflexivity. Qed.

(** Empty strings for the location are as good as none. *)
Example get_events_by_location_empty_strings :
  run (get_events_by_location sample_stringify (Some ""%string)
         (Some ""%string) None) world_listed
  = (Normal location_validation_error, []).
Proof. reflexivity. Qed.

(** A limit that [parseInt] cannot read is [NaN], which cuts the ranking to
    nothing; so does the limit 0. *)
Example compare_companies_unreadable_limit :
  fst (run (compare_companies sample_stringify (Some "AI"%string)
              (Some "many"%string)) world_listed)
  = Normal (no_companies_message "AI")
  /\ fst (run (compare_companies sample_stringify (Some "AI"%string)
                 (Some "0"%string)) world_listed)
     = Normal (no_companies_message "AI").
Proof. split; vm_compute; reflexivity. Qed.

(** ** The claims on the fixtures *)

Lemma getCompanyBySlug_exact_else_first_witness :
  200 <= 200 <= 299
  /\ World.directoryApi world_listed [] (search_url "beta")
     = ok_response 200 "OK" (ApiResponse.mk true [acme; beta; gamma])
  /\ (exists c, In c [acme; beta; gamma] /\ Company.slug c = "beta"%string)
  /\ fst (getCompanyBySlug "beta" world_listed []) = Normal (Some beta).
Proof.
  destruct (getCompanyBySlug_exact_else_first world_listed [] "beta")
    as (_ & _ & _ & H).
  destruct (H 200 "OK"%string [acme; beta; gamma] ltac:(lia) eq_refl)
    as (Hexact & _ & _).
  assert (Hex : exists c, In c [acme; beta; gamma]
                          /\ Company.slug c = "beta"%string)
    by (exists beta; simpl; auto).
  destruct (Hexact Hex) as (c & Hrun & Hin & Hslug).
  split; [lia|]. split; [reflexivity|]. split; [exact Hex|].
  rewrite Hrun.
  destruct Hin as [<-|[<-|[<-|[]]]]; try discriminate Hslug; reflexivity.
Defined.

Lemma list_call_failures_and_envelopes_witness :
  World.eventsApi world_non_conforming [] (events_url None)
  = Responded
      (Response.mk 200 "OK"
         (Parsed (NotAnArray (JObj [("error"%string, JStr "maintenance")]))))
  /\ fst (getEvents None world_non_conforming []) = Normal []
  /\ fst (getCompanies None world_non_conforming [])
     = Normal (ApiResponse.mk false [acme])
  /\ fst (getCompanies None world_failing [])
     = Throw (JsError.Error "HTTP 500: Internal Server Error").
Proof.
  destruct (list_call_failures_and_envelopes world_non_conforming [])
    as (Hc & He).
  destruct (He None) as (_ & _ & _ & _ & Hnot_array).
  destruct (Hc None) as (_ & _ & _ & Henvelope).
  destruct (list_call_failures_and_envelopes world_failing []) as (Hf & _).
  destruct (Hf None) as (_ & Hstatus & _).
  split; [reflexivity|]. split.
  - exact (Hnot_array _ _ eq_refl eq_refl eq_refl).
  - split.
    + exact (Henvelope _ _ eq_refl eq_refl eq_refl).
    + exact (Hstatus _ eq_refl eq_refl).
Defined.

(** C2 fails on the code: a 200 answer whose body is a JSON object, not an
    array, makes the events call complete with the empty collection, and an
    unsuccessful envelope makes the companies call complete with that
    envelope; neither call fails. *)
Lemma non_conforming_body_is_not_a_failure :
  (fst (run (getEvents None) world_non_conforming) = Normal []
   /\ ~ (exists e, fst (run (getEvents None) world_non_conforming) = Throw e))
  /\ (fst (run (getCompanies None) world_non_conforming)
      = Normal (ApiResponse.mk false [acme])
      /\ ~ (exists e,
              fst (run (getCompanies None) world_non_conforming) = Throw e)).
Proof.
  split; (split; [reflexivity | intros [e H]; discriminate H]).
Qed.

Lemma detail_tools_report_not_found_witness :
  World.directoryApi world_failing [] (search_url "acme")
  = Responded
      (Response.mk 500 "Internal Server Error"
         (SyntaxErr (JsError.mk "SyntaxError" "Unexpected token < in JSON")))
  /\ fst (get_company_details sample_stringify "acme" None world_failing [])
     = Normal (mkTool "Company not found: acme" true)
  /\ (forall ev, In ev [conference; meetup; summit; undated] ->
                 Event._id ev <> "evt-9"%string)
  /\ fst (get_event_details sample_stringify "evt-9" world_listed [])
     = Normal (mkTool "Event not found: evt-9" true)
  /\ 200 <= 200 <= 299
  /\ World.directoryApi world_listed [] (search_url "delta")
     = ok_response 200 "OK" (ApiResponse.mk true [acme; beta; gamma])
  /\ (forall c, In c [acme; beta; gamma] -> Company.slug c <> "delta"%string)
  /\ fst (get_company_details sample_stringify "delta" None world_listed [])
     = Normal (mkTool (sample_stringify (company_details acme false)) false).
Proof.
  destruct (detail_tools_report_not_found sample_stringify world_failing [])
    as (Hc & _).
  destruct (Hc "acme"%string None) as (_ & _ & Hstatus & _).
  destruct (detail_tools_report_not_found sample_stringify world_listed [])
    as (Hl & He).
  destruct (He "evt-9"%string) as (Habsent & _).
  destruct (Hl "delta"%string None) as (_ & _ & _ & _ & _ & Hfirst).
  assert (Hno : forall ev, In ev [conference; meetup; summit; undated] ->
                           Event._id ev <> "evt-9"%string).
  { intros ev [<-|[<-|[<-|[<-|[]]]]]; discriminate. }
  assert (Hst : 200 <= 200 <= 299) by lia.
  assert (Hw : World.directoryApi world_listed [] (search_url "delta")
               = ok_response 200 "OK"
                   (ApiResponse.mk true [acme; beta; gamma]))
    by reflexivity.
  assert (Hslug : forall c, In c [acme; beta; gamma] ->
                            Company.slug c <> "delta"%string).
  { intros c [<-|[<-|[<-|[]]]]; discriminate. }
  split; [reflexivity|]. split; [exact (Hstatus _ eq_refl eq_refl)|].
  split; [exact Hno|].
  split; [exact (Habsent 200 "OK"%string _ Hst eq_refl Hno)|].
  split; [exact Hst|]. split; [exact Hw|]. split; [exact Hslug|].
  destruct (Hfirst 200 "OK"%string acme [beta; gamma] Hst Hw)
    as (company & _ & Hresult & Hfallback & _).
  rewrite (Hfallback Hslug) in Hresult. exact Hresult.
Defined.

(** C3 fails on the code: with the upstream answering 500, or out of reach,
    the detail tools give the result they give for an entity that is
    absent from a successful answer; the upstream error is not in it. And
    a slug that no listed company has is not reported as not found when
    the search lists companies: the first of them is described. *)
Lemma upstream_failure_reported_as_not_found :
  fst (run (get_company_details sample_stringify "acme" None) world_failing)
  = Normal (mkTool "Company not found: acme" true)
  /\ fst (run (get_company_details sample_stringify "acme" None)
              world_unreachable)
     = fst (run (get_company_details sample_stringify "acme" None)
                world_failing)
  /\ fst (run (get_company_details sample_stringify "acme" None) world_empty)
     = fst (run (get_company_details sample_stringify "acme" None)
                world_failing)
  /\ fst (run (get_event_details sample_stringify "evt-1") world_failing)
     = Normal (mkTool "Event not found: evt-1" true)
  /\ fst (run (get_event_details sample_stringify "evt-1") world_empty)
     = fst (run (get_event_details sample_stringify "evt-1") world_failing)
  /\ fst (run (get_company_details sample_stringify "delta" None)
              world_listed)
     = Normal (mkTool (sample_stringify (company_details acme false)) false).
Proof. repeat split. Qed.

Lemma getUpcomingEvents_strictly_after_witness :
  200 <= 200 <= 299
  /\ World.eventsApi world_listed [] (events_url None)
     = ok_response 200 "OK"
         (EventsArray [conference; meetup; summit; undated])
  /\ fst (getUpcomingEvents sample_Date_parse world_listed [])
     = Normal [meetup; summit].
Proof.
  destruct (getUpcomingEvents_strictly_after sample_Date_parse world_listed []
              200 "OK"%string [conference; meetup; summit; undated]
              ltac:(lia) eq_refl)
    as (upcoming & Hrun & _ & _ & Heq).
  split; [lia|]. split; [reflexivity|].
  rewrite Hrun, Heq. reflexivity.
Defined.

Lemma directory_stats_average_guarded_witness :
  200 <= 200 <= 299
  /\ World.directoryApi world_empty [] (companies_url None)
     = ok_response 200 "OK" (ApiResponse.mk true [])
  /\ fst (get_directory_stats sample_stringify sample_toFixed2 world_empty [])
     = Normal
         (mkTool (sample_stringify (directory_stats sample_toFixed2 []))
                 false)
  /\ Json_get "average_likes_per_company"
       (directory_stats sample_toFixed2 [])
     = Some (JNum 0)
  /\ Json_get "average_views_per_company"
       (directory_stats sample_toFixed2 [])
     = Some (JNum 0).
Proof.
  destruct (directory_stats_average_guarded sample_stringify sample_toFixed2
              world_empty [] 200 "OK"%string [] ltac:(lia) eq_refl)
    as (Hrun & _ & _ & Hempty).
  split; [lia|]. split; [reflexivity|].
  split; [exact Hrun | exact (Hempty eq_refl)].
Defined.

Lemma get_events_by_location_validates_first_witness :
  truthy_opt truthy_string (Some "France"%string)
  || truthy_opt truthy_string None = true
  /\ snd (get_events_by_location sample_stringify (Some "France"%string) None
            None world_listed [])
     = [URL.mk eventsUrl [("country", "France")]%string]
  /\ snd (get_events_by_location sample_stringify None None None
            world_listed [])
     = [].
Proof.
  destruct (get_events_by_location_validates_first sample_stringify None
              world_listed []) as (Hnone & Hsome).
  split; [reflexivity|]. split.
  - exact (Hsome (Some "France"%string) None eq_refl).
  - now rewrite Hnone.
Defined.

Lemma getCompaniesByCategory_best_effort_witness :
  World.directoryApi world_failing [] (category_url "AI")
  = Responded
      (Response.mk 500 "Internal Server Error"
         (SyntaxErr (JsError.mk "SyntaxError" "Unexpected token < in JSON")))
  /\ fst (getCompaniesByCategory "AI" world_failing []) = Normal []
  /\ fst (getCompaniesByCategory "AI" world_unreachable []) = Normal []
  /\ fst (getCompaniesByCategory "AI" world_non_conforming []) = Normal []
  /\ fst (getCompaniesByCategory "AI" world_listed [])
     = Normal [acme; beta; gamma].
Proof.
  destruct (getCompaniesByCategory_best_effort world_failing [] "AI")
    as (_ & _ & _ & _ & Hstatus & _).
  destruct (getCompaniesByCategory_best_effort world_unreachable [] "AI")
    as (_ & _ & _ & Hrejected & _).
  destruct (getCompaniesByCategory_best_effort world_non_conforming [] "AI")
    as (_ & _ & _ & _ & _ & _ & Hunsuccessful & _).
  destruct (getCompaniesByCategory_best_effort world_listed [] "AI")
    as (_ & _ & _ & _ & _ & _ & _ & Hlisted).
  split; [reflexivity|].
  split; [exact (Hstatus _ eq_refl eq_refl)|].
  split; [exact (Hrejected _ eq_refl)|].
  split; [exact (Hunsuccessful _ _ eq_refl eq_refl eq_refl)|].
  exact (Hlisted _ _ eq_refl eq_refl eq_refl eq_refl).
Defined.

Lemma aggregate_sets_sorted_distinct_nonempty_witness :
  200 <= 200 <= 299
  /\ World.eventsApi world_listed [] (events_url None)
     = ok_response 200 "OK"
         (EventsArray [conference; meetup; summit; undated])
  /\ Json_get "cities"
       (events_stats [conference; meetup; summit; undated] [meetup; summit])
     = Some (strings_json ["Lyon"; "Paris"; "Tokyo"]%string)
  /\ exists doc upcoming,
       fst (get_events_stats sample_Date_parse sample_stringify
              world_listed [])
       = Normal (mkTool (sample_stringify doc) false)
       /\ doc = events_stats [conference; meetup; summit; undated] upcoming
       /\ aggregate_field doc "categories"
            ["Conference"; "Meetup"; "Conference"; ""]%string
       /\ aggregate_field doc "countries"
            ["France"; "Japan"; "France"; "Japan"]%string
       /\ aggregate_field doc "cities" ["Paris"; "Tokyo"; "Lyon"; ""]%string
       /\ aggregate_field doc "companies"
            ["Blockza"; "Blockza"; "Blockza"; "Blockza"]%string.
Proof.
  destruct (aggregate_sets_sorted_distinct_nonempty sample_stringify
              sample_toFixed2 sample_Date_parse world_listed [])
    as (_ & Hevents).
  destruct (Hevents 200 "OK"%string [conference; meetup; summit; undated]
              ltac:(lia) eq_refl) as (_ & Hstats).
  split; [lia|]. split; [reflexivity|]. split; [reflexivity|].
  exact Hstats.
Defined.


Lemma zero_limit_is_no_limit_witness :
  200 <= 200 <= 299
  /\ World.directoryApi world_listed [] (category_url "AI")
     = ok_response 200 "OK" (ApiResponse.mk true [acme; beta; gamma])
  /\ fst (get_companies_by_category sample_stringify "AI" (Some 0)
            world_listed [])
     = Normal
         (mkTool
            (data_block sample_stringify "COMPANIES"
               (map company_summary [acme; beta; gamma])
               ["Found "; "3"; " companies in category "; dquote; "AI";
                dquote; "."]%string)
            false)
  /\ World.eventsApi world_listed []
       (events_url
          (Some (EventParams.mk None (Some "Conference"%string) None None
                                None None)))
     = ok_response 200 "OK" (EventsArray [conference; meetup; summit; undated])
  /\ fst (get_events_by_category sample_stringify "Conference" (Some 0)
            world_listed [])
     = Normal
         (mkTool
            (data_block sample_stringify "EVENTS"
               (map event_summary_plain [conference; meetup; summit; undated])
               ["Found "; "4"; " events in category "; dquote; "Conference";
                dquote; "."]%string)
            false)
  /\ World.eventsApi world_listed [] (events_url None)
     = ok_response 200 "OK" (EventsArray [conference; meetup; summit; undated])
  /\ fst (get_upcoming_events sample_Date_parse sample_stringify (Some 0)
            world_listed [])
     = Normal
         (mkTool
            (data_block sample_stringify "EVENTS"
               (map event_summary [meetup; summit])
               ["Found "; "2"; " upcoming events."]%string)
            false)
  /\ 3 <> 0
  /\ URL.has "limit"
       (companies_url (Some (CompanyParams.mk (Some 3) None None None)))
     = true
  /\ URL.has "limit"
       (companies_url (Some (CompanyParams.mk (Some 0) None None None)))
     = false.
Proof.
  destruct (zero_limit_is_no_limit sample_stringify sample_Date_parse
              world_listed [])
    as (_ & _ & Hall & _ & Hcategory & _ & Hupcoming & Hcompanies & _
        & Hsent).
  assert (Hst : 200 <= 200 <= 299) by lia.
  assert (Hw : World.directoryApi world_listed [] (category_url "AI")
               = ok_response 200 "OK"
                   (ApiResponse.mk true [acme; beta; gamma]))
    by reflexivity.
  assert (Hc : World.eventsApi world_listed []
                 (events_url
                    (Some (EventParams.mk None (Some "Conference"%string)
                                          None None None None)))
               = ok_response 200 "OK"
                   (EventsArray [conference; meetup; summit; undated]))
    by reflexivity.
  assert (He : World.eventsApi world_listed [] (events_url None)
               = ok_response 200 "OK"
                   (EventsArray [conference; meetup; summit; undated]))
    by reflexivity.
  assert (Hthree : 3 <> 0) by lia.
  pose proof (Hall "AI"%string 200 "OK"%string _ Hst Hw) as Hcompanies0.
  pose proof (Hcategory "Conference"%string 200 "OK"%string _ Hst Hc)
    as Hcategory0.
  pose proof (Hupcoming 200 "OK"%string _ Hst He) as Hupcoming0.
  cbv zeta in Hupcoming0.
  split; [exact Hst|]. split; [exact Hw|].
  split; [exact Hcompanies0|].
  split; [exact Hc|].
  split; [exact Hcategory0|].
  split; [exact He|].
  split; [exact Hupcoming0|].
  split; [exact Hthree|].
  split; [exact (Hsent 3 None None None Hthree)|].
  exact (proj2 (Hcompanies None None None)).
Defined.

(** * The rest of the server: lemmas *)

(** ** The string runtime on small inputs *)

Example split_comma_examples :
  split_comma "a,,b" = ["a"; ""; "b"]%string
  /\ split_comma "" = [""%string]
  /\ split_comma "defi, nft," = ["defi"; " nft"; ""]%string.
Proof. repeat split. Qed.

Example trim_examples :
  trim "  a b  " = "a b"%string /\ trim "   " = ""%string
  /\ trim " nft" = "nft"%string.
Proof. repeat split. Qed.

Example toLowerCase_examples :
  toLowerCase "PaRis-75" = "paris-75"%string
  /\ includes "paris" "ar" = true /\ includes "paris" "" = true
  /\ includes "" "" = true /\ includes "" "a" = false
  /\ includes "paris" "rip" = false
  /\ includes_ci "FRANCE" "ran" = true.
Proof. repeat split. Qed.

(** ** Failing upstream calls *)

Lemma settle_failed {T} (o : FetchOutcome T) :
  failed o <-> exists e, settle o = Throw e.
Proof.
  unfold failed, settle. split.
  - intros [[e ->]|[r [-> [Hok|[e Hj]]]]]; [eauto | |].
    + rewrite Hok. eauto.
    + rewrite Hj. destruct (Response.ok r); eauto.
  - destruct o as [e|r]; [eauto|].
    intros [e H]. right. exists r. split; [reflexivity|].
    destruct (Response.ok r); [|now left].
    right. destruct (Response.json r) as [e'|v]; [eauto | discriminate].
Qed.

Lemma settle_cases {T} (o : FetchOutcome T) :
  failed o \/ exists r v, o = Responded r /\ Response.ok r = true
                          /\ Response.json r = Parsed v
                          /\ settle o = Normal v.
Proof.
  destruct o as [e|r]; [left; left; eauto|].
  destruct (Response.ok r) eqn:Hok.
  - destruct (Response.json r) as [e|v] eqn:Hj.
    + left. right. exists r. split; [reflexivity|]. right. eauto.
    + right. exists r, v. unfold settle. rewrite Hok, Hj. auto.
  - left. right. exists r. auto.
Qed.

Lemma getEventsByLocation_run country city w tr :
  let url :=
    events_url (Some (EventParams.mk None None None country city None)) in
  getEventsByLocation country city w tr =
  (match settle (World.eventsApi w tr url) with
   | Normal data => Normal (array_or_empty data)
   | Throw _ => Normal []
   end,
   tr ++ [url]).
Proof.
  intros url. unfold getEventsByLocation, tryCatch. rewrite getEvents_run.
  fold url. destruct (settle _); reflexivity.
Qed.

(** ** Finding the first match *)

Lemma find_first {A} (p : A -> bool) xs x :
  find p xs = Some x ->
  exists before after,
    xs = before ++ x :: after /\ p x = true
    /\ forall y, In y before -> p y = false.
Proof.
  induction xs as [|a xs IH]; simpl; [discriminate|].
  destruct (p a) eqn:E.
  - intros [= <-]. exists [], xs. simpl. tauto.
  - intros H. destruct (IH H) as (before & after & -> & Hx & Hb).
    exists (a :: before), after. simpl. repeat split; auto.
    intros y [<-|Hy]; auto.
Qed.

(** ** Query strings *)

Lemma URL_set_fresh k v u :
  URL.has k u = false ->
  URL.set k v u = URL.mk (URL.base u) (URL.searchParams u ++ [(k, v)]).
Proof.
  unfold URL.has, URL.set. intros H. f_equal.
  induction (URL.searchParams u) as [|[k1 v1] ps IH]; simpl in *;
    [reflexivity|].
  apply orb_false_iff in H. destruct H as [H1 H2].
  rewrite H1. now rewrite IH.
Qed.

Lemma has_app k b ps qs :
  URL.has k (URL.mk b (ps ++ qs))
  = URL.has k (URL.mk b ps) || URL.has k (URL.mk b qs).
Proof. unfold URL.has. simpl. apply existsb_app. Qed.

Lemma set_if_truthy_fresh {A} (truthy : A -> bool) show k v u :
  URL.has k u = false ->
  set_if_truthy truthy show k v u
  = URL.mk (URL.base u)
           (URL.searchParams u ++ pair_if_truthy truthy show k v).
Proof.
  intros H. unfold set_if_truthy, pair_if_truthy.
  destruct v as [a|]; [destruct (truthy a)|];
    try (rewrite app_nil_r; now destruct u).
  now apply URL_set_fresh.
Qed.

Lemma set_if_defined_fresh {A} (show : A -> string) k v u :
  URL.has k u = false ->
  set_if_defined show k v u
  = URL.mk (URL.base u) (URL.searchParams u ++ pair_if_defined show k v).
Proof.
  intros H. unfold set_if_defined, pair_if_defined.
  destruct v as [a|]; [|rewrite app_nil_r; now destruct u].
  now apply URL_set_fresh.
Qed.

Lemma has_pair_if_truthy {A} (truthy : A -> bool) show k k' v b :
  String.eqb k' k = false ->
  URL.has k (URL.mk b (pair_if_truthy truthy show k' v)) = false.
Proof.
  intros H. unfold pair_if_truthy, URL.has.
  destruct v as [a|]; [destruct (truthy a)|]; simpl; now rewrite ?H.
Qed.

Lemma has_pair_if_defined {A} (show : A -> string) k k' v b :
  String.eqb k' k = false ->
  URL.has k (URL.mk b (pair_if_defined show k' v)) = false.
Proof.
  intros H. unfold pair_if_defined, URL.has.
  destruct v as [a|]; simpl; now rewrite ?H.
Qed.

Lemma keys_pair_if_truthy {A} (truthy : A -> bool) show k v :
  map fst (pair_if_truthy truthy show k v) = [k]
  \/ map fst (pair_if_truthy truthy show k v) = [].
Proof.
  unfold pair_if_truthy.
  destruct v as [a|]; [destruct (truthy a)|]; simpl; auto.
Qed.

Lemma keys_pair_if_defined {A} (show : A -> string) k v :
  map fst (pair_if_defined show k v) = [k]
  \/ map fst (pair_if_defined show k v) = [].
Proof. unfold pair_if_defined. destruct v; simpl; auto. Qed.

(** * The rest of the server: properties *)

(** X1. An event lookup issues one unfiltered listing request and never
    fails. On a listing it returns the first event with exactly the id
    looked up: a returned event is in the listing, has the id, and no event
    before it has; it returns the absent value when no event has the id,
    with no fallback to another event, and when the upstream call fails. *)
Theorem getEventById_first_exact (w : World.t) (tr : Trace) (id : string) :
  let o := World.eventsApi w tr (events_url None) in
  let result := fst (getEventById id w tr) in
  snd (getEventById id w tr) = tr ++ [URL.mk eventsUrl []]
  /\ (exists r, result = Normal r)
  /\ (failed o -> result = Normal None)
  /\ forall status statusText events,
       200 <= status <= 299 ->
       o = ok_response status statusText (EventsArray events) ->
       (forall e, result = Normal (Some e) ->
          exists before after,
            events = before ++ e :: after /\ Event._id e = id
            /\ forall x, In x before -> Event._id x <> id)
       /\ ((exists e, In e events /\ Event._id e = id) ->
           exists e, result = Normal (Some e))
       /\ ((forall e, In e events -> Event._id e <> id) ->
           result = Normal None).
Proof.
  intros o result. subst result. rewrite getEventById_run. fold o.
  simpl fst. simpl snd. split; [reflexivity|]. split.
  { destruct (settle o); eauto. }
  split.
  { intros Hf. apply settle_failed in Hf. destruct Hf as [e ->]. reflexivity. }
  intros status statusText events Hst Ho.
  rewrite Ho, (settle_ok _ _ _ Hst).
  change (array_or_empty (EventsArray events)) with events.
  split; [|split].
  - intros e [= H]. apply find_first in H.
    destruct H as (before & after & -> & Hid & Hb).
    exists before, after. split; [reflexivity|].
    split; [now apply String.eqb_eq|].
    intros x Hx. apply Hb in Hx. now apply String.eqb_neq.
  - intros [e [Hin Hid]].
    destruct (find (fun event => String.eqb (Event._id event) id) events)
      as [e'|] eqn:F; [eauto|].
    exfalso. apply (find_none _ _ F) in Hin.
    rewrite Hid, String.eqb_refl in Hin. discriminate.
  - intros Hno.
    destruct (find (fun event => String.eqb (Event._id event) id) events)
      as [e'|] eqn:F; [|reflexivity].
    apply find_some in F. destruct F as [Hin E].
    apply String.eqb_eq in E. now apply Hno in Hin.
Qed.

(** X2. The three derived event listings, by category, by location and
    upcoming, never fail: each issues one request and gives the empty
    sequence when the upstream call fails; on an answer that is an array
    the first two hand it back whole. *)
Theorem event_listings_best_effort
    (Date_parse : string -> option Z) (w : World.t) (tr : Trace) :
  (forall category,
     let url := events_url
                  (Some (EventParams.mk None (Some category) None None None
                                        None)) in
     let o := World.eventsApi w tr url in
     snd (getEventsByCategory category w tr) = tr ++ [url]
     /\ (exists l, fst (getEventsByCategory category w tr) = Normal l)
     /\ (failed o -> fst (getEventsByCategory category w tr) = Normal [])
     /\ (forall status statusText events,
           200 <= status <= 299 ->
           o = ok_response status statusText (EventsArray events) ->
           fst (getEventsByCategory category w tr) = Normal events))
  /\ (forall country city,
        let url := events_url
                     (Some (EventParams.mk None None None country city
                                           None)) in
        let o := World.eventsApi w tr url in
        snd (getEventsByLocation country city w tr) = tr ++ [url]
        /\ (exists l, fst (getEventsByLocation country city w tr) = Normal l)
        /\ (failed o ->
            fst (getEventsByLocation country city w tr) = Normal [])
        /\ (forall status statusText events,
              200 <= status <= 299 ->
              o = ok_response status statusText (EventsArray events) ->
              fst (getEventsByLocation country city w tr) = Normal events))
  /\ (let o := World.eventsApi w tr (events_url None) in
      snd (getUpcomingEvents Date_parse w tr) = tr ++ [URL.mk eventsUrl []]
      /\ (exists l, fst (getUpcomingEvents Date_parse w tr) = Normal l)
      /\ (failed o -> fst (getUpcomingEvents Date_parse w tr) = Normal [])).
Proof.
  split; [|split].
  - intros category url o.
    pose proof (getEventsByCategory_run category w tr) as Hrun.
    cbv zeta in Hrun. fold url in Hrun. fold o in Hrun. rewrite Hrun.
    simpl fst. simpl snd. split; [reflexivity|]. split.
    { destruct (settle o); eauto. }
    split.
    { intros Hf. apply settle_failed in Hf. now destruct Hf as [e ->]. }
    intros status statusText events Hst ->.
    now rewrite (settle_ok _ _ _ Hst).
  - intros country city url o.
    pose proof (getEventsByLocation_run country city w tr) as Hrun.
    cbv zeta in Hrun. fold url in Hrun. fold o in Hrun. rewrite Hrun.
    simpl fst. simpl snd. split; [reflexivity|]. split.
    { destruct (settle o); eauto. }
    split.
    { intros Hf. apply settle_failed in Hf. now destruct Hf as [e ->]. }
    intros status statusText events Hst ->.
    now rewrite (settle_ok _ _ _ Hst).
  - intros o. rewrite getUpcomingEvents_run. fold o.
    simpl fst. simpl snd. split; [reflexivity|]. split.
    { destruct (settle o); eauto. }
    intros Hf. apply settle_failed in Hf. now destruct Hf as [e ->].
Qed.

Ltac fresh_key :=
  simpl URL.base; simpl URL.searchParams;
  rewrite ?has_app, ?has_pair_if_truthy, ?has_pair_if_defined by reflexivity;
  reflexivity.

Ltac distinct_keys :=
  repeat match goal with
         | |- context [map fst (pair_if_truthy ?t ?s ?k ?v)] =>
             destruct (keys_pair_if_truthy t s k v) as [-> | ->]
         | |- context [map fst (pair_if_defined ?s ?k ?v)] =>
             destruct (keys_pair_if_defined s k v) as [-> | ->]
         end;
  simpl; repeat constructor; simpl; intuition discriminate.

(** X3. The query of a list request holds exactly the parameters the code
    sends, each once, in the order limit, category, search, (country,
    city,) verified or upcoming: a number is sent unless it is 0, a string
    unless it is empty, and a boolean whenever it is given, so
    [verified=false] and [upcoming=false] are sent. Without parameters the
    query is empty. *)
Theorem list_request_queries :
  (forall p,
     companies_url (Some p)
     = URL.mk baseUrl
         (pair_if_truthy truthy_number Z_toString "limit"
            (CompanyParams.limit p)
          ++ pair_if_truthy truthy_string id_string "category"
               (CompanyParams.category p)
          ++ pair_if_truthy truthy_string id_string "search"
               (CompanyParams.search p)
          ++ pair_if_defined bool_toString "verified"
               (CompanyParams.verified p))
     /\ NoDup (map fst (URL.searchParams (companies_url (Some p)))))
  /\ companies_url None = URL.mk baseUrl []
  /\ (forall p,
        events_url (Some p)
        = URL.mk eventsUrl
            (pair_if_truthy truthy_number Z_toString "limit"
               (EventParams.limit p)
             ++ pair_if_truthy truthy_string id_string "category"
                  (EventParams.category p)
             ++ pair_if_truthy truthy_string id_string "search"
                  (EventParams.search p)
             ++ pair_if_truthy truthy_string id_string "country"
                  (EventParams.country p)
             ++ pair_if_truthy truthy_string id_string "city"
                  (EventParams.city p)
             ++ pair_if_defined bool_toString "upcoming"
                  (EventParams.upcoming p))
        /\ NoDup (map fst (URL.searchParams (events_url (Some p)))))
  /\ events_url None = URL.mk eventsUrl []
  /\ (forall l c s b,
        In ("verified", bool_toString b)%string
           (URL.searchParams
              (companies_url (Some (CompanyParams.mk l c s (Some b)))))).
Proof.
  assert (Hc : forall p,
             companies_url (Some p)
             = URL.mk baseUrl
                 (pair_if_truthy truthy_number Z_toString "limit"
                    (CompanyParams.limit p)
                  ++ pair_if_truthy truthy_string id_string "category"
                       (CompanyParams.category p)
                  ++ pair_if_truthy truthy_string id_string "search"
                       (CompanyParams.search p)
                  ++ pair_if_defined bool_toString "verified"
                       (CompanyParams.verified p))).
  { intros p. unfold companies_url. cbn [optChain].
    rewrite (set_if_truthy_fresh _ _ "limit") by reflexivity.
    rewrite (set_if_truthy_fresh _ _ "category") by fresh_key.
    rewrite (set_if_truthy_fresh _ _ "search") by fresh_key.
    rewrite (set_if_defined_fresh _ "verified") by fresh_key.
    simpl. now rewrite <- !app_assoc. }
  assert (He : forall p,
             events_url (Some p)
             = URL.mk eventsUrl
                 (pair_if_truthy truthy_number Z_toString "limit"
                    (EventParams.limit p)
                  ++ pair_if_truthy truthy_string id_string "category"
                       (EventParams.category p)
                  ++ pair_if_truthy truthy_string id_string "search"
                       (EventParams.search p)
                  ++ pair_if_truthy truthy_string id_string "country"
                       (EventParams.country p)
                  ++ pair_if_truthy truthy_string id_string "city"
                       (EventParams.city p)
                  ++ pair_if_defined bool_toString "upcoming"
                       (EventParams.upcoming p))).
  { intros p. unfold events_url. cbn [optChain].
    rewrite (set_if_truthy_fresh _ _ "limit") by reflexivity.
    rewrite (set_if_truthy_fresh _ _ "category") by fresh_key.
    rewrite (set_if_truthy_fresh _ _ "search") by fresh_key.
    rewrite (set_if_truthy_fresh _ _ "country") by fresh_key.
    rewrite (set_if_truthy_fresh _ _ "city") by fresh_key.
    rewrite (set_if_defined_fresh _ "upcoming") by fresh_key.
    simpl. now rewrite <- !app_assoc. }
  split; [|split; [reflexivity|split; [|split; [reflexivity|]]]].
  - intros p. split; [apply Hc|]. rewrite Hc. simpl URL.searchParams.
    rewrite !map_app. distinct_keys.
  - intros p. split; [apply He|]. rewrite He. simpl URL.searchParams.
    rewrite !map_app. distinct_keys.
  - intros l c s b. rewrite Hc. simpl URL.searchParams.
    rewrite !in_app_iff. right. right. right. simpl. auto.
Qed.

Lemma http_error_toString {T} (r : Response.t T) :
  JsError.toString (http_error r)
  = ("Error: HTTP " ++ Z_toString (Response.status r) ++ ": "
     ++ Response.statusText r)%string.
Proof. reflexivity. Qed.

Lemma len_map {A B} (f : A -> B) xs : len (map f xs) = len xs.
Proof. unfold len. now rewrite length_map. Qed.

(** X4. The company search forwards its four arguments in one request and
    always answers. A rejected request and a status that is not 2xx give
    an error result whose text embeds the upstream message; an
    unsuccessful envelope gives the fixed failure text; a successful one
    gives one summary row per record and the count of the records. *)
Theorem search_companies_outcomes
    (JSON_stringify : Json -> string) (w : World.t) (tr : Trace)
    (search category : option string) (limit : option Z)
    (verified_only : option bool) :
  let url := companies_url
               (Some (CompanyParams.mk limit category search verified_only)) in
  let o := World.directoryApi w tr url in
  let run := search_companies JSON_stringify search category limit
               verified_only w tr in
  snd run = tr ++ [url]
  /\ (exists r, fst run = Normal r)
  /\ (forall e, o = Rejected e ->
      fst run = Normal (mkTool ("Error searching companies: "
                                ++ JsError.toString e)%string true))
  /\ (forall r, o = Responded r -> Response.ok r = false ->
      fst run
      = Normal (mkTool ("Error searching companies: Error: HTTP "
                        ++ Z_toString (Response.status r) ++ ": "
                        ++ Response.statusText r)%string true))
  /\ (forall status statusText companies,
        200 <= status <= 299 ->
        o = ok_response status statusText (ApiResponse.mk false companies) ->
        fst run
        = Normal
            (mkTool
               "Failed to search companies: API returned unsuccessful response"
               true))
  /\ (forall status statusText companies,
        200 <= status <= 299 ->
        o = ok_response status statusText (ApiResponse.mk true companies) ->
        fst run
        = Normal
            (mkTool
               (data_block JSON_stringify "COMPANIES"
                  (map company_summary companies)
                  ["Found "; Z_toString (len companies);
                   " companies matching your search criteria."]%string)
               false)).
Proof.
  intros url o run. subst run.
  unfold search_companies, tryCatch, bind.
  rewrite getCompanies_run. fold url. fold o.
  split.
  { destruct (settle o) as [data|e]; [|reflexivity].
    now destruct (ApiResponse.success data). }
  split.
  { destruct (settle o) as [data|e]; [|simpl; eauto].
    destruct (ApiResponse.success data); simpl; eauto. }
  repeat split.
  - intros e ->. reflexivity.
  - intros r -> Hok. simpl. rewrite Hok. reflexivity.
  - intros status statusText companies Hst ->.
    now rewrite (settle_ok _ _ _ Hst).
  - intros status statusText companies Hst ->.
    rewrite (settle_ok _ _ _ Hst). simpl. now rewrite len_map.
Qed.

(** X5. The event search forwards its six arguments in one request and
    always answers. With [upcoming_only] true it lists, of the events the
    upstream returned, those that start strictly after the time of the
    call, in their order; otherwise it lists them all. A body that is not
    an array lists nothing, and a failed upstream call gives an error
    result that embeds the upstream message. *)
Theorem search_events_outcomes
    (Date_parse : string -> option Z) (JSON_stringify : Json -> string)
    (w : World.t) (tr : Trace)
    (search category country city : option string) (limit : option Z)
    (upcoming_only : option bool) :
  let url := events_url
               (Some (EventParams.mk limit category search country city
                                     upcoming_only)) in
  let o := World.eventsApi w tr url in
  let run := search_events Date_parse JSON_stringify search category country
               city limit upcoming_only w tr in
  let listing shown :=
    Normal
      (mkTool
         (data_block JSON_stringify "EVENTS" (map event_search_row shown)
            ["Found "; Z_toString (len shown);
             " events matching your search criteria."]%string)
         false) in
  snd run = tr ++ [url]
  /\ (exists r, fst run = Normal r)
  /\ (forall e, o = Rejected e ->
      fst run = Normal (mkTool ("Error searching events: "
                                ++ JsError.toString e)%string true))
  /\ (forall r, o = Responded r -> Response.ok r = false ->
      fst run
      = Normal (mkTool ("Error searching events: Error: HTTP "
                        ++ Z_toString (Response.status r) ++ ": "
                        ++ Response.statusText r)%string true))
  /\ (forall status statusText j,
        200 <= status <= 299 ->
        o = ok_response status statusText (NotAnArray j) ->
        fst run = listing [])
  /\ (forall status statusText events,
        200 <= status <= 299 ->
        o = ok_response status statusText (EventsArray events) ->
        (upcoming_only = Some true ->
         exists shown,
           fst run = listing shown
           /\ subseq shown events
           /\ forall e, In e shown <->
                        In e events
                        /\ exists t,
                             Date_parse (Event.eventStartDate e) = Some t
                             /\ World.clock w (tr ++ [url]) < t)
        /\ (upcoming_only <> Some true -> fst run = listing events)).
Proof.
  intros url o run listing. subst run listing.
  unfold search_events, tryCatch, bind.
  rewrite getEvents_run. fold url. fold o.
  split.
  { destruct (settle o) as [data|e]; [|reflexivity].
    now destruct upcoming_only as [[|]|]. }
  split.
  { destruct (settle o) as [data|e]; [|simpl; eauto].
    destruct upcoming_only as [[|]|]; simpl; eauto. }
  repeat split.
  - intros e ->. reflexivity.
  - intros r -> Hok. simpl. rewrite Hok. reflexivity.
  - intros status statusText j Hst ->.
    rewrite (settle_ok _ _ _ Hst).
    destruct upcoming_only as [[|]|]; reflexivity.
  - intros ->. rewrite H0, (settle_ok _ _ _ H). simpl.
    eexists. split; [now rewrite len_map|].
    split; [apply filter_subseq|].
    intros e. rewrite filter_In. unfold starts_after.
    split.
    + intros [Hin Hp]. split; [exact Hin|].
      destruct (Date_parse (Event.eventStartDate e)) as [t|]; [|discriminate].
      exists t. split; [reflexivity | now apply Z.ltb_lt].
    + intros [Hin [t [Ht Hlt]]]. split; [exact Hin|].
      rewrite Ht. now apply Z.ltb_lt.
  - intros Hup. rewrite H0, (settle_ok _ _ _ H).
    destruct upcoming_only as [[|]|]; [congruence | |];
      simpl; now rewrite len_map.
Qed.

(** X6. The team tool always answers, after one search request. When the
    lookup finds no company it reports not-found as an error; for a
    company without team members it reports so in a plain, non-error
    message; otherwise it reports the team with the number of its
    members. *)
Theorem get_team_members_outcomes
    (JSON_stringify : Json -> string) (w : World.t) (tr : Trace)
    (company_slug : string) :
  let run := get_team_members JSON_stringify company_slug w tr in
  snd run = tr ++ [search_url company_slug]
  /\ (exists r, fst run = Normal r)
  /\ (fst (getCompanyBySlug company_slug w tr) = Normal None ->
      fst run
      = Normal (mkTool ("Company not found: " ++ company_slug)%string true))
  /\ (forall company,
        fst (getCompanyBySlug company_slug w tr) = Normal (Some company) ->
        (Company.teamMembers company = [] ->
         fst run
         = Normal (mkTool ("No team members found for "
                           ++ Company.name company)%string false))
        /\ (Company.teamMembers company <> [] ->
            fst run
            = Normal
                (mkTool
                   (tpl ["TEAM_DATA_START"; nl;
                         JSON_stringify (team_info company); nl;
                         "TEAM_DATA_END"; nl; nl; "Found ";
                         Z_toString
                           (Z.of_nat
                              (List.length (Company.teamMembers company)));
                         " team members for "; Company.name company;
                         "."]%string)
                   false))).
Proof.
  intros run. subst run. unfold get_team_members, tryCatch, bind.
  pose proof (getCompanyBySlug_run company_slug w tr) as Hrun.
  cbv zeta in Hrun. fold (search_url company_slug) in Hrun.
  destruct (getCompanyBySlug company_slug w tr) as [[found|e] tr'] eqn:E.
  2:{ exfalso. injection Hrun as H1 _.
      destruct (settle _) as [data|e']; [|discriminate].
      destruct (ApiResponse.success data); [|discriminate].
      destruct (find _ _); discriminate. }
  assert (Htr : tr' = tr ++ [search_url company_slug])
    by (now injection Hrun).
  subst tr'. simpl fst.
  split.
  { destruct found as [c|]; [|reflexivity].
    now destruct (len (Company.teamMembers c) =? 0). }
  split.
  { destruct found as [c|]; [|simpl; eauto].
    destruct (len (Company.teamMembers c) =? 0); simpl; eauto. }
  split.
  { intros [= ->]. reflexivity. }
  intros company [= ->]. split.
  - intros Ht. rewrite Ht. reflexivity.
  - intros Ht.
    destruct (Company.teamMembers company) as [|m ms] eqn:Em; [congruence|].
    replace (len (m :: ms) =? 0) with false
      by (symmetry; apply Z.eqb_neq; unfold len; simpl List.length; lia).
    simpl fst.
    change (team_member_row m :: map team_member_row ms)
      with (map team_member_row (m :: ms)).
    now rewrite len_map.
Qed.

Lemma find_app_miss {A} (p : A -> bool) xs ys :
  (forall y, In y ys -> p y = false) -> find p (xs ++ ys) = find p xs.
Proof.
  intros H. induction xs as [|x xs IH]; simpl.
  - destruct (find p ys) as [y|] eqn:F; [|reflexivity].
    apply find_some in F. destruct F as [Hin Hp].
    rewrite (H _ Hin) in Hp. discriminate.
  - now destruct (p x).
Qed.

(** X7. The details of a company carry the [team_members] key exactly when
    the team is asked for: with [include_team] false or absent the key is
    missing, not an empty array, and every other section is the same
    either way. The tool serialises these details for the company the
    lookup resolves to. *)
Theorem company_details_team_on_request
    (JSON_stringify : Json -> string) (w : World.t) (tr : Trace) :
  (forall company include_team,
     Json_get "team_members" (company_details company include_team)
     = if include_team
       then Some (JArr (map teamMember_json (Company.teamMembers company)))
       else None)
  /\ (forall company key,
        key <> "team_members"%string ->
        Json_get key (company_details company true)
        = Json_get key (company_details company false))
  /\ (forall identifier include_team company,
        fst (getCompanyBySlug identifier w tr) = Normal (Some company) ->
        fst (get_company_details JSON_stringify identifier include_team w tr)
        = Normal
            (mkTool
               (JSON_stringify
                  (company_details company
                     (match include_team with
                      | Some b => b
                      | None => false
                      end)))
               false)).
Proof.
  split; [|split].
  - intros company [|]; reflexivity.
  - intros company key Hkey. unfold company_details, Json_get.
    rewrite app_nil_r. rewrite find_app_miss; [reflexivity|].
    intros kv [<-|[]]. cbn [fst]. apply String.eqb_neq. congruence.
  - intros identifier include_team company H.
    unfold get_company_details, tryCatch, bind.
    destruct (getCompanyBySlug identifier w tr) as [c tr'].
    simpl in H. subst c. reflexivity.
Qed.

(** X8. When the search answers with a non-empty listing in which no record
    has the identifier as its slug, the details tool does not report
    not-found: it answers, without the error flag, with the details of the
    first record of the listing. *)
Theorem get_company_details_first_hit
    (JSON_stringify : Json -> string) (w : World.t) (tr : Trace)
    (identifier : string) (include_team : option bool)
    (status : Z) (statusText : string) (first : Company.t)
    (others : list Company.t) :
  200 <= status <= 299 ->
  World.directoryApi w tr (search_url identifier)
  = ok_response status statusText (ApiResponse.mk true (first :: others)) ->
  (forall c, In c (first :: others) -> Company.slug c <> identifier) ->
  fst (get_company_details JSON_stringify identifier include_team w tr)
  = Normal
      (mkTool
         (JSON_stringify
            (company_details first
               (match include_team with Some b => b | None => false end)))
         false).
Proof.
  intros Hst Hw Hno.
  unfold get_company_details, tryCatch, bind.
  pose proof (getCompanyBySlug_run identifier w tr) as Hrun.
  cbv zeta in Hrun. fold (search_url identifier) in Hrun.
  rewrite Hrun, Hw, (settle_ok _ _ _ Hst).
  cbn [ApiResponse.success ApiResponse.data].
  destruct (find (fun c => String.eqb (Company.slug c) identifier)
                 (first :: others)) as [c|] eqn:F.
  - apply find_some in F. destruct F as [Hin E].
    apply String.eqb_eq in E. now apply Hno in Hin.
  - reflexivity.
Qed.

Lemma firstn_prefix {A} n (xs : list A) : exists rest, xs = firstn n xs ++ rest.
Proof. exists (skipn n xs). symmetry. apply firstn_skipn. Qed.

(** X9. The limit of the listing tools cuts the fetched records to a
    prefix: a positive limit keeps at most that many records from the
    front, a negative limit drops that many records from the end, and in
    every case the records kept are the first records fetched, in
    order. *)
Theorem take_limit_prefix {A} (limit : option Z) (xs : list A) :
  (exists dropped, xs = take_limit limit xs ++ dropped)
  /\ (limit = None -> take_limit limit xs = xs)
  /\ (forall n, limit = Some n -> 0 < n ->
      take_limit limit xs = firstn (Z.to_nat n) xs
      /\ Z.of_nat (List.length (take_limit limit xs))
         = Z.min n (Z.of_nat (List.length xs)))
  /\ (forall n, limit = Some n -> n < 0 ->
      take_limit limit xs
      = firstn (List.length xs - Z.to_nat (- n)) xs
      /\ Z.of_nat (List.length (take_limit limit xs))
         = Z.max (Z.of_nat (List.length xs) + n) 0).
Proof.
  split.
  { unfold take_limit. destruct (truthy_opt truthy_number limit).
    - unfold slice0. apply firstn_prefix.
    - exists []. now rewrite app_nil_r. }
  split; [now intros ->|]. split.
  - intros n -> Hn. unfold take_limit, truthy_opt, truthy_number.
    replace (n =? 0) with false by (symmetry; apply Z.eqb_neq; lia).
    simpl negb. cbv iota. unfold slice0.
    replace (n <? 0) with false by (symmetry; apply Z.ltb_ge; lia).
    assert (E : firstn (Z.to_nat (Z.min n (Z.of_nat (List.length xs)))) xs
                = firstn (Z.to_nat n) xs).
    { destruct (Z.le_gt_cases n (Z.of_nat (List.length xs))).
      - now rewrite Z.min_l by lia.
      - rewrite Z.min_r by lia. rewrite Nat2Z.id, firstn_all.
        symmetry. apply firstn_all2. lia. }
    rewrite E. split; [reflexivity|]. rewrite length_firstn. lia.
  - intros n -> Hn. unfold take_limit, truthy_opt, truthy_number.
    replace (n =? 0) with false by (symmetry; apply Z.eqb_neq; lia).
    simpl negb. cbv iota. unfold slice0.
    replace (n <? 0) with true by (symmetry; apply Z.ltb_lt; lia).
    replace (Z.to_nat (Z.max (Z.of_nat (List.length xs) + n) 0))
      with (List.length xs - Z.to_nat (- n))%nat by lia.
    split; [reflexivity|]. rewrite length_firstn. lia.
Qed.

(** X10. The listing tools by category, upcoming and by location degrade
    instead of failing. When the upstream call fails (the request is
    rejected, the status is not 2xx or the body is not JSON), and when the
    body is an unsuccessful envelope or is not an array, they report an
    empty data block and zero records, without the error flag. When the
    upstream answers with a well-formed listing they report its records,
    cut by the limit, without the error flag. *)
Theorem listing_tools_degrade_to_empty
    (Date_parse : string -> option Z) (JSON_stringify : Json -> string)
    (w : World.t) (tr : Trace) (limit : option Z) :
  (forall category,
     let o := World.directoryApi w tr (category_url category) in
     let result :=
       fst (get_companies_by_category JSON_stringify category limit w tr) in
     let answer rows count :=
       Normal
         (mkTool
            (tpl ["COMPANIES_DATA_START"; nl; JSON_stringify (JArr rows); nl;
                  "COMPANIES_DATA_END"; nl; nl;
                  "Found "; count; " companies in category "; dquote;
                  category; dquote; "."]%string)
            false) in
     (failed o -> result = answer [] "0"%string)
     /\ (forall status statusText companies,
           200 <= status <= 299 ->
           o = ok_response status statusText (ApiResponse.mk false companies) ->
           result = answer [] "0"%string)
     /\ (forall status statusText companies,
           200 <= status <= 299 ->
           o = ok_response status statusText (ApiResponse.mk true companies) ->
           result
           = answer (map company_summary (take_limit limit companies))
               (Z_toString (len (take_limit limit companies)))))
  /\ (forall category,
        let o :=
          World.eventsApi w tr
            (events_url
               (Some (EventParams.mk None (Some category) None None None
                                     None))) in
        let result :=
          fst (get_events_by_category JSON_stringify category limit w tr) in
        let answer rows count :=
          Normal
            (mkTool
               (tpl ["EVENTS_DATA_START"; nl; JSON_stringify (JArr rows); nl;
                     "EVENTS_DATA_END"; nl; nl;
                     "Found "; count; " events in category "; dquote;
                     category; dquote; "."]%string)
               false) in
        (failed o -> result = answer [] "0"%string)
        /\ (forall status statusText body,
              200 <= status <= 299 ->
              o = ok_response status statusText (NotAnArray body) ->
              result = answer [] "0"%string)
        /\ (forall status statusText events,
              200 <= status <= 299 ->
              o = ok_response status statusText (EventsArray events) ->
              result
              = answer (map event_summary_plain (take_limit limit events))
                  (Z_toString (len (take_limit limit events)))))
  /\ (let o := World.eventsApi w tr (events_url None) in
      let result :=
        fst (get_upcoming_events Date_parse JSON_stringify limit w tr) in
      let answer rows count :=
        Normal
          (mkTool
             (tpl ["EVENTS_DATA_START"; nl; JSON_stringify (JArr rows); nl;
                   "EVENTS_DATA_END"; nl; nl;
                   "Found "; count; " upcoming events."]%string)
             false) in
      (failed o -> result = answer [] "0"%string)
      /\ (forall status statusText body,
            200 <= status <= 299 ->
            o = ok_response status statusText (NotAnArray body) ->
            result = answer [] "0"%string)
      /\ (forall status statusText events,
            200 <= status <= 299 ->
            o = ok_response status statusText (EventsArray events) ->
            let upcoming :=
              take_limit limit
                (filter
                   (starts_after Date_parse
                      (World.clock w (tr ++ [events_url None])))
                   events) in
            result
            = answer (map event_summary upcoming)
                (Z_toString (len upcoming))))
  /\ (forall country city,
        truthy_opt truthy_string country || truthy_opt truthy_string city
        = true ->
        let o :=
          World.eventsApi w tr
            (events_url
               (Some (EventParams.mk None None None country city None))) in
        let result :=
          fst (get_events_by_location JSON_stringify country city limit
                 w tr) in
        let place :=
          if truthy_opt truthy_string city
          then tpl [show_opt city; ", "; show_opt country]%string
          else show_opt country in
        let answer rows count :=
          Normal
            (mkTool
               (tpl ["EVENTS_DATA_START"; nl; JSON_stringify (JArr rows); nl;
                     "EVENTS_DATA_END"; nl; nl;
                     "Found "; count; " events in "; place; "."]%string)
               false) in
        (failed o -> result = answer [] "0"%string)
        /\ (forall status statusText body,
              200 <= status <= 299 ->
              o = ok_response status statusText (NotAnArray body) ->
              result = answer [] "0"%string)
        /\ (forall status statusText events,
              200 <= status <= 299 ->
              o = ok_response status statusText (EventsArray events) ->
              result
              = answer (map event_summary (take_limit limit events))
                  (Z_toString (len (take_limit limit events))))).
Proof.
  assert (Hnil : forall A, take_limit limit (@nil A) = [])
    by (intros A; unfold take_limit, slice0;
        destruct (truthy_opt truthy_number limit);
        [now rewrite firstn_nil | reflexivity]).
  split; [|split; [|split]].
  - intros category o result answer. subst result answer.
    unfold get_companies_by_category, tryCatch, bind.
    pose proof (getCompaniesByCategory_run category w tr) as Hrun.
    cbv zeta in Hrun. fold (category_url category) in Hrun. fold o in Hrun.
    rewrite Hrun. split; [|split].
    + intros Hf. apply settle_failed in Hf. destruct Hf as [e ->].
      simpl. now rewrite Hnil.
    + intros status statusText companies Hst ->.
      rewrite (settle_ok _ _ _ Hst). simpl. now rewrite Hnil.
    + intros status statusText companies Hst ->.
      rewrite (settle_ok _ _ _ Hst). reflexivity.
  - intros category o result answer. subst result answer.
    unfold get_events_by_category, tryCatch, bind.
    pose proof (getEventsByCategory_run category w tr) as Hrun.
    cbv zeta in Hrun. fold o in Hrun. rewrite Hrun. split; [|split].
    + intros Hf. apply settle_failed in Hf. destruct Hf as [e ->].
      simpl. now rewrite Hnil.
    + intros status statusText body Hst ->.
      rewrite (settle_ok _ _ _ Hst). simpl. now rewrite Hnil.
    + intros status statusText events Hst ->.
      rewrite (settle_ok _ _ _ Hst). reflexivity.
  - intros o result answer. subst result answer.
    unfold get_upcoming_events, tryCatch, bind.
    rewrite getUpcomingEvents_run. fold o. split; [|split].
    + intros Hf. apply settle_failed in Hf. destruct Hf as [e ->].
      simpl. now rewrite Hnil.
    + intros status statusText body Hst ->.
      rewrite (settle_ok _ _ _ Hst). simpl. now rewrite Hnil.
    + intros status statusText events Hst ->. cbv zeta.
      rewrite (settle_ok _ _ _ Hst). reflexivity.
  - intros country city H o result place answer. subst result answer place.
    pose proof (getEventsByLocation_run country city w tr) as Hrun.
    cbv zeta in Hrun. fold o in Hrun.
    unfold get_events_by_location, tryCatch, bind.
    assert (Hguard : negb (truthy_opt truthy_string country)
                     && negb (truthy_opt truthy_string city) = false).
    { destruct (truthy_opt truthy_string country),
               (truthy_opt truthy_string city);
        (reflexivity || discriminate). }
    rewrite Hguard, Hrun. split; [|split].
    + intros Hf. apply settle_failed in Hf. destruct Hf as [e ->].
      simpl. now rewrite Hnil.
    + intros status statusText body Hst ->.
      rewrite (settle_ok _ _ _ Hst). simpl. now rewrite Hnil.
    + intros status statusText events Hst ->.
      rewrite (settle_ok _ _ _ Hst). reflexivity.
Qed.

Lemma subseq_length {A} (sub full : list A) :
  subseq sub full -> (List.length sub <= List.length full)%nat.
Proof. induction 1; simpl; lia. Qed.

Lemma len_filter_bounds {A} (p : A -> bool) xs :
  0 <= len (filter p xs) <= len xs.
Proof.
  unfold len. pose proof (subseq_length _ _ (filter_subseq p xs)). lia.
Qed.

Lemma size_sorted_members set :
  StringSet.size set = len (sorted_members set).
Proof.
  unfold StringSet.size, len, sorted_members, StringSet.toArray.
  f_equal. symmetry. apply Permutation_length, Array_sort_perm.
Qed.

(** X11. The directory statistics are consistent with the listing they are
    computed from: the number of categories is the length of the category
    list reported beside it, and the numbers of verified, promoted and
    affiliate companies lie between 0 and the number of companies. When
    the likes and the views are non-negative integers whose sums do not
    exceed [Number.MAX_SAFE_INTEGER], so that every addition the handler
    makes is exact, the totals are the sums of the likes and of the
    views. *)
Theorem directory_stats_consistent
    (toFixed2 : Z -> Z -> string) (companies : list Company.t) :
  let stats := directory_stats toFixed2 companies in
  (exists categories verified promoted affiliates,
     Json_get "total_companies" stats = Some (JNum (len companies))
     /\ Json_get "categories" stats = Some (strings_json categories)
     /\ Json_get "total_categories" stats = Some (JNum (len categories))
     /\ Json_get "verified_companies" stats = Some (JNum verified)
     /\ Json_get "promoted_companies" stats = Some (JNum promoted)
     /\ Json_get "companies_with_affiliate_programs" stats
        = Some (JNum affiliates)
     /\ 0 <= verified <= len companies
     /\ 0 <= promoted <= len companies
     /\ 0 <= affiliates <= len companies)
  /\ ((forall c, In c companies ->
                 0 <= Company.likes c /\ 0 <= Company.views c) ->
      total Company.likes companies <= MAX_SAFE_INTEGER ->
      total Company.views companies <= MAX_SAFE_INTEGER ->
      Json_get "total_likes" stats
      = Some (JNum (total Company.likes companies))
      /\ Json_get "total_views" stats
         = Some (JNum (total Company.views companies))).
Proof.
  intros stats. subst stats. unfold directory_stats. cbv zeta.
  rewrite !fold_left_sum, !Z.add_0_l, size_sorted_members.
  split.
  - do 4 eexists.
    cbn [Json_get find fst snd option_map String.eqb Ascii.eqb Bool.eqb].
    repeat (split; [reflexivity|]).
    split; [apply len_filter_bounds|].
    split; apply len_filter_bounds.
  - intros _ _ _. split; reflexivity.
Qed.

(** X12. The events statistics come from two requests. When the first
    fails the tool reports an error that embeds the upstream message. When
    it answers with a listing, the counts are taken from it and from the
    upcoming events of the second request: past is total minus upcoming;
    if the second request fails every event is counted as past; if it
    answers with the same listing, upcoming and past both lie between 0
    and the total. *)
Theorem get_events_stats_counts
    (Date_parse : string -> option Z) (JSON_stringify : Json -> string)
    (w : World.t) (tr : Trace) :
  let url := events_url None in
  let run := get_events_stats Date_parse JSON_stringify w tr in
  (forall e, World.eventsApi w tr url = Rejected e ->
     run = (Normal (mkTool ("Error getting events statistics: "
                            ++ JsError.toString e)%string true),
            tr ++ [url]))
  /\ (forall r, World.eventsApi w tr url = Responded r ->
      Response.ok r = false ->
      run = (Normal (mkTool ("Error getting events statistics: Error: HTTP "
                             ++ Z_toString (Response.status r) ++ ": "
                             ++ Response.statusText r)%string true),
             tr ++ [url]))
  /\ forall status statusText events,
       200 <= status <= 299 ->
       World.eventsApi w tr url
       = ok_response status statusText (EventsArray events) ->
       let second := World.eventsApi w (tr ++ [url]) url in
       exists upcoming,
         run = (Normal
                  (mkTool (JSON_stringify (events_stats events upcoming))
                          false),
                (tr ++ [url]) ++ [url])
         /\ Json_get "total_events" (events_stats events upcoming)
            = Some (JNum (len events))
         /\ Json_get "upcoming_events" (events_stats events upcoming)
            = Some (JNum (len upcoming))
         /\ Json_get "past_events" (events_stats events upcoming)
            = Some (JNum (len events - len upcoming))
         /\ (failed second -> upcoming = [])
         /\ (forall status2 statusText2,
               200 <= status2 <= 299 ->
               second = ok_response status2 statusText2 (EventsArray events) ->
               subseq upcoming events
               /\ 0 <= len upcoming <= len events
               /\ 0 <= len events - len upcoming <= len events).
Proof.
  intros url run. subst run. unfold get_events_stats, tryCatch, bind.
  rewrite getEvents_run. fold url. split; [|split].
  - intros e ->. reflexivity.
  - intros r -> Hok. simpl. now rewrite Hok.
  - intros status statusText events Hst Hw.
    set (second := World.eventsApi w (tr ++ [url]) url).
    rewrite Hw, (settle_ok _ _ _ Hst), getUpcomingEvents_run.
    fold url. fold second.
    change (array_or_empty (EventsArray events)) with events.
    exists (match settle second with
            | Normal data =>
                filter (starts_after Date_parse
                          (World.clock w ((tr ++ [url]) ++ [url])))
                       (array_or_empty data)
            | Throw _ => []
            end).
    split; [destruct (settle second); reflexivity|].
    split; [reflexivity|]. split; [reflexivity|]. split; [reflexivity|].
    split.
    + intros Hf. apply settle_failed in Hf. destruct Hf as [e He].
      now rewrite He.
    + intros status2 statusText2 Hst2 Hs.
      rewrite Hs, (settle_ok _ _ _ Hst2).
      change (array_or_empty (EventsArray events)) with events.
      split; [apply filter_subseq|].
      pose proof (len_filter_bounds
                    (starts_after Date_parse
                       (World.clock w ((tr ++ [url]) ++ [url]))) events).
      lia.
Qed.

Ltac answer_resource :=
  unfold failed_resource, json_resource; simpl; eauto.

(** X13. A resource handler never fails: in every world each of the seven
    resources answers with one JSON content item that carries the URI it
    was asked for. *)
Theorem resources_always_answer
    (Date_parse : string -> option Z) (JSON_stringify : Json -> string)
    (w : World.t) (tr : Trace) (uri : string) :
  let answers (run : Completion ResourceResult * Trace) :=
    exists text, fst run = Normal (mkResource uri text json_mime) in
  answers (companies_resource JSON_stringify uri w tr)
  /\ (forall slug,
        answers (company_profile_resource JSON_stringify uri slug w tr))
  /\ answers (categories_resource JSON_stringify uri w tr)
  /\ answers (events_resource JSON_stringify uri w tr)
  /\ (forall id, answers (event_details_resource JSON_stringify uri id w tr))
  /\ answers (upcoming_events_resource Date_parse JSON_stringify uri w tr)
  /\ answers (event_categories_resource JSON_stringify uri w tr).
Proof.
  intros answers. subst answers. cbv beta.
  split; [|split; [|split; [|split; [|split; [|split]]]]].
  - unfold companies_resource, tryCatch, bind. rewrite getCompanies_run.
    destruct (settle _); answer_resource.
  - intros [slug|l]; unfold company_profile_resource, tryCatch, bind;
      [|answer_resource].
    pose proof (getCompanyBySlug_run slug w tr) as Hrun. cbv zeta in Hrun.
    rewrite Hrun. destruct (settle _) as [data|e]; [|answer_resource].
    destruct (ApiResponse.success data); [|answer_resource].
    destruct (find _ _); [answer_resource|].
    destruct (hd_error _); answer_resource.
  - unfold categories_resource, tryCatch, bind. rewrite getCompanies_run.
    destruct (settle _); answer_resource.
  - unfold events_resource, tryCatch, bind. rewrite getEvents_run.
    destruct (settle _); answer_resource.
  - intros [id|l]; unfold event_details_resource, tryCatch, bind;
      [|answer_resource].
    rewrite getEventById_run. destruct (settle _) as [data|e]; [|answer_resource].
    destruct (find _ _); answer_resource.
  - unfold upcoming_events_resource, tryCatch, bind.
    rewrite getUpcomingEvents_run. destruct (settle _); answer_resource.
  - unfold event_categories_resource, tryCatch, bind. rewrite getEvents_run.
    destruct (settle _); answer_resource.
Qed.

(** X14. The profile resources validate before they fetch: a template
    variable that is not a single string gives the invalid-parameter
    document and no request. For a string they make one lookup; what the
    lookup finds is serialised in full, and both an absent entity and a
    failed upstream call give the not-found document that names the
    key. *)
Theorem profile_resources_outcomes
    (JSON_stringify : Json -> string) (w : World.t) (tr : Trace)
    (uri : string) :
  let doc d := Normal (mkResource uri (JSON_stringify d) json_mime) in
  (forall l,
     company_profile_resource JSON_stringify uri (VarList l) w tr
     = (doc (error_doc "Invalid slug parameter"), tr)
     /\ event_details_resource JSON_stringify uri (VarList l) w tr
        = (doc (error_doc "Invalid event ID parameter"), tr))
  /\ (forall slug,
        let run :=
          company_profile_resource JSON_stringify uri (VarString slug) w tr in
        snd run = tr ++ [search_url slug]
        /\ (forall company,
              fst (getCompanyBySlug slug w tr) = Normal (Some company) ->
              fst run = doc (company_json company))
        /\ (fst (getCompanyBySlug slug w tr) = Normal None ->
            fst run = doc (error_doc ("Company not found: " ++ slug)%string))
        /\ (failed (World.directoryApi w tr (search_url slug)) ->
            fst run = doc (error_doc ("Company not found: " ++ slug)%string)))
  /\ (forall id,
        let run :=
          event_details_resource JSON_stringify uri (VarString id) w tr in
        snd run = tr ++ [events_url None]
        /\ (forall event,
              fst (getEventById id w tr) = Normal (Some event) ->
              fst run = doc (event_json event))
        /\ (fst (getEventById id w tr) = Normal None ->
            fst run = doc (error_doc ("Event not found: " ++ id)%string))
        /\ (failed (World.eventsApi w tr (events_url None)) ->
            fst run = doc (error_doc ("Event not found: " ++ id)%string))).
Proof.
  intros doc. subst doc. cbv beta. split; [|split].
  - intros l. split; reflexivity.
  - intros slug run. subst run.
    unfold company_profile_resource, tryCatch, bind.
    pose proof (getCompanyBySlug_run slug w tr) as Hrun. cbv zeta in Hrun.
    fold (search_url slug) in Hrun. rewrite Hrun. simpl fst.
    split.
    { destruct (settle _) as [data|e]; [|reflexivity].
      destruct (ApiResponse.success data); [|reflexivity].
      destruct (find _ _); [reflexivity|].
      destruct (hd_error _); reflexivity. }
    split; [|split].
    + intros company H. now rewrite H.
    + intros H. now rewrite H.
    + intros Hf. apply settle_failed in Hf. destruct Hf as [e ->].
      reflexivity.
  - intros id run. subst run.
    unfold event_details_resource, tryCatch, bind.
    rewrite getEventById_run. simpl fst.
    split.
    { destruct (settle _) as [data|e]; [|reflexivity].
      destruct (find _ _); reflexivity. }
    split; [|split].
    + intros event H. now rewrite H.
    + intros H. now rewrite H.
    + intros Hf. apply settle_failed in Hf. destruct Hf as [e ->].
      reflexivity.
Qed.

(** X15. The two listing resources pass on what the client's list call
    gives. The companies resource serialises the envelope as received,
    without looking at its success flag; the events resource serialises
    the array, or an empty array for a body that is not one. A failed
    upstream call gives, in both, an error document that embeds the
    upstream message. *)
Theorem listing_resources_outcomes
    (JSON_stringify : Json -> string) (w : World.t) (tr : Trace)
    (uri : string) :
  let doc d := Normal (mkResource uri (JSON_stringify d) json_mime) in
  (let o := World.directoryApi w tr (companies_url None) in
   let result := fst (companies_resource JSON_stringify uri w tr) in
   (forall status statusText envelope,
      200 <= status <= 299 ->
      o = ok_response status statusText envelope ->
      result = doc (apiResponse_json envelope))
   /\ (forall e, o = Rejected e ->
       result = doc (error_doc ("Failed to fetch companies: "
                                ++ JsError.toString e)%string))
   /\ (forall r, o = Responded r -> Response.ok r = false ->
       result = doc (error_doc ("Failed to fetch companies: Error: HTTP "
                                ++ Z_toString (Response.status r) ++ ": "
                                ++ Response.statusText r)%string)))
  /\ (let o := World.eventsApi w tr (events_url None) in
      let result := fst (events_resource JSON_stringify uri w tr) in
      (forall status statusText events,
         200 <= status <= 299 ->
         o = ok_response status statusText (EventsArray events) ->
         result = doc (JArr (map event_json events)))
      /\ (forall status statusText j,
            200 <= status <= 299 ->
            o = ok_response status statusText (NotAnArray j) ->
            result = doc (JArr []))
      /\ (forall e, o = Rejected e ->
          result = doc (error_doc ("Failed to fetch events: "
                                   ++ JsError.toString e)%string))
      /\ (forall r, o = Responded r -> Response.ok r = false ->
          result = doc (error_doc ("Failed to fetch events: Error: HTTP "
                                   ++ Z_toString (Response.status r) ++ ": "
                                   ++ Response.statusText r)%string))).
Proof.
  intros doc. subst doc. cbv beta. split.
  - intros o result. subst result.
    unfold companies_resource, tryCatch, bind. rewrite getCompanies_run.
    fold o. repeat split.
    + intros status statusText envelope Hst ->.
      now rewrite (settle_ok _ _ _ Hst).
    + intros e ->. reflexivity.
    + intros r -> Hok. simpl. now rewrite Hok.
  - intros o result. subst result.
    unfold events_resource, tryCatch, bind. rewrite getEvents_run.
    fold o. repeat split.
    + intros status statusText events Hst ->.
      now rewrite (settle_ok _ _ _ Hst).
    + intros status statusText j Hst ->.
      now rewrite (settle_ok _ _ _ Hst).
    + intros e ->. reflexivity.
    + intros r -> Hok. simpl. now rewrite Hok.
Qed.

Lemma truthy_opt_string_false (o : option string) :
  truthy_opt truthy_string o = false <-> o = None \/ o = Some EmptyString.
Proof.
  destruct o as [[|c s]|]; simpl; split; auto; try discriminate.
  intros [H|H]; discriminate.
Qed.

(** X16. The company analysis prompt. Without a slug, or with the empty
    one, it asks for a slug and makes no request. With a slug it makes one
    lookup. When the lookup finds a company record, with its social links
    and promotion settings present and its counters safe integers, the
    prompt is the analysis text filled from that record: its name,
    category, verification status, descriptions, founder, links, business
    flags, likes, views, founder followers and team size. An absent
    company and a failed upstream call both give the fallback message
    that names the slug. *)
Theorem analyze_company_outcomes (w : World.t) (tr : Trace) :
  (forall company_slug,
     company_slug = None \/ company_slug = Some EmptyString ->
     analyze_company company_slug w tr
     = (Normal (mkPrompt "user" "Please provide a company slug to analyze."),
        tr))
  /\ (forall slug,
        slug <> EmptyString ->
        let run := analyze_company (Some slug) w tr in
        let fallback :=
          Normal
            (mkPrompt "user"
               (tpl ["Please provide an analysis template for when a company ";
                     dquote; slug; dquote;
                     " is not found in the directory."]%string)) in
        snd run = tr ++ [search_url slug]
        /\ (forall company,
              fst (getCompanyBySlug slug w tr) = Normal (Some company) ->
              safe_integer (Company.likes company) ->
              safe_integer (Company.views company) ->
              safe_integer (Company.founderFollowers company) ->
              fst run
              = Normal
                  (mkPrompt "user"
                     (tpl
                        ["Please analyze the following company from the Blockza directory:";
                         nl; nl;
                         "Company: "; Company.name company; nl;
                         "Category: "; Company.category company; nl;
                         "Verification Status: ";
                         Company.verificationStatus company; nl;
                         "Description: "; Company.shortDescription company;
                         nl; nl;
                         "Detailed Information:"; nl;
                         Company.detail company; nl; nl;
                         "Founder: "; Company.founderName company; nl;
                         "Founder Details: "; Company.founderDetails company;
                         nl; nl;
                         "Social Presence:"; nl;
                         "- Website: "; Company.url company; nl;
                         "- Twitter: ";
                         SocialLinks.twitter (Company.socialLinks company);
                         nl;
                         "- LinkedIn: ";
                         SocialLinks.linkedin (Company.socialLinks company);
                         nl;
                         "- Telegram: ";
                         SocialLinks.telegram (Company.socialLinks company);
                         nl;
                         "- Facebook: ";
                         SocialLinks.facebook (Company.socialLinks company);
                         nl;
                         "- YouTube: ";
                         SocialLinks.youtube (Company.socialLinks company);
                         nl; nl;
                         "Business Information:"; nl;
                         "- Has Affiliate Program: ";
                         (if PromotionSettings.hasAffiliateProgram
                               (Company.promotionSettings company)
                          then "true" else "false"); nl;
                         "- Interested in Business Partnerships: ";
                         (if PromotionSettings.interestedInBusinessPartnership
                               (Company.promotionSettings company)
                          then "true" else "false"); nl;
                         "- Is Promoted: ";
                         (if Company.isPromoted company
                          then "true" else "false"); nl; nl;
                         "Engagement Metrics:"; nl;
                         "- Likes: "; Z_toString (Company.likes company); nl;
                         "- Views: "; Z_toString (Company.views company); nl;
                         "- Founder Followers: ";
                         Z_toString (Company.founderFollowers company);
                         nl; nl;
                         "Team Size: ";
                         Z_toString
                           (Z.of_nat
                              (List.length (Company.teamMembers company)));
                         " members"; nl; nl;
                         "Please provide a comprehensive analysis covering:";
                         nl;
                         "1. Business overview and market position"; nl;
                         "2. Founder background and leadership"; nl;
                         "3. Social media presence and engagement"; nl;
                         "4. Growth potential and partnership opportunities";
                         nl;
                         "5. Competitive advantages"; nl;
                         "6. Any notable observations or recommendations"]%string)))
        /\ (fst (getCompanyBySlug slug w tr) = Normal None ->
            fst run = fallback)
        /\ (failed (World.directoryApi w tr (search_url slug)) ->
            fst run = fallback)).
Proof.
  split.
  - intros company_slug H. apply truthy_opt_string_false in H.
    unfold analyze_company. now rewrite H.
  - intros slug Hs run fallback. subst run fallback.
    unfold analyze_company, bind.
    destruct slug as [|c s]; [congruence|].
    cbn [truthy_opt truthy_string negb show_opt].
    pose proof (getCompanyBySlug_run (String c s) w tr) as Hrun.
    cbv zeta in Hrun. fold (search_url (String c s)) in Hrun.
    rewrite Hrun. simpl fst. split.
    { destruct (settle _) as [data|e]; [|reflexivity].
      destruct (ApiResponse.success data); [|reflexivity].
      destruct (find _ _); [reflexivity|].
      destruct (hd_error _); reflexivity. }
    split; [|split].
    + intros company H _ _ _. rewrite H.
      unfold company_analysis, user_message, bool_toString, len.
      rewrite num_or_0_same. reflexivity.
    + intros H. now rewrite H.
    + intros Hf. apply settle_failed in Hf. destruct Hf as [e ->].
      reflexivity.
Qed.

(** X17. The status an event analysis shows is one of three. It is
    Upcoming exactly when the start date is valid and strictly after the
    time of the call; Ongoing exactly when both dates are valid, the start
    is not after that time and the end is not before it; and Past in every
    other case, so also for an event whose start date is not a date. The
    prompt for the event the lookup finds is the analysis text filled from
    that event, and the status on its [Status:] line is this
    classification at the time read after the lookup. *)
Theorem event_status_classifies
    (Date_parse : string -> option Z) (toLocaleDateString : option Z -> string)
    (w : World.t) (tr : Trace) (now : Z) (event : Event.t) :
  let startDate := Date_parse (Event.eventStartDate event) in
  let endDate := Date_parse (Event.eventEndDate event) in
  let status := event_status Date_parse now event in
  (status = "Upcoming" \/ status = "Ongoing" \/ status = "Past")%string
  /\ (status = "Upcoming"%string <->
      exists s, startDate = Some s /\ now < s)
  /\ (status = "Ongoing"%string <->
      exists s e, startDate = Some s /\ endDate = Some e /\ s <= now <= e)
  /\ (startDate = None -> status = "Past"%string)
  /\ (forall id,
        id <> EmptyString ->
        fst (getEventById id w tr) = Normal (Some event) ->
        fst (analyze_event Date_parse toLocaleDateString (Some id) w tr)
        = Normal
            (event_analysis Date_parse toLocaleDateString
               (World.clock w (tr ++ [events_url None])) event))
  /\ (forall id,
        id <> EmptyString ->
        fst (getEventById id w tr) = Normal (Some event) ->
        now = World.clock w (tr ++ [events_url None]) ->
        exists shown,
          fst (analyze_event Date_parse toLocaleDateString (Some id) w tr)
          = Normal
              (mkPrompt "user"
                 (tpl
                    ["Please analyze the following event from the Blockza events directory:";
                     nl; nl;
                     "Event: "; Event.title event; nl;
                     "Organizer: "; Event.company event; nl;
                     "Category: "; Event.category event; nl;
                     "Status: "; shown; nl; nl;
                     "Description:"; nl;
                     Event.description event; nl; nl;
                     "Location: "; Event.location event; ", ";
                     Event.city event; ", "; Event.country event; nl;
                     "Dates: "; toLocaleDateString startDate; " - ";
                     toLocaleDateString endDate; nl; nl;
                     "Links:"; nl;
                     "- Website: "; Event.website event; nl;
                     "- Featured Image: "; Event.featuredImage event; nl; nl;
                     "Social Media:"; nl;
                     "- Twitter: ";
                     EventSocialLinks.twitter (Event.socialLinks event); nl;
                     "- LinkedIn: ";
                     EventSocialLinks.linkedin (Event.socialLinks event); nl;
                     "- Telegram: ";
                     EventSocialLinks.telegram (Event.socialLinks event); nl;
                     "- Instagram: ";
                     EventSocialLinks.instagram (Event.socialLinks event);
                     nl; nl;
                     "Please provide a comprehensive analysis covering:"; nl;
                     "1. Event overview and significance in the Web3 ecosystem";
                     nl;
                     "2. Organizer reputation and track record"; nl;
                     "3. Target audience and value proposition"; nl;
                     "4. Location and timing analysis"; nl;
                     "5. Social media presence and marketing strategy"; nl;
                     "6. Potential impact and networking opportunities"; nl;
                     "7. Recommendations for attendees or organizers"; nl;
                     "8. Market positioning and competitive landscape"]%string))
          /\ (shown = "Upcoming" \/ shown = "Ongoing" \/ shown = "Past")%string
          /\ (shown = "Upcoming"%string <->
              exists s, startDate = Some s /\ now < s)
          /\ (shown = "Ongoing"%string <->
              exists s e,
                startDate = Some s /\ endDate = Some e /\ s <= now <= e)
          /\ (shown = "Past"%string <->
              ~ (exists s, startDate = Some s /\ now < s)
              /\ ~ (exists s e,
                      startDate = Some s /\ endDate = Some e
                      /\ s <= now <= e))).
Proof.
  intros startDate endDate status.
  assert (Hone : (status = "Upcoming" \/ status = "Ongoing"
                  \/ status = "Past")%string).
  { subst status. unfold event_status. fold startDate. fold endDate.
    unfold date_gt, date_le.
    destruct startDate as [s|]; [|auto].
    destruct (now <? s); [auto|].
    destruct endDate as [e|]; [|rewrite andb_false_r; auto].
    destruct ((s <=? now) && (now <=? e)); auto. }
  assert (Hup : status = "Upcoming"%string <->
                exists s, startDate = Some s /\ now < s).
  { subst status. unfold event_status. fold startDate. fold endDate.
    unfold date_gt, date_le.
    destruct startDate as [s|].
    + destruct (now <? s) eqn:E.
      * split; [|reflexivity]. intros _. exists s.
        split; [reflexivity | now apply Z.ltb_lt].
      * split.
        -- destruct endDate as [e|]; [|rewrite andb_false_r; discriminate].
           destruct ((s <=? now) && (now <=? e)); discriminate.
        -- intros [s' [[= <-] H]]. apply Z.ltb_ge in E. lia.
    + split; [discriminate | intros [s [H _]]; discriminate]. }
  assert (Hon : status = "Ongoing"%string <->
                exists s e,
                  startDate = Some s /\ endDate = Some e /\ s <= now <= e).
  { subst status. unfold event_status. fold startDate. fold endDate.
    unfold date_gt, date_le.
    destruct startDate as [s|].
    + destruct (now <? s) eqn:E.
      * split; [discriminate|].
        intros [s' [e [[= <-] [_ H]]]]. apply Z.ltb_lt in E. lia.
      * destruct endDate as [e|].
        -- destruct ((s <=? now) && (now <=? e)) eqn:E2.
           ++ split; [|reflexivity]. intros _. exists s, e.
              apply andb_true_iff in E2. destruct E2 as [A B].
              apply Z.leb_le in A, B. auto.
           ++ split; [discriminate|].
              intros [s' [e' [[= <-] [[= <-] H]]]].
              apply andb_false_iff in E2.
              destruct E2 as [A|A]; apply Z.leb_gt in A; lia.
        -- rewrite andb_false_r.
           split; [discriminate | intros [s' [e [_ [H _]]]]; discriminate].
    + split; [discriminate | intros [s [e [H _]]]; discriminate]. }
  assert (Hprompt :
            forall id,
              id <> EmptyString ->
              fst (getEventById id w tr) = Normal (Some event) ->
              fst (analyze_event Date_parse toLocaleDateString (Some id) w tr)
              = Normal
                  (event_analysis Date_parse toLocaleDateString
                     (World.clock w (tr ++ [events_url None])) event)).
  { intros id Hid H. unfold analyze_event, bind.
    destruct id as [|c s]; [congruence|].
    cbn [truthy_opt truthy_string negb show_opt].
    pose proof (getEventById_run (String c s) w tr) as Hrun.
    destruct (getEventById (String c s) w tr) as [found tr'].
    simpl in H. subst found. injection Hrun as _ ->. reflexivity. }
  split; [exact Hone|]. split; [exact Hup|]. split; [exact Hon|].
  split.
  { intros H. subst status. unfold event_status. fold startDate.
    rewrite H. reflexivity. }
  split; [exact Hprompt|].
  intros id Hid Hfound Hnow. exists status.
  split.
  { rewrite (Hprompt id Hid Hfound), <- Hnow. reflexivity. }
  split; [exact Hone|]. split; [exact Hup|]. split; [exact Hon|].
  split.
  - intros Hpast. split.
    + intros H. apply Hup in H. rewrite Hpast in H. discriminate.
    + intros H. apply Hon in H. rewrite Hpast in H. discriminate.
  - intros [Hnu Hno]. destruct Hone as [H|[H|H]]; [| |exact H].
    + now apply Hup in H.
    + now apply Hon in H.
Qed.



(** ** Sorting by a comparison that is only read on the elements *)

Lemma sort_insert_ext {A} (cmp cmp' : A -> A -> Z) x l :
  (forall y, In y l -> cmp x y = cmp' x y) ->
  sort_insert cmp x l = sort_insert cmp' x l.
Proof.
  induction l as [|y l IH]; intros H; simpl; [reflexivity|].
  rewrite (H y) by now left.
  destruct (cmp' x y <=? 0); [reflexivity|].
  f_equal. apply IH. intros z Hz. apply H. now right.
Qed.

Lemma Array_sort_ext {A} (cmp cmp' : A -> A -> Z) l :
  (forall a b, In a l -> In b l -> cmp a b = cmp' a b) ->
  Array_sort cmp l = Array_sort cmp' l.
Proof.
  induction l as [|x l IH]; intros H; simpl; [reflexivity|].
  rewrite IH by (intros a b Ha Hb; apply H; now right).
  apply sort_insert_ext. intros y Hy. apply H; [now left|].
  right. eapply Permutation_in; [apply Array_sort_perm | exact Hy].
Qed.

Lemma StronglySorted_on {A} (P : A -> Prop) (R R' : A -> A -> Prop) l :
  (forall a b, P a -> P b -> R a b -> R' a b) ->
  Forall P l -> StronglySorted R l -> StronglySorted R' l.
Proof.
  intros HR HP Hs. induction Hs as [|x l Hs IH Hall]; [constructor|].
  inversion HP as [|? ? Px Pl]; subst.
  constructor; [now apply IH|].
  rewrite Forall_forall in *. intros y Hy. apply HR; auto.
Qed.

Lemma events_ranked_by_start (Date_parse : string -> option Z) events :
  (forall e, In e events -> Date_parse (Event.eventStartDate e) <> None) ->
  Permutation (Array_sort (by_start_date Date_parse) events) events
  /\ StronglySorted (starts_no_later Date_parse)
       (Array_sort (by_start_date Date_parse) events).
Proof.
  intros Hvalid. split; [apply Array_sort_perm|].
  set (key e := match Date_parse (Event.eventStartDate e) with
                | Some x => x
                | None => 0
                end).
  assert (Hext : Array_sort (by_start_date Date_parse) events
                 = Array_sort (fun a b => key a - key b) events).
  { apply Array_sort_ext. intros a b Ha Hb. unfold by_start_date, key.
    apply Hvalid in Ha, Hb.
    destruct (Date_parse (Event.eventStartDate a)); [|congruence].
    destruct (Date_parse (Event.eventStartDate b)); [|congruence].
    reflexivity. }
  rewrite Hext.
  apply (StronglySorted_on
           (fun e => Date_parse (Event.eventStartDate e) <> None)
           (fun a b => key a - key b <= 0)).
  - intros a b Ha Hb Hab. unfold starts_no_later, key in *.
    destruct (Date_parse (Event.eventStartDate a)) as [x|]; [|congruence].
    destruct (Date_parse (Event.eventStartDate b)) as [y|]; [|congruence].
    exists x, y. repeat split. lia.
  - rewrite Forall_forall. intros e He. apply Hvalid.
    eapply Permutation_in; [apply Array_sort_perm | exact He].
  - apply Array_sort_sorted; intros; lia.
Qed.

(** X19. When every candidate has a valid start date, the events of a
    comparison are the candidates in ascending order of start time, cut to
    the count read from the limit, or to 5 without a limit; the
    recommendations are cut from the same ranking to 10. *)
Theorem events_ranked_then_truncated
    (Date_parse : string -> option Z) (events : list Event.t)
    (limit : option string) (n : nat) :
  (forall e, In e events -> Date_parse (Event.eventStartDate e) <> None) ->
  (limit = None /\ n = 5%nat)
  \/ (exists s, limit = Some s /\ s <> EmptyString
                /\ parseInt10 s = Some (Z.of_nat n)) ->
  exists ranked,
    Permutation ranked events
    /\ StronglySorted (starts_no_later Date_parse) ranked
    /\ topEvents Date_parse events (limit_or_default limit) = firstn n ranked
    /\ top_recommendations Date_parse events = firstn 10 ranked.
Proof.
  intros Hvalid Hlimit.
  destruct (events_ranked_by_start Date_parse events Hvalid) as [Hp Hs].
  exists (Array_sort (by_start_date Date_parse) events).
  split; [exact Hp|]. split; [exact Hs|]. split.
  - unfold topEvents.
    destruct Hlimit as [[-> ->]|[s [-> [Hne Hparse]]]].
    + apply (slice0_count _ 5).
    + simpl limit_or_default. unfold numLimit.
      destruct s; [congruence|]. simpl truthy_string. rewrite Hparse.
      apply slice0_count.
  - apply (slice0_count _ 10).
Qed.

(** ** The filters of the recommendations *)

Lemma by_interests_incl interests events :
  incl (by_interests interests events) events.
Proof.
  unfold by_interests. destruct interests as [i|]; [|apply incl_refl].
  destruct (truthy_string i); [apply incl_filter | apply incl_refl].
Qed.

Lemma by_location_incl location events :
  incl (by_location location events) events.
Proof.
  unfold by_location. destruct location as [l|]; [|apply incl_refl].
  destruct (truthy_string l); [apply incl_filter | apply incl_refl].
Qed.

Lemma by_event_type_incl event_type events :
  incl (by_event_type event_type events) events.
Proof.
  unfold by_event_type. destruct event_type as [t|]; [|apply incl_refl].
  destruct (truthy_string t); [apply incl_filter | apply incl_refl].
Qed.

Lemma by_timeframe_incl Date_parse timeframe now events :
  incl (by_timeframe Date_parse timeframe now events) events.
Proof.
  unfold by_timeframe.
  destruct (includes _ "next 3 months"); [apply incl_filter|].
  destruct (includes _ "2025"); [apply incl_filter | apply incl_refl].
Qed.

Lemma top_recommendations_bound Date_parse events :
  (List.length (top_recommendations Date_parse events) <= 10)%nat
  /\ incl (top_recommendations Date_parse events) events.
Proof.
  unfold top_recommendations. rewrite (slice0_count _ 10). split.
  - rewrite length_firstn. lia.
  - intros e He.
    eapply Permutation_in; [apply Array_sort_perm|].
    rewrite <- (firstn_skipn 10 (Array_sort (by_start_date Date_parse) events)).
    apply in_or_app. now left.
Qed.

Lemma filter_true {A} (xs : list A) : filter (fun _ => true) xs = xs.
Proof. induction xs as [|x xs IH]; simpl; congruence. Qed.

Lemma filter_and {A} (p q : A -> bool) xs :
  filter q (filter p xs) = filter (fun x => p x && q x) xs.
Proof.
  induction xs as [|x xs IH]; simpl; [reflexivity|].
  destruct (p x); simpl; [destruct (q x)|]; congruence.
Qed.

(** X20. The recommendations prompt always resolves to a message, after one
    request for the whole listing. A failed upstream call gives the error
    guidance that embeds the upstream message. On a listing the events
    that match are those that pass every criterion given: one of the
    comma-separated interest terms occurs in the title, description or
    category; the location occurs in the country or city; the event type
    occurs in the category, all letter case aside; and the start date
    falls in the timeframe, the next 90 days from the time of the call or
    up to the end of 2025. The prompt recommends the first 10 of the
    matching events in the order the sort leaves them, names the criteria
    given and the number of recommendations, and carries one row for each
    recommended event. *)
Theorem event_recommendations_outcomes
    (Date_parse : string -> option Z) (JSON_stringify : Json -> string)
    (w : World.t) (tr : Trace)
    (interests location timeframe event_type : option string) :
  let o := World.eventsApi w tr (events_url None) in
  let run := event_recommendations Date_parse JSON_stringify interests
               location timeframe event_type w tr in
  let now := World.clock w (tr ++ [events_url None]) in
  let interested (event : Event.t) :=
    match interests with
    | Some i =>
        if truthy_string i
        then existsb
               (fun term =>
                  includes (toLowerCase (Event.title event)) term
                  || includes (toLowerCase (Event.description event)) term
                  || includes (toLowerCase (Event.category event)) term)
               (map trim (split_comma (toLowerCase i)))
        else true
    | None => true
    end in
  let located (event : Event.t) :=
    match location with
    | Some l =>
        if truthy_string l
        then includes (toLowerCase (Event.country event)) (toLowerCase l)
             || includes (toLowerCase (Event.city event)) (toLowerCase l)
        else true
    | None => true
    end in
  let typed (event : Event.t) :=
    match event_type with
    | Some t =>
        if truthy_string t
        then includes (toLowerCase (Event.category event)) (toLowerCase t)
        else true
    | None => true
    end in
  let timely (event : Event.t) :=
    match timeframe with
    | Some t =>
        if truthy_string t
        then
          if includes (toLowerCase t) "next 3 months"%string
          then match Date_parse (Event.eventStartDate event) with
               | Some start =>
                   (now <=? start)
                   && (start <=? now + 90 * 24 * 60 * 60 * 1000)
               | None => false
               end
          else if includes (toLowerCase t) "2025"%string
          then match Date_parse (Event.eventStartDate event),
                     Date_parse "2025-12-31"%string with
               | Some start, Some bound => start <=? bound
               | _, _ => false
               end
          else true
        else true
    | None => true
    end in
  let given (label : string) (value : option string) :=
    match value with
    | Some v => if truthy_string v then [(label ++ v)%string] else []
    | None => []
    end in
  snd run = tr ++ [events_url None]
  /\ (exists message, fst run = Normal message)
  /\ (forall e, o = Rejected e -> fst run = Normal (recommendations_failed e))
  /\ (forall r, o = Responded r -> Response.ok r = false ->
      fst run = Normal (recommendations_failed (http_error r)))
  /\ (forall status statusText events,
        200 <= status <= 299 ->
        o = ok_response status statusText (EventsArray events) ->
        exists matching ranked recommendations,
          matching
          = filter
              (fun event =>
                 interested event && located event && typed event
                 && timely event)
              events
          /\ Permutation ranked matching
          /\ recommendations = firstn 10 ranked
          /\ fst run
             = Normal
                 (mkPrompt "user"
                    (tpl
                       ["Based on your criteria: ";
                        String.concat ", "
                          (given "Interests: " interests
                           ++ given "Location: " location
                           ++ given "Timeframe: " timeframe
                           ++ given "Event Type: " event_type);
                        nl; nl;
                        "I found ";
                        Z_toString (Z.of_nat (List.length recommendations));
                        " events that match your preferences:"; nl; nl;
                        JSON_stringify
                          (JArr
                             (map
                                (fun event =>
                                   JObj
                                     [("id", JStr (Event._id event));
                                      ("title", JStr (Event.title event));
                                      ("organizer",
                                       JStr (Event.company event));
                                      ("category",
                                       JStr (Event.category event));
                                      ("location",
                                       JStr
                                         (tpl [Event.city event; ", ";
                                               Event.country event]));
                                      ("dates",
                                       JStr (Event.eventStartDate event));
                                      ("website",
                                       JStr (Event.website event));
                                      ("description",
                                       JStr
                                         (String.substring 0 200
                                            (Event.description event)
                                          ++ "..."))])
                                recommendations));
                        nl; nl;
                        "Please provide personalized recommendations covering:";
                        nl;
                        "1. Why each event matches the user's criteria"; nl;
                        "2. Expected value and learning opportunities"; nl;
                        "3. Networking potential and target audience"; nl;
                        "4. Logistics and practical considerations"; nl;
                        "5. Alternative options if the top recommendations don't work";
                        nl;
                        "6. Tips for maximizing the event experience"; nl;
                        "7. Follow-up actions and preparation suggestions";
                        nl; nl;
                        "Rank the recommendations by relevance and explain your reasoning."]%string))
          /\ (List.length recommendations <= 10)%nat
          /\ (forall e, In e recommendations ->
                        In e events
                        /\ interested e = true /\ located e = true
                        /\ typed e = true /\ timely e = true)
          /\ ((List.length matching <= 10)%nat ->
              Permutation recommendations matching)).
Proof.
  intros o run now interested located typed timely given. subst run.
  unfold event_recommendations, tryCatch, bind.
  rewrite getEvents_run. fold o.
  split.
  { destruct (settle o) as [data|e]; [|reflexivity].
    now destruct (truthy_opt truthy_string timeframe). }
  split.
  { destruct (settle o) as [data|e]; [|simpl; eauto].
    destruct (truthy_opt truthy_string timeframe); simpl; eauto. }
  split; [|split].
  - intros e ->. reflexivity.
  - intros r -> Hok. simpl. now rewrite Hok.
  - intros status statusText events Hst ->.
    rewrite (settle_ok _ _ _ Hst).
    change (array_or_empty (EventsArray events)) with events.
    assert (Hi : forall xs, by_interests interests xs = filter interested xs).
    { intros xs. unfold by_interests. subst interested.
      destruct interests as [i|]; [|now rewrite filter_true].
      destruct (truthy_string i); [reflexivity | now rewrite filter_true]. }
    assert (Hl : forall xs, by_location location xs = filter located xs).
    { intros xs. unfold by_location. subst located.
      destruct location as [l|]; [|now rewrite filter_true].
      destruct (truthy_string l); [reflexivity | now rewrite filter_true]. }
    assert (Ht : forall xs, by_event_type event_type xs = filter typed xs).
    { intros xs. unfold by_event_type. subst typed.
      destruct event_type as [t|]; [|now rewrite filter_true].
      destruct (truthy_string t); [reflexivity | now rewrite filter_true]. }
    assert (Hcriteria :
              recommendation_criteria interests location timeframe event_type
              = given "Interests: "%string interests
                ++ given "Location: "%string location
                ++ given "Timeframe: "%string timeframe
                ++ given "Event Type: "%string event_type).
    { unfold recommendation_criteria, criterion. subst given.
      destruct interests as [[|? ?]|], location as [[|? ?]|],
               timeframe as [[|? ?]|], event_type as [[|? ?]|];
        reflexivity. }
    set (candidates :=
           by_event_type event_type
             (by_location location (by_interests interests events))).
    assert (Hc : candidates
                 = filter (fun event =>
                             interested event && located event && typed event)
                          events).
    { subst candidates. rewrite Hi, Hl, Ht.
      rewrite (filter_and interested located events), filter_and.
      reflexivity. }
    assert (Hm : (if truthy_opt truthy_string timeframe
                  then by_timeframe Date_parse (show_opt timeframe) now
                         candidates
                  else candidates)
                 = filter (fun event =>
                             interested event && located event
                             && typed event && timely event)
                          events).
    { rewrite Hc. subst timely.
      destruct timeframe as [t|]; simpl;
        [|rewrite <- (filter_true (filter _ events)) at 1;
          now rewrite filter_and].
      destruct (truthy_string t);
        [|rewrite <- (filter_true (filter _ events)) at 1;
          now rewrite filter_and].
      unfold by_timeframe. cbv zeta.
      destruct (includes (toLowerCase t) "next 3 months").
      - rewrite filter_and. apply filter_ext. intros event.
        unfold date_le, ninety_days.
        destruct (Date_parse (Event.eventStartDate event)); reflexivity.
      - destruct (includes (toLowerCase t) "2025").
        + rewrite filter_and. apply filter_ext. intros event.
          unfold date_le. reflexivity.
        + rewrite <- (filter_true (filter _ events)) at 1.
          now rewrite filter_and. }
    set (matching :=
           filter (fun event =>
                     interested event && located event && typed event
                     && timely event)
                  events) in *.
    exists matching, (Array_sort (by_start_date Date_parse) matching),
      (firstn 10 (Array_sort (by_start_date Date_parse) matching)).
    assert (Hin : forall e,
              In e (firstn 10 (Array_sort (by_start_date Date_parse) matching)) ->
              In e matching).
    { intros e He.
      eapply Permutation_in; [apply Array_sort_perm|].
      rewrite <- (firstn_skipn 10
                    (Array_sort (by_start_date Date_parse) matching)).
      apply in_or_app. now left. }
    split; [reflexivity|].
    split; [apply Array_sort_perm|].
    split; [reflexivity|].
    split.
    { fold candidates. unfold now in Hm. revert Hm.
      destruct (truthy_opt truthy_string timeframe); intros Hm;
        cbv beta iota delta [Date_now ret fst]; rewrite Hm;
        unfold recommendations_message, user_message, top_recommendations;
        rewrite Hcriteria, (slice0_count _ 10); reflexivity. }
    split; [rewrite length_firstn; lia|].
    split.
    { intros e He. apply Hin in He. subst matching.
      apply filter_In in He. destruct He as [He Hp].
      apply andb_true_iff in Hp. destruct Hp as [Hp H4].
      apply andb_true_iff in Hp. destruct Hp as [Hp H3].
      apply andb_true_iff in Hp. destruct Hp as [H1 H2]. auto. }
    intros Hlen.
    rewrite firstn_all2; [apply Array_sort_perm|].
    rewrite (Permutation_length
               (Array_sort_perm (by_start_date Date_parse) matching)).
    exact Hlen.
Qed.

(** ** Cutting a description *)

Lemma substring_0_length n : forall s,
  (String.length (String.substring 0 n s) <= n)%nat
  /\ String.prefix (String.substring 0 n s) s = true
  /\ ((String.length s <= n)%nat -> String.substring 0 n s = s)
  /\ ((n <= String.length s)%nat ->
      String.length (String.substring 0 n s) = n).
Proof.
  induction n as [|n IH]; intros s.
  - destruct s; simpl; repeat split; auto; intros H; lia.
  - destruct s as [|c s]; simpl.
    + repeat split; auto; lia.
    + destruct (IH s) as (H1 & H2 & H3 & H4).
      repeat split.
      * lia.
      * destruct (ascii_dec c c); [exact H2 | congruence].
      * intros H. f_equal. apply H3. lia.
      * intros H. f_equal. apply H4. lia.
Qed.

(** X21. The description shown for a recommended event is a cut of the
    event's description: its first 200 characters, or all of it when it
    is shorter, always followed by three dots, also when nothing was cut
    off; it is never longer than 203 characters. *)
Theorem recommendation_description_cut (event : Event.t) :
  exists shown,
    Json_get "description" (recommendation_row event)
    = Some (JStr (shown ++ "..."))
    /\ String.prefix shown (Event.description event) = true
    /\ (String.length shown <= 200)%nat
    /\ ((String.length (Event.description event) <= 200)%nat ->
        shown = Event.description event)
    /\ ((200 <= String.length (Event.description event))%nat ->
        String.length shown = 200%nat).
Proof.
  exists (String.substring 0 200 (Event.description event)).
  destruct (substring_0_length 200 (Event.description event))
    as (H1 & H2 & H3 & H4).
  split; [reflexivity|]. auto.
Qed.

(** ** Interest terms *)

Lemma includes_empty s : includes s EmptyString = true.
Proof. destruct s; reflexivity. Qed.

Lemma filter_all {A} (p : A -> bool) xs :
  (forall x, In x xs -> p x = true) -> filter p xs = xs.
Proof.
  induction xs as [|x xs IH]; intros H; simpl; [reflexivity|].
  rewrite (H x) by now left. f_equal. apply IH. intros y Hy. apply H.
  now right.
Qed.

Lemma toLowerCase_app a b :
  toLowerCase (a ++ b) = (toLowerCase a ++ toLowerCase b)%string.
Proof. induction a as [|c a IH]; simpl; [reflexivity | now rewrite IH]. Qed.

Lemma split_comma_nonempty s : split_comma s <> [].
Proof.
  destruct s as [|c s]; simpl; [discriminate|].
  destruct (Ascii.eqb c ","); [discriminate|].
  destruct (split_comma s); discriminate.
Qed.

Lemma split_comma_trailing s :
  split_comma (s ++ ",") = split_comma s ++ [EmptyString].
Proof.
  induction s as [|c s IH]; [reflexivity|].
  cbn [String.append split_comma]. rewrite IH.
  destruct (Ascii.eqb c ","); [reflexivity|].
  destruct (split_comma s) as [|h t] eqn:E; [|reflexivity].
  now apply split_comma_nonempty in E.
Qed.

(** X22. An empty interest term matches every event. So when one of the
    comma-separated interests is empty or blank, as after a trailing
    comma, the interest filter keeps the whole listing. *)
Theorem empty_interest_term_matches_all (events : list Event.t) :
  (forall event, matches_term event EmptyString = true)
  /\ (forall interests,
        In EmptyString (interest_terms interests) ->
        by_interests (Some interests) events = events)
  /\ (forall interests,
        In EmptyString (interest_terms (interests ++ ","))
        /\ by_interests (Some (interests ++ ","))%string events = events).
Proof.
  assert (Hterm : forall event, matches_term event EmptyString = true).
  { intros event. unfold matches_term. now rewrite !includes_empty. }
  assert (Hall : forall interests,
             In EmptyString (interest_terms interests) ->
             by_interests (Some interests) events = events).
  { intros interests Hin. unfold by_interests.
    destruct (truthy_string interests); [|reflexivity].
    apply filter_all. intros event _. apply existsb_exists.
    exists EmptyString. split; [exact Hin | apply Hterm]. }
  split; [exact Hterm|]. split; [exact Hall|].
  intros interests.
  assert (Hin : In EmptyString (interest_terms (interests ++ ","))).
  { unfold interest_terms. rewrite toLowerCase_app.
    change (toLowerCase ",") with ","%string.
    rewrite split_comma_trailing, map_app. apply in_or_app. right.
    now left. }
  split; [exact Hin | now apply Hall].
Qed.

(** X23. The timeframe filter reads two phrases. A timeframe that mentions
    the next 3 months keeps the events that start no earlier than the time
    of the call and no later than 7776000000 milliseconds (90 days) after
    it, whether or not it also mentions 2025; one that only mentions 2025
    keeps the events that start no later than the start of 31 December
    2025, so past events too; any other timeframe filters nothing. Events
    without a valid start date are dropped by both filters. *)
Theorem by_timeframe_cases
    (Date_parse : string -> option Z) (timeframe : string) (now : Z)
    (events : list Event.t) :
  let kept := by_timeframe Date_parse timeframe now events in
  let mentions phrase := includes (toLowerCase timeframe) phrase in
  (mentions "next 3 months"%string = true ->
   forall e, In e kept <->
             In e events
             /\ exists t, Date_parse (Event.eventStartDate e) = Some t
                          /\ now <= t <= now + 7776000000)
  /\ (mentions "next 3 months"%string = false ->
      mentions "2025"%string = true ->
      forall e, In e kept <->
                In e events
                /\ exists t y,
                     Date_parse (Event.eventStartDate e) = Some t
                     /\ Date_parse "2025-12-31"%string = Some y /\ t <= y)
  /\ (mentions "next 3 months"%string = false ->
      mentions "2025"%string = false -> kept = events).
Proof.
  intros kept mentions. subst kept mentions. cbv beta.
  unfold by_timeframe. cbv zeta.
  split; [|split].
  - intros ->. intros e. rewrite filter_In. unfold date_le.
    change ninety_days with 7776000000.
    split.
    + intros [Hin H]. split; [exact Hin|].
      destruct (Date_parse (Event.eventStartDate e)) as [t|];
        [|discriminate].
      apply andb_true_iff in H. destruct H as [A B].
      apply Z.leb_le in A, B. eauto.
    + intros [Hin [t [-> [A B]]]]. split; [exact Hin|].
      apply andb_true_iff. split; now apply Z.leb_le.
  - intros -> ->. intros e. rewrite filter_In. unfold date_le.
    split.
    + intros [Hin H]. split; [exact Hin|].
      destruct (Date_parse (Event.eventStartDate e)) as [t|];
        [|discriminate].
      destruct (Date_parse "2025-12-31"%string) as [y|]; [|discriminate].
      apply Z.leb_le in H. eauto.
    + intros [Hin [t [y [-> [-> A]]]]]. split; [exact Hin|].
      now apply Z.leb_le.
  - intros -> ->. reflexivity.
Qed.

(** X24. The limit of the comparison prompts is read leniently. An empty
    limit counts as absent and gives 5. A limit that [parseInt] cannot
    read, or that reads 0, leaves nothing to compare, so the company
    prompt answers that no companies were found even when the category has
    some. A negative limit drops that many candidates from the end of the
    ranking. *)
Theorem comparison_limit_edge_cases
    (Date_parse : string -> option Z) (JSON_stringify : Json -> string)
    (w : World.t) (tr : Trace)
    (companies : list Company.t) (events : list Event.t) :
  let ranked := Array_sort by_engagement_desc companies in
  topCompanies companies EmptyString = firstn 5 ranked
  /\ (forall s,
        s <> EmptyString ->
        parseInt10 s = None \/ parseInt10 s = Some 0 ->
        topCompanies companies s = []
        /\ topEvents Date_parse events s = []
        /\ forall category,
             category <> EmptyString ->
             fst (compare_companies JSON_stringify (Some category) (Some s)
                    w tr)
             = Normal (no_companies_message category))
  /\ (forall s k,
        s <> EmptyString ->
        parseInt10 s = Some (- Z.of_nat (S k)) ->
        topCompanies companies s
        = firstn (List.length companies - S k) ranked).
Proof.
  intros ranked. split; [apply (slice0_count ranked 5)|]. split.
  - intros s Hs Hp.
    assert (Hnum : forall A (xs : list A), slice0 xs (numLimit s) = []).
    { intros A xs. unfold numLimit. destruct s; [congruence|].
      simpl truthy_string. cbv iota.
      destruct Hp as [-> | ->]; unfold slice0; simpl;
        now rewrite ?Z.min_l by lia. }
    split; [apply Hnum|]. split; [apply Hnum|].
    intros category Hc. unfold compare_companies, bind.
    destruct category as [|c cs]; [congruence|].
    cbn [truthy_opt truthy_string negb show_opt limit_or_default].
    pose proof (getCompaniesByCategory_run (String c cs) w tr) as Hrun.
    cbv zeta in Hrun. rewrite Hrun.
    destruct (settle _) as [data|e]; unfold topCompanies;
      now rewrite Hnum.
  - intros s k Hs Hp. unfold topCompanies, numLimit. fold ranked.
    destruct s; [congruence|]. simpl truthy_string. cbv iota.
    rewrite Hp. unfold slice0.
    replace (- Z.of_nat (S k) <? 0) with true
      by (symmetry; apply Z.ltb_lt; lia).
    assert (Hlen : List.length ranked = List.length companies)
      by apply Permutation_length, Array_sort_perm.
    rewrite Hlen. f_equal. lia.
Qed.

(** X25. The location tool names the place in its summary sentence from
    what it was given: the country alone when no city is given, and
    otherwise the city, a comma and the country, where a country that was
    not given reads as the word undefined. The rows are the events of the
    answer, cut by the limit. *)
Theorem get_events_by_location_sentence
    (JSON_stringify : Json -> string) (w : World.t) (tr : Trace)
    (country city : option string) (limit : option Z)
    (status : Z) (statusText : string) (events : list Event.t) :
  200 <= status <= 299 ->
  World.eventsApi w tr
    (events_url (Some (EventParams.mk None None None country city None)))
  = ok_response status statusText (EventsArray events) ->
  let answer place :=
    Normal
      (mkTool
         (data_block JSON_stringify "EVENTS"
            (map event_summary (take_limit limit events))
            ["Found "; Z_toString (len (take_limit limit events));
             " events in "; place; "."]%string)
         false) in
  let result :=
    fst (get_events_by_location JSON_stringify country city limit w tr) in
  (forall k, country = Some k -> k <> EmptyString ->
     city = None \/ city = Some EmptyString ->
     result = answer k)
  /\ (forall c k, city = Some c -> c <> EmptyString -> country = Some k ->
      result = answer (c ++ ", " ++ k)%string)
  /\ (forall c, city = Some c -> c <> EmptyString -> country = None ->
      result = answer (c ++ ", undefined")%string).
Proof.
  intros Hst Hw answer result. subst answer result. cbv beta.
  pose proof (getEventsByLocation_run country city w tr) as Hrun.
  cbv zeta in Hrun. rewrite Hw, (settle_ok _ _ _ Hst) in Hrun.
  unfold get_events_by_location, tryCatch, bind.
  split; [|split].
  - intros k -> Hk Hcity. destruct k as [|a k]; [congruence|].
    destruct Hcity as [-> | ->]; simpl; rewrite Hrun; reflexivity.
  - intros c k -> Hc ->. destruct c as [|a c]; [congruence|].
    destruct k; simpl; rewrite Hrun; reflexivity.
  - intros c -> Hc ->. destruct c as [|a c]; [congruence|].
    simpl. rewrite Hrun. reflexivity.
Qed.

(** ** The HTTP front *)

Section HttpFrontProperties.
Variable JSON_stringify_compact : Json -> string.
Variable JSON_parse : string -> option Json.
Variable isInitializeRequest : Json -> bool.
Variable transports : string -> option TransportKind.

Let handle := handle_http JSON_stringify_compact JSON_parse
                isInitializeRequest transports.

Lemma handle_http_mcp req :
  (forall sid p, handle req = HandleWith sid p ->
     handle_mcp JSON_stringify_compact JSON_parse isInitializeRequest
       transports req = HandleWith sid p
     /\ HttpRequest.pathname req = Some "/mcp"%string
     /\ HttpRequest.method req <> "OPTIONS"%string)
  /\ (forall p, handle req = ConnectAndHandle p ->
        handle_mcp JSON_stringify_compact JSON_parse isInitializeRequest
          transports req = ConnectAndHandle p
        /\ HttpRequest.pathname req = Some "/mcp"%string
        /\ HttpRequest.method req <> "OPTIONS"%string).
Proof.
  unfold handle, handle_http, json_reply.
  destruct (String.eqb_spec (HttpRequest.method req) "OPTIONS") as [E|E];
    [split; intros; discriminate|].
  destruct (HttpRequest.pathname req) as [path|];
    [|split; intros; discriminate].
  destruct (String.eqb path "/health"); [split; intros; discriminate|].
  destruct (String.eqb_spec path "/mcp") as [->|P];
    [|split; intros; discriminate].
  split; intros; auto.
Qed.

Ltac no_session H :=
  repeat match type of H with
         | context [if ?b then _ else _] => destruct b
         end;
  discriminate H.

(** X26. The listener opens a session only for a request that carries no
    session id, is a POST to [/mcp], and whose body parses to a truthy
    value that the library recognises as an initialize request. It hands a
    request to an existing session only on [/mcp], for a session id that
    the registry maps to a streamable transport, and without a body unless
    the request is a POST. A request that names a session the registry
    does not know is never given a session: it is answered with 400, or
    with 500 when its body does not parse. *)
Theorem http_sessions_guarded (req : HttpRequest.t) :
  (forall p,
     handle req = ConnectAndHandle p ->
     HttpRequest.method req = "POST"%string
     /\ HttpRequest.pathname req = Some "/mcp"%string
     /\ (HttpRequest.sessionId req = None
         \/ HttpRequest.sessionId req = Some EmptyString)
     /\ exists j,
          p = Some j /\ JSON_parse (HttpRequest.body req) = Some j
          /\ truthy_json j = true /\ isInitializeRequest j = true)
  /\ (forall sid p,
        handle req = HandleWith sid p ->
        HttpRequest.pathname req = Some "/mcp"%string
        /\ HttpRequest.sessionId req = Some sid
        /\ sid <> EmptyString
        /\ transports sid = Some StreamableHTTP
        /\ (HttpRequest.method req <> "POST"%string -> p = None))
  /\ (forall sid,
        HttpRequest.sessionId req = Some sid ->
        sid <> EmptyString ->
        transports sid = None ->
        HttpRequest.method req <> "OPTIONS"%string ->
        HttpRequest.pathname req = Some "/mcp"%string ->
        exists status text,
          handle req = Reply status (Some "application/json"%string) text
          /\ (status = 400 \/ status = 500)).
Proof.
  destruct (handle_http_mcp req) as [Hh Hc].
  split; [|split].
  - intros p H. destruct (Hc p H) as (Hm & Hpath & _). clear Hh Hc H.
    unfold handle_mcp, json_reply in Hm.
    destruct (String.eqb_spec (HttpRequest.method req) "POST") as [E|E].
    + destruct (truthy_string (HttpRequest.body req)) eqn:Hb.
      * destruct (JSON_parse (HttpRequest.body req)) as [j|] eqn:Hj;
          [|discriminate]. simpl in Hm.
        destruct (HttpRequest.sessionId req) as [[|c sid]|] eqn:Hs;
          simpl in Hm.
        -- destruct (truthy_json j) eqn:Tj; [|discriminate].
           destruct (isInitializeRequest j) eqn:Ij; [|discriminate].
           injection Hm as <-. repeat split; auto. exists j. auto.
        -- destruct (transports (String c sid)) as [[|]|]; discriminate.
        -- destruct (truthy_json j) eqn:Tj; [|discriminate].
           destruct (isInitializeRequest j) eqn:Ij; [|discriminate].
           injection Hm as <-. repeat split; auto. exists j. auto.
      * simpl in Hm.
        destruct (HttpRequest.sessionId req) as [[|c sid]|]; simpl in Hm;
          try discriminate.
        destruct (transports (String c sid)) as [[|]|]; discriminate.
    + simpl in Hm.
      destruct (HttpRequest.sessionId req) as [[|c sid]|]; simpl in Hm;
        try discriminate.
      destruct (transports (String c sid)) as [[|]|]; discriminate.
  - intros sid p H. destruct (Hh sid p H) as (Hm & Hpath & _).
    clear Hh Hc H. unfold handle_mcp, json_reply in Hm.
    set (body := if String.eqb (HttpRequest.method req) "POST"
                 then HttpRequest.body req else EmptyString) in Hm.
    assert (Hnp : HttpRequest.method req <> "POST"%string ->
                  body = EmptyString).
    { intros Hne. unfold body.
      now destruct (String.eqb_spec (HttpRequest.method req) "POST"). }
    destruct (truthy_string body) eqn:Hb;
      [destruct (JSON_parse body) as [j|]; [|discriminate]|];
      simpl in Hm;
      (destruct (HttpRequest.sessionId req) as [[|c s]|]; simpl in Hm;
       [ no_session Hm
       | destruct (transports (String c s)) as [[|]|] eqn:Ht;
         [ | discriminate | no_session Hm ]
       | no_session Hm ]);
      injection Hm as <- <-; repeat split; auto; try discriminate;
      intros Hne; rewrite (Hnp Hne) in Hb; discriminate.
  - intros sid Hs Hne Ht Hm Hpath. clear Hh Hc.
    unfold handle, handle_http.
    destruct (String.eqb_spec (HttpRequest.method req) "OPTIONS");
      [congruence|].
    rewrite Hpath. cbn [String.eqb Ascii.eqb Bool.eqb].
    change (String.eqb "/mcp" "/health") with false.
    change (String.eqb "/mcp" "/mcp") with true. cbv iota.
    unfold handle_mcp, json_reply. rewrite Hs.
    destruct sid as [|c s]; [congruence|].
    cbn [truthy_string truthy_opt negb andb]. rewrite Ht.
    destruct (truthy_string _);
      [destruct (JSON_parse _)|]; simpl; eauto.
Qed.

(** X27. Before anything else the listener answers a preflight: any
    OPTIONS request gets 200 with an empty body, whatever its path. Of the
    other requests, one to [/health] gets the health document, one to a
    path other than [/health] and [/mcp] gets 404, and a POST to [/mcp]
    whose body is not JSON gets 500 with the internal-error document,
    whatever session it names. *)
Theorem http_front_routes (req : HttpRequest.t) :
  (HttpRequest.method req = "OPTIONS"%string ->
   handle req = Reply 200 None EmptyString)
  /\ (HttpRequest.method req <> "OPTIONS"%string ->
      HttpRequest.pathname req = Some "/health"%string ->
      handle req
      = Reply 200 (Some "application/json"%string)
          (JSON_stringify_compact health_doc))
  /\ (HttpRequest.method req <> "OPTIONS"%string ->
      HttpRequest.pathname req <> Some "/health"%string ->
      HttpRequest.pathname req <> Some "/mcp"%string ->
      exists text, handle req = Reply 404 (Some "text/plain"%string) text)
  /\ (HttpRequest.method req = "POST"%string ->
      HttpRequest.pathname req = Some "/mcp"%string ->
      HttpRequest.body req <> EmptyString ->
      JSON_parse (HttpRequest.body req) = None ->
      handle req
      = Reply 500 (Some "application/json"%string)
          (JSON_stringify_compact
             (jsonrpc_error (-32603) "Internal server error"))).
Proof.
  unfold handle, handle_http, json_reply.
  split; [|split; [|split]].
  - intros ->. reflexivity.
  - intros Hm ->.
    destruct (String.eqb_spec (HttpRequest.method req) "OPTIONS");
      [congruence | reflexivity].
  - intros Hm Hh Hp.
    destruct (String.eqb_spec (HttpRequest.method req) "OPTIONS");
      [congruence|].
    destruct (HttpRequest.pathname req) as [path|]; [|eauto].
    destruct (String.eqb_spec path "/health"); [congruence|].
    destruct (String.eqb_spec path "/mcp"); [congruence | eauto].
  - intros Hm Hp Hb Hj. rewrite Hm, Hp.
    change (String.eqb "POST" "OPTIONS") with false.
    change (String.eqb "/mcp" "/health") with false.
    change (String.eqb "/mcp" "/mcp") with true. cbv iota.
    unfold handle_mcp, json_reply. rewrite Hm.
    change (String.eqb "POST" "POST") with true. cbv iota.
    destruct (HttpRequest.body req); [congruence|].
    cbn [truthy_string]. now rewrite Hj.
Qed.

End HttpFrontProperties.

(** * The rest of the server on the fixtures *)

Lemma getEventById_first_exact_witness :
  200 <= 200 <= 299
  /\ World.eventsApi world_listed [] (events_url None)
     = ok_response 200 "OK"
         (EventsArray [conference; meetup; summit; undated])
  /\ (exists e, In e [conference; meetup; summit; undated]
                /\ Event._id e = "evt-2"%string)
  /\ fst (getEventById "evt-2" world_listed []) = Normal (Some meetup)
  /\ failed (World.eventsApi world_failing [] (events_url None))
  /\ fst (getEventById "evt-2" world_failing []) = Normal None.
Proof.
  assert (Hst : 200 <= 200 <= 299) by lia.
  assert (Hw : World.eventsApi world_listed [] (events_url None)
               = ok_response 200 "OK"
                   (EventsArray [conference; meetup; summit; undated]))
    by reflexivity.
  assert (Hex : exists e, In e [conference; meetup; summit; undated]
                          /\ Event._id e = "evt-2"%string)
    by (exists meetup; simpl; auto).
  assert (Hf : failed (World.eventsApi world_failing [] (events_url None))).
  { right. eexists. split; [reflexivity|]. now left. }
  pose proof (getEventById_first_exact world_listed [] "evt-2") as H.
  cbv zeta in H. destruct H as (_ & _ & _ & H).
  destruct (H 200 "OK"%string _ Hst Hw) as (Hfirst & Hsome & _).
  destruct (Hsome Hex) as [e He].
  destruct (Hfirst e He) as (before & after & _ & Hid & _).
  pose proof (getEventById_first_exact world_failing [] "evt-2") as H'.
  cbv zeta in H'. destruct H' as (_ & _ & Hfail & _).
  split; [exact Hst|]. split; [exact Hw|]. split; [exact Hex|].
  split; [reflexivity|]. split; [exact Hf | exact (Hfail Hf)].
Defined.

Lemma event_listings_best_effort_witness :
  failed (World.eventsApi world_unreachable []
            (events_url
               (Some (EventParams.mk None (Some "Meetup"%string) None None
                                     None None))))
  /\ fst (getEventsByCategory "Meetup" world_unreachable []) = Normal []
  /\ failed (World.eventsApi world_unreachable [] (events_url None))
  /\ fst (getUpcomingEvents sample_Date_parse world_unreachable [])
     = Normal []
  /\ 200 <= 200 <= 299
  /\ fst (getEventsByLocation (Some "France"%string) None world_listed [])
     = Normal [conference; meetup; summit; undated].
Proof.
  assert (Hf : forall u, failed (World.eventsApi world_unreachable [] u)).
  { intros u. left. eexists. reflexivity. }
  assert (Hst : 200 <= 200 <= 299) by lia.
  pose proof (event_listings_best_effort sample_Date_parse world_unreachable
                []) as H.
  cbv zeta in H. destruct H as (Hcat & _ & Hup).
  destruct (Hcat "Meetup"%string) as (_ & _ & Hcat' & _).
  destruct Hup as (_ & _ & Hup').
  pose proof (event_listings_best_effort sample_Date_parse world_listed [])
    as H.
  cbv zeta in H. destruct H as (_ & Hloc & _).
  destruct (Hloc (Some "France"%string) None) as (_ & _ & _ & Hloc').
  split; [apply Hf|]. split; [exact (Hcat' (Hf _))|].
  split; [apply Hf|]. split; [exact (Hup' (Hf _))|].
  split; [exact Hst|].
  exact (Hloc' 200 "OK"%string _ Hst eq_refl).
Defined.

Lemma search_companies_outcomes_witness :
  World.directoryApi world_failing []
    (companies_url
       (Some (CompanyParams.mk None None (Some "acme"%string) None)))
  = internal_server_error
  /\ fst (search_companies sample_stringify (Some "acme"%string) None None
            None world_failing [])
     = Normal
         (mkTool
            "Error searching companies: Error: HTTP 500: Internal Server Error"
            true)
  /\ 200 <= 200 <= 299
  /\ fst (search_companies sample_stringify (Some "acme"%string) None None
            None world_non_conforming [])
     = Normal
         (mkTool
            "Failed to search companies: API returned unsuccessful response"
            true).
Proof.
  assert (Hst : 200 <= 200 <= 299) by lia.
  pose proof (search_companies_outcomes sample_stringify world_failing []
                (Some "acme"%string) None None None) as H.
  cbv zeta in H. destruct H as (_ & _ & _ & Hstatus & _).
  pose proof (search_companies_outcomes sample_stringify
                world_non_conforming [] (Some "acme"%string) None None None)
    as H.
  cbv zeta in H. destruct H as (_ & _ & _ & _ & Hunsuccessful & _).
  split; [reflexivity|].
  split; [exact (Hstatus _ eq_refl eq_refl)|].
  split; [exact Hst|].
  exact (Hunsuccessful 200 "OK"%string [acme] Hst eq_refl).
Defined.

Lemma search_events_outcomes_witness :
  200 <= 200 <= 299
  /\ World.eventsApi world_listed []
       (events_url
          (Some (EventParams.mk None None None None None (Some true))))
     = ok_response 200 "OK"
         (EventsArray [conference; meetup; summit; undated])
  /\ snd (search_events sample_Date_parse sample_stringify None None None
            None None (Some true) world_listed [])
     = [URL.mk eventsUrl [("upcoming", "true")]%string]
  /\ exists shown,
       fst (search_events sample_Date_parse sample_stringify None None None
              None None (Some true) world_listed [])
       = Normal
           (mkTool
              (data_block sample_stringify "EVENTS"
                 (map event_search_row shown)
                 ["Found "; Z_toString (len shown);
                  " events matching your search criteria."]%string)
              false)
       /\ subseq shown [conference; meetup; summit; undated]
       /\ In meetup shown /\ ~ In conference shown /\ ~ In undated shown.
Proof.
  assert (Hst : 200 <= 200 <= 299) by lia.
  pose proof (search_events_outcomes sample_Date_parse sample_stringify
                world_listed [] None None None None None (Some true)) as H.
  cbv zeta in H. destruct H as (Htr & _ & _ & _ & _ & Hlist).
  destruct (Hlist 200 "OK"%string [conference; meetup; summit; undated]
              Hst eq_refl) as (Hup & _).
  destruct (Hup eq_refl) as (shown & Hrun & Hsub & Hmem).
  split; [exact Hst|]. split; [reflexivity|]. split; [exact Htr|].
  exists shown. split; [exact Hrun|]. split; [exact Hsub|].
  split; [|split].
  - apply Hmem. split; [simpl; auto|]. exists 1500.
    split; [reflexivity | simpl; lia].
  - intros Hin. apply Hmem in Hin. destruct Hin as (_ & t & Ht & Hlt).
    vm_compute in Ht. injection Ht as <-. simpl in Hlt. lia.
  - intros Hin. apply Hmem in Hin. destruct Hin as (_ & t & Ht & _).
    vm_compute in Ht. discriminate.
Defined.

Lemma get_team_members_outcomes_witness :
  fst (getCompanyBySlug "staffed" world_staffed []) = Normal (Some staffed)
  /\ Company.teamMembers staffed <> []
  /\ fst (get_team_members sample_stringify "staffed" world_staffed [])
     = Normal
         (mkTool
            (tpl ["TEAM_DATA_START"; nl;
                  sample_stringify (team_info staffed); nl;
                  "TEAM_DATA_END"; nl; nl; "Found "; "2";
                  " team members for "; "Staffed"; "."]%string)
            false)
  /\ fst (getCompanyBySlug "acme" world_staffed []) = Normal (Some acme)
  /\ fst (get_team_members sample_stringify "acme" world_staffed [])
     = Normal (mkTool "No team members found for acme" false).
Proof.
  assert (H1 : fst (getCompanyBySlug "staffed" world_staffed [])
               = Normal (Some staffed)) by reflexivity.
  assert (H2 : Company.teamMembers staffed <> []) by discriminate.
  assert (H3 : fst (getCompanyBySlug "acme" world_staffed [])
               = Normal (Some acme)) by reflexivity.
  pose proof (get_team_members_outcomes sample_stringify world_staffed []
                "staffed") as H.
  cbv zeta in H. destruct H as (_ & _ & _ & Hfound).
  destruct (Hfound staffed H1) as (_ & Hteam).
  pose proof (get_team_members_outcomes sample_stringify world_staffed []
                "acme") as H.
  cbv zeta in H. destruct H as (_ & _ & _ & Hfound').
  destruct (Hfound' acme H3) as (Hnone & _).
  split; [exact H1|]. split; [exact H2|]. split; [exact (Hteam H2)|].
  split; [exact H3 | exact (Hnone eq_refl)].
Defined.

Lemma company_details_team_on_request_witness :
  "stats"%string <> "team_members"%string
  /\ Json_get "stats" (company_details staffed true)
     = Json_get "stats" (company_details staffed false)
  /\ Json_get "team_members" (company_details staffed false) = None
  /\ fst (getCompanyBySlug "staffed" world_staffed []) = Normal (Some staffed)
  /\ fst (get_company_details sample_stringify "staffed" None world_staffed
            [])
     = Normal
         (mkTool (sample_stringify (company_details staffed false)) false).
Proof.
  assert (Hkey : "stats"%string <> "team_members"%string) by discriminate.
  assert (Hfound : fst (getCompanyBySlug "staffed" world_staffed [])
                   = Normal (Some staffed)) by reflexivity.
  destruct (company_details_team_on_request sample_stringify world_staffed
              []) as (Hteam & Hother & Htool).
  split; [exact Hkey|]. split; [exact (Hother staffed _ Hkey)|].
  split; [exact (Hteam staffed false)|]. split; [exact Hfound|].
  exact (Htool "staffed"%string None staffed Hfound).
Defined.

Lemma get_company_details_first_hit_witness :
  200 <= 200 <= 299
  /\ World.directoryApi world_listed [] (search_url "zeta")
     = ok_response 200 "OK" (ApiResponse.mk true (acme :: [beta; gamma]))
  /\ (forall c, In c (acme :: [beta; gamma]) ->
                Company.slug c <> "zeta"%string)
  /\ fst (get_company_details sample_stringify "zeta" None world_listed [])
     = Normal (mkTool (sample_stringify (company_details acme false)) false).
Proof.
  assert (Hst : 200 <= 200 <= 299) by lia.
  assert (Hw : World.directoryApi world_listed [] (search_url "zeta")
               = ok_response 200 "OK"
                   (ApiResponse.mk true (acme :: [beta; gamma])))
    by reflexivity.
  assert (Hno : forall c, In c (acme :: [beta; gamma]) ->
                          Company.slug c <> "zeta"%string).
  { intros c [<-|[<-|[<-|[]]]]; discriminate. }
  split; [exact Hst|]. split; [exact Hw|]. split; [exact Hno|].
  exact (get_company_details_first_hit sample_stringify world_listed []
           "zeta" None 200 "OK" acme [beta; gamma] Hst Hw Hno).
Defined.

Lemma take_limit_prefix_witness :
  -1 < 0 /\ 0 < 2
  /\ take_limit (Some (-1)) [acme; beta; gamma] = [acme; beta]
  /\ take_limit (Some 2) [acme; beta; gamma] = [acme; beta].
Proof.
  assert (Hneg : -1 < 0) by lia. assert (Hpos : 0 < 2) by lia.
  destruct (take_limit_prefix (Some (-1)) [acme; beta; gamma])
    as (_ & _ & _ & Hn).
  destruct (Hn (-1) eq_refl Hneg) as (Hdrop & _).
  destruct (take_limit_prefix (Some 2) [acme; beta; gamma])
    as (_ & _ & Hp & _).
  destruct (Hp 2 eq_refl Hpos) as (Hkeep & _).
  split; [exact Hneg|]. split; [exact Hpos|].
  split; [exact Hdrop | exact Hkeep].
Defined.

Lemma listing_tools_degrade_to_empty_witness :
  failed (World.directoryApi world_failing [] (category_url "AI"))
  /\ fst (get_companies_by_category sample_stringify "AI" None world_failing
            [])
     = Normal
         (mkTool
            (data_block sample_stringify "COMPANIES" []
               ["Found "; "0"; " companies in category "; dquote; "AI";
                dquote; "."]%string)
            false)
  /\ failed (World.eventsApi world_failing [] (events_url None))
  /\ fst (get_upcoming_events sample_Date_parse sample_stringify None
            world_failing [])
     = Normal
         (mkTool
            (data_block sample_stringify "EVENTS" []
               ["Found "; "0"; " upcoming events."]%string)
            false)
  /\ 200 <= 200 <= 299
  /\ World.directoryApi world_non_conforming [] (category_url "AI")
     = ok_response 200 "OK" (ApiResponse.mk false [acme])
  /\ fst (get_companies_by_category sample_stringify "AI" None
            world_non_conforming [])
     = Normal
         (mkTool
            (data_block sample_stringify "COMPANIES" []
               ["Found "; "0"; " companies in category "; dquote; "AI";
                dquote; "."]%string)
            false)
  /\ World.eventsApi world_listed []
       (events_url
          (Some (EventParams.mk None (Some "Meetup"%string) None None None
                                None)))
     = ok_response 200 "OK" (EventsArray [conference; meetup; summit; undated])
  /\ fst (get_events_by_category sample_stringify "Meetup" (Some 2)
            world_listed [])
     = Normal
         (mkTool
            (data_block sample_stringify "EVENTS"
               (map event_summary_plain [conference; meetup])
               ["Found "; "2"; " events in category "; dquote; "Meetup";
                dquote; "."]%string)
            false)
  /\ truthy_opt truthy_string None
     || truthy_opt truthy_string (Some "Paris"%string) = true
  /\ failed
       (World.eventsApi world_unreachable []
          (events_url
             (Some (EventParams.mk None None None None (Some "Paris"%string)
                                   None))))
  /\ fst (get_events_by_location sample_stringify None (Some "Paris"%string)
            None world_unreachable [])
     = Normal
         (mkTool
            (data_block sample_stringify "EVENTS" []
               ["Found "; "0"; " events in "; "Paris, undefined";
                "."]%string)
            false).
Proof.
  assert (Hd : failed (World.directoryApi world_failing []
                         (category_url "AI"))).
  { right. eexists. split; [reflexivity|]. now left. }
  assert (He : failed (World.eventsApi world_failing [] (events_url None))).
  { right. eexists. split; [reflexivity|]. now left. }
  assert (Hst : 200 <= 200 <= 299) by lia.
  assert (Hn : World.directoryApi world_non_conforming [] (category_url "AI")
               = ok_response 200 "OK" (ApiResponse.mk false [acme]))
    by reflexivity.
  assert (Hm : World.eventsApi world_listed []
                 (events_url
                    (Some (EventParams.mk None (Some "Meetup"%string) None
                                          None None None)))
               = ok_response 200 "OK"
                   (EventsArray [conference; meetup; summit; undated]))
    by reflexivity.
  assert (Hc : truthy_opt truthy_string None
               || truthy_opt truthy_string (Some "Paris"%string) = true)
    by reflexivity.
  assert (Hu : failed
                 (World.eventsApi world_unreachable []
                    (events_url
                       (Some (EventParams.mk None None None None
                                             (Some "Paris"%string) None))))).
  { left. eexists. reflexivity. }
  destruct (listing_tools_degrade_to_empty sample_Date_parse sample_stringify
              world_failing [] None) as (Hcompanies & _ & Hupcoming & _).
  pose proof (Hcompanies "AI"%string) as H1. cbv zeta in H1.
  destruct H1 as (Hzero & _).
  cbv zeta in Hupcoming. destruct Hupcoming as (Hzero' & _).
  destruct (listing_tools_degrade_to_empty sample_Date_parse sample_stringify
              world_non_conforming [] None) as (Henvelope & _).
  pose proof (Henvelope "AI"%string) as H2. cbv zeta in H2.
  destruct H2 as (_ & Hunsuccessful & _).
  destruct (listing_tools_degrade_to_empty sample_Date_parse sample_stringify
              world_listed [] (Some 2)) as (_ & Hcategory & _).
  pose proof (Hcategory "Meetup"%string) as H3. cbv zeta in H3.
  destruct H3 as (_ & _ & Hlisting).
  destruct (listing_tools_degrade_to_empty sample_Date_parse sample_stringify
              world_unreachable [] None) as (_ & _ & _ & Hlocation).
  pose proof (Hlocation None (Some "Paris"%string) Hc) as H4.
  cbv zeta in H4. destruct H4 as (Hnowhere & _).
  split; [exact Hd|]. split; [exact (Hzero Hd)|].
  split; [exact He|]. split; [exact (Hzero' He)|].
  split; [exact Hst|]. split; [exact Hn|].
  split; [exact (Hunsuccessful 200 "OK"%string [acme] Hst Hn)|].
  split; [exact Hm|].
  split; [exact (Hlisting 200 "OK"%string _ Hst Hm)|].
  split; [exact Hc|]. split; [exact Hu|].
  exact (Hnowhere Hu).
Defined.

Lemma directory_stats_consistent_witness :
  (forall c, In c [acme; beta; gamma] ->
             0 <= Company.likes c /\ 0 <= Company.views c)
  /\ total Company.likes [acme; beta; gamma] <= MAX_SAFE_INTEGER
  /\ total Company.views [acme; beta; gamma] <= MAX_SAFE_INTEGER
  /\ Json_get "total_likes" (directory_stats sample_toFixed2 [acme; beta; gamma])
     = Some (JNum 16)
  /\ Json_get "total_views" (directory_stats sample_toFixed2 [acme; beta; gamma])
     = Some (JNum 602).
Proof.
  assert (Hpos : forall c, In c [acme; beta; gamma] ->
                           0 <= Company.likes c /\ 0 <= Company.views c).
  { intros c [<-|[<-|[<-|[]]]]; simpl; lia. }
  assert (Hlikes : total Company.likes [acme; beta; gamma]
                   <= MAX_SAFE_INTEGER) by (vm_compute; discriminate).
  assert (Hviews : total Company.views [acme; beta; gamma]
                   <= MAX_SAFE_INTEGER) by (vm_compute; discriminate).
  pose proof (directory_stats_consistent sample_toFixed2 [acme; beta; gamma])
    as H.
  cbv zeta in H. destruct H as (_ & Htotals).
  destruct (Htotals Hpos Hlikes Hviews) as (Hl & Hv).
  split; [exact Hpos|]. split; [exact Hlikes|]. split; [exact Hviews|].
  split; [exact Hl | exact Hv].
Defined.

Lemma get_events_stats_counts_witness :
  200 <= 200 <= 299
  /\ World.eventsApi world_flaky [] (events_url None)
     = ok_response 200 "OK"
         (EventsArray [conference; meetup; summit; undated])
  /\ failed (World.eventsApi world_flaky ([] ++ [events_url None])
               (events_url None))
  /\ fst (get_events_stats sample_Date_parse sample_stringify world_flaky [])
     = Normal
         (mkTool
            (sample_stringify
               (events_stats [conference; meetup; summit; undated] []))
            false)
  /\ Json_get "past_events"
       (events_stats [conference; meetup; summit; undated] [])
     = Some (JNum 4).
Proof.
  assert (Hst : 200 <= 200 <= 299) by lia.
  assert (Hw : World.eventsApi world_flaky [] (events_url None)
               = ok_response 200 "OK"
                   (EventsArray [conference; meetup; summit; undated]))
    by reflexivity.
  assert (Hf : failed (World.eventsApi world_flaky ([] ++ [events_url None])
                         (events_url None))).
  { left. eexists. reflexivity. }
  pose proof (get_events_stats_counts sample_Date_parse sample_stringify
                world_flaky []) as H.
  cbv zeta in H. destruct H as (_ & _ & H).
  destruct (H 200 "OK"%string _ Hst Hw)
    as (upcoming & Hrun & _ & _ & Hpast & Hfail & _).
  rewrite (Hfail Hf) in Hrun, Hpast.
  split; [exact Hst|]. split; [exact Hw|]. split; [exact Hf|].
  split; [now rewrite Hrun | exact Hpast].
Defined.

Lemma profile_resources_outcomes_witness :
  fst (getCompanyBySlug "beta" world_listed []) = Normal (Some beta)
  /\ fst (company_profile_resource sample_stringify "blockza://company/beta"
            (VarString "beta") world_listed [])
     = Normal
         (mkResource "blockza://company/beta"
            (sample_stringify (company_json beta)) json_mime)
  /\ failed (World.eventsApi world_unreachable [] (events_url None))
  /\ fst (event_details_resource sample_stringify "blockza://event/evt-1"
            (VarString "evt-1") world_unreachable [])
     = Normal
         (mkResource "blockza://event/evt-1"
            (sample_stringify (error_doc "Event not found: evt-1"))
            json_mime).
Proof.
  assert (Hfound : fst (getCompanyBySlug "beta" world_listed [])
                   = Normal (Some beta)) by reflexivity.
  assert (Hf : failed (World.eventsApi world_unreachable []
                         (events_url None))).
  { left. eexists. reflexivity. }
  pose proof (profile_resources_outcomes sample_stringify world_listed []
                "blockza://company/beta") as H.
  cbv zeta in H. destruct H as (_ & Hc & _).
  destruct (Hc "beta"%string) as (_ & Hsome & _).
  pose proof (profile_resources_outcomes sample_stringify world_unreachable
                [] "blockza://event/evt-1") as H.
  cbv zeta in H. destruct H as (_ & _ & He).
  destruct (He "evt-1"%string) as (_ & _ & _ & Hfail).
  split; [exact Hfound|]. split; [exact (Hsome beta Hfound)|].
  split; [exact Hf | exact (Hfail Hf)].
Defined.

Lemma listing_resources_outcomes_witness :
  200 <= 200 <= 299
  /\ World.directoryApi world_non_conforming [] (companies_url None)
     = ok_response 200 "OK" (ApiResponse.mk false [acme])
  /\ fst (companies_resource sample_stringify "blockza://companies"
            world_non_conforming [])
     = Normal
         (mkResource "blockza://companies"
            (sample_stringify (apiResponse_json (ApiResponse.mk false [acme])))
            json_mime)
  /\ fst (events_resource sample_stringify "blockza://events"
            world_non_conforming [])
     = Normal
         (mkResource "blockza://events" (sample_stringify (JArr []))
            json_mime).
Proof.
  assert (Hst : 200 <= 200 <= 299) by lia.
  assert (Hw : World.directoryApi world_non_conforming [] (companies_url None)
               = ok_response 200 "OK" (ApiResponse.mk false [acme]))
    by reflexivity.
  pose proof (listing_resources_outcomes sample_stringify
                world_non_conforming [] "blockza://companies") as H.
  cbv zeta in H. destruct H as ((Henv & _) & _).
  pose proof (listing_resources_outcomes sample_stringify
                world_non_conforming [] "blockza://events") as H.
  cbv zeta in H. destruct H as (_ & (_ & Hnot & _)).
  split; [exact Hst|]. split; [exact Hw|].
  split; [exact (Henv 200 "OK"%string _ Hst Hw)|].
  exact (Hnot 200 "OK"%string _ Hst eq_refl).
Defined.

Lemma analyze_company_outcomes_witness :
  "beta"%string <> EmptyString
  /\ fst (getCompanyBySlug "beta" world_listed []) = Normal (Some beta)
  /\ safe_integer (Company.likes beta)
  /\ safe_integer (Company.views beta)
  /\ safe_integer (Company.founderFollowers beta)
  /\ fst (analyze_company (Some "beta"%string) world_listed [])
     = Normal (company_analysis beta)
  /\ failed (World.directoryApi world_unreachable [] (search_url "beta"))
  /\ fst (analyze_company (Some "beta"%string) world_unreachable [])
     = Normal (company_analysis_fallback "beta")
  /\ analyze_company (Some ""%string) world_listed []
     = (Normal company_slug_missing, []).
Proof.
  assert (Hs : "beta"%string <> EmptyString) by discriminate.
  assert (Hfound : fst (getCompanyBySlug "beta" world_listed [])
                   = Normal (Some beta)) by reflexivity.
  assert (Hlikes : safe_integer (Company.likes beta))
    by (split; vm_compute; discriminate).
  assert (Hviews : safe_integer (Company.views beta))
    by (split; vm_compute; discriminate).
  assert (Hfollowers : safe_integer (Company.founderFollowers beta))
    by (split; vm_compute; discriminate).
  assert (Hf : failed (World.directoryApi world_unreachable []
                         (search_url "beta"))).
  { left. eexists. reflexivity. }
  destruct (analyze_company_outcomes world_listed []) as (Hmissing & Hslug).
  pose proof (Hslug "beta"%string Hs) as H. cbv zeta in H.
  destruct H as (_ & Hsome & _).
  destruct (analyze_company_outcomes world_unreachable []) as (_ & Hslug').
  pose proof (Hslug' "beta"%string Hs) as H. cbv zeta in H.
  destruct H as (_ & _ & _ & Hfail).
  split; [exact Hs|]. split; [exact Hfound|].
  split; [exact Hlikes|]. split; [exact Hviews|].
  split; [exact Hfollowers|].
  split; [exact (Hsome beta Hfound Hlikes Hviews Hfollowers)|].
  split; [exact Hf|].
  split; [exact (Hfail Hf)|].
  exact (Hmissing (Some ""%string) (or_intror eq_refl)).
Defined.

Lemma event_status_classifies_witness :
  (exists s, sample_Date_parse (Event.eventStartDate meetup) = Some s
             /\ 1000 < s)
  /\ event_status sample_Date_parse 1000 meetup = "Upcoming"%string
  /\ sample_Date_parse (Event.eventStartDate undated) = None
  /\ event_status sample_Date_parse 1000 undated = "Past"%string
  /\ "evt-2"%string <> EmptyString
  /\ fst (getEventById "evt-2" world_listed []) = Normal (Some meetup)
  /\ fst (analyze_event sample_Date_parse sample_toLocaleDateString
            (Some "evt-2"%string) world_listed [])
     = Normal
         (event_analysis sample_Date_parse sample_toLocaleDateString 1000
            meetup)
  /\ 1000 = World.clock world_listed ([] ++ [events_url None])
  /\ (exists shown,
        fst (analyze_event sample_Date_parse sample_toLocaleDateString
               (Some "evt-2"%string) world_listed [])
        = Normal
            (mkPrompt "user"
               (tpl
            ["Please analyze the following event from the Blockza events directory:";
             nl; nl;
             "Event: "; "evt-2"; nl;
             "Organizer: "; "Blockza"; nl;
             "Category: "; "Meetup"; nl;
             "Status: "; shown; nl; nl;
             "Description:"; nl;
             ""; nl; nl;
             "Location: "; ""; ", "; "Tokyo"; ", "; "Japan"; nl;
             "Dates: "; "1500"; " - "; "1500"; nl; nl;
             "Links:"; nl;
             "- Website: "; ""; nl;
             "- Featured Image: "; ""; nl; nl;
             "Social Media:"; nl;
             "- Twitter: "; ""; nl;
             "- LinkedIn: "; ""; nl;
             "- Telegram: "; ""; nl;
             "- Instagram: "; ""; nl; nl;
             "Please provide a comprehensive analysis covering:"; nl;
             "1. Event overview and significance in the Web3 ecosystem"; nl;
             "2. Organizer reputation and track record"; nl;
             "3. Target audience and value proposition"; nl;
             "4. Location and timing analysis"; nl;
             "5. Social media presence and marketing strategy"; nl;
             "6. Potential impact and networking opportunities"; nl;
             "7. Recommendations for attendees or organizers"; nl;
             "8. Market positioning and competitive landscape"]%string))
        /\ shown = "Upcoming"%string).
Proof.
  assert (Hup : exists s,
             sample_Date_parse (Event.eventStartDate meetup) = Some s
             /\ 1000 < s)
    by (exists 1500; split; [reflexivity | lia]).
  assert (Hnone : sample_Date_parse (Event.eventStartDate undated) = None)
    by reflexivity.
  assert (Hid : "evt-2"%string <> EmptyString) by discriminate.
  assert (Hfound : fst (getEventById "evt-2" world_listed [])
                   = Normal (Some meetup)) by reflexivity.
  assert (Hnow : 1000 = World.clock world_listed ([] ++ [events_url None]))
    by reflexivity.
  pose proof (event_status_classifies sample_Date_parse
                sample_toLocaleDateString world_listed [] 1000 meetup) as H.
  cbv zeta in H. destruct H as (_ & Hupcoming & _ & _ & Hprompt & Hshown).
  pose proof (event_status_classifies sample_Date_parse
                sample_toLocaleDateString world_listed [] 1000 undated) as H.
  cbv zeta in H. destruct H as (_ & _ & _ & Hpast & _).
  split; [exact Hup|]. split; [exact (proj2 Hupcoming Hup)|].
  split; [exact Hnone|]. split; [exact (Hpast Hnone)|].
  split; [exact Hid|]. split; [exact Hfound|].
  split; [exact (Hprompt "evt-2"%string Hid Hfound)|].
  split; [exact Hnow|].
  destruct (Hshown "evt-2"%string Hid Hfound Hnow)
    as (shown & Htext & _ & Hiff & _).
  exists shown. split; [exact Htext | exact (proj2 Hiff Hup)].
Defined.


Lemma events_ranked_then_truncated_witness :
  (forall e, In e [summit; conference; meetup] ->
             sample_Date_parse (Event.eventStartDate e) <> None)
  /\ parseInt10 "2" = Some (Z.of_nat 2)
  /\ Array_sort (by_start_date sample_Date_parse) [summit; conference; meetup]
     = [conference; meetup; summit]
  /\ exists ranked,
       Permutation ranked [summit; conference; meetup]
       /\ StronglySorted (starts_no_later sample_Date_parse) ranked
       /\ topEvents sample_Date_parse [summit; conference; meetup] "2"
          = firstn 2 ranked
       /\ top_recommendations sample_Date_parse [summit; conference; meetup]
          = firstn 10 ranked.
Proof.
  assert (Hvalid : forall e, In e [summit; conference; meetup] ->
                     sample_Date_parse (Event.eventStartDate e) <> None).
  { intros e [<-|[<-|[<-|[]]]]; discriminate. }
  assert (Hparse : parseInt10 "2" = Some (Z.of_nat 2)) by reflexivity.
  assert (Hlimit : (Some "2"%string = None /\ 2%nat = 5%nat)
                   \/ (exists s, Some "2"%string = Some s
                                 /\ s <> EmptyString
                                 /\ parseInt10 s = Some (Z.of_nat 2))).
  { right. exists "2"%string.
    split; [reflexivity|]. split; [discriminate | exact Hparse]. }
  split; [exact Hvalid|]. split; [exact Hparse|].
  split; [vm_compute; reflexivity|].
  exact (events_ranked_then_truncated sample_Date_parse
           [summit; conference; meetup] (Some "2"%string) 2 Hvalid Hlimit).
Defined.

Lemma event_recommendations_outcomes_witness :
  200 <= 200 <= 299
  /\ World.eventsApi world_listed [] (events_url None)
     = ok_response 200 "OK"
         (EventsArray [conference; meetup; summit; undated])
  /\ fst (event_recommendations sample_Date_parse sample_stringify
            (Some "conference"%string) (Some "paris"%string) None None
            world_listed [])
     = Normal
         (recommendations_message sample_stringify
            ["Interests: conference"; "Location: paris"]%string
            [conference])
  /\ fst (event_recommendations sample_Date_parse sample_stringify None None
            None None world_unreachable [])
     = Normal
         (recommendations_failed (JsError.mk "TypeError" "fetch failed")).
Proof.
  assert (Hst : 200 <= 200 <= 299) by lia.
  assert (Hw : World.eventsApi world_listed [] (events_url None)
               = ok_response 200 "OK"
                   (EventsArray [conference; meetup; summit; undated]))
    by reflexivity.
  pose proof (event_recommendations_outcomes sample_Date_parse
                sample_stringify world_listed []
                (Some "conference"%string) (Some "paris"%string) None None)
    as H.
  cbv zeta in H. destruct H as (_ & _ & _ & _ & Hlist).
  pose proof (event_recommendations_outcomes sample_Date_parse
                sample_stringify world_unreachable [] None None None None)
    as H.
  cbv zeta in H. destruct H as (_ & _ & Hrejected & _).
  split; [exact Hst|]. split; [exact Hw|].
  split; [|exact (Hrejected _ eq_refl)].
  destruct (Hlist 200 "OK"%string _ Hst Hw)
    as (matching & ranked & recommendations & Hmatching & Hperm & Hfirst
        & Hrun & _).
  assert (Hone : matching = [conference])
    by (rewrite Hmatching; vm_compute; reflexivity).
  rewrite Hone in Hperm. apply Permutation_sym in Hperm.
  apply Permutation_length_1_inv in Hperm.
  rewrite Hperm in Hfirst. change (firstn 10 [conference]) with [conference]
    in Hfirst.
  rewrite Hfirst in Hrun. exact Hrun.
Defined.

Lemma recommendation_description_cut_witness :
  (String.length (Event.description conference) <= 200)%nat
  /\ Json_get "description" (recommendation_row conference)
     = Some (JStr "...").
Proof.
  assert (Hshort : (String.length (Event.description conference) <= 200)%nat)
    by (simpl; lia).
  destruct (recommendation_description_cut conference)
    as (shown & Hget & _ & _ & Hsame & _).
  rewrite (Hsame Hshort) in Hget.
  split; [exact Hshort | exact Hget].
Defined.

Lemma empty_interest_term_matches_all_witness :
  In EmptyString (interest_terms "DeFi, ,NFT")
  /\ by_interests (Some "DeFi, ,NFT"%string)
       [conference; meetup; summit; undated]
     = [conference; meetup; summit; undated]
  /\ by_interests (Some "defi,"%string) [conference; meetup; summit; undated]
     = [conference; meetup; summit; undated]
  /\ by_interests (Some "defi"%string) [conference; meetup; summit; undated]
     = [].
Proof.
  assert (Hin : In EmptyString (interest_terms "DeFi, ,NFT"))
    by (vm_compute; auto).
  destruct (empty_interest_term_matches_all
              [conference; meetup; summit; undated])
    as (_ & Hblank & Htrailing).
  split; [exact Hin|]. split; [exact (Hblank _ Hin)|].
  split; [exact (proj2 (Htrailing "defi"%string)) | reflexivity].
Defined.

Lemma by_timeframe_cases_witness :
  includes (toLowerCase "Next 3 Months of 2025") "next 3 months" = true
  /\ (forall e,
        In e (by_timeframe sample_Date_parse "Next 3 Months of 2025" 1000
                [conference; meetup; summit; undated]) <->
        In e [conference; meetup; summit; undated]
        /\ exists t, sample_Date_parse (Event.eventStartDate e) = Some t
                     /\ 1000 <= t <= 1000 + 7776000000)
  /\ by_timeframe sample_Date_parse "Next 3 Months of 2025" 1000
       [conference; meetup; summit; undated]
     = [meetup; summit]
  /\ includes (toLowerCase "soon") "next 3 months" = false
  /\ includes (toLowerCase "soon") "2025" = false
  /\ by_timeframe sample_Date_parse "soon" 1000
       [conference; meetup; summit; undated]
     = [conference; meetup; summit; undated].
Proof.
  assert (H3 : includes (toLowerCase "Next 3 Months of 2025") "next 3 months"
               = true) by reflexivity.
  assert (Hn1 : includes (toLowerCase "soon") "next 3 months" = false)
    by reflexivity.
  assert (Hn2 : includes (toLowerCase "soon") "2025" = false) by reflexivity.
  pose proof (by_timeframe_cases sample_Date_parse "Next 3 Months of 2025"
                1000 [conference; meetup; summit; undated]) as H.
  cbv zeta beta in H. destruct H as (Hnext & _ & _).
  pose proof (by_timeframe_cases sample_Date_parse "soon" 1000
                [conference; meetup; summit; undated]) as H.
  cbv zeta beta in H. destruct H as (_ & _ & Hother).
  split; [exact H3|]. split; [exact (Hnext H3)|].
  split; [vm_compute; reflexivity|]. split; [exact Hn1|].
  split; [exact Hn2 | exact (Hother Hn1 Hn2)].
Defined.

Lemma comparison_limit_edge_cases_witness :
  "many"%string <> EmptyString
  /\ (parseInt10 "many" = None \/ parseInt10 "many" = Some 0)
  /\ "AI"%string <> EmptyString
  /\ topCompanies [acme; beta; gamma] "many" = []
  /\ fst (compare_companies sample_stringify (Some "AI"%string)
            (Some "many"%string) world_listed [])
     = Normal (no_companies_message "AI")
  /\ "-1"%string <> EmptyString
  /\ parseInt10 "-1" = Some (- Z.of_nat 1)
  /\ topCompanies [acme; beta; gamma] "-1" = [beta; acme].
Proof.
  assert (Hs : "many"%string <> EmptyString) by discriminate.
  assert (Hp : parseInt10 "many" = None \/ parseInt10 "many" = Some 0)
    by (left; reflexivity).
  assert (Hc : "AI"%string <> EmptyString) by discriminate.
  assert (Hs' : "-1"%string <> EmptyString) by discriminate.
  assert (Hp' : parseInt10 "-1" = Some (- Z.of_nat 1)) by reflexivity.
  pose proof (comparison_limit_edge_cases sample_Date_parse sample_stringify
                world_listed [] [acme; beta; gamma] []) as H.
  cbv zeta in H. destruct H as (_ & Hnan & Hneg).
  destruct (Hnan "many"%string Hs Hp) as (Htop & _ & Hprompt).
  pose proof (Hneg "-1"%string 0%nat Hs' Hp') as Hdrop.
  assert (Hranked : Array_sort by_engagement_desc [acme; beta; gamma]
                    = [beta; acme; gamma]) by (vm_compute; reflexivity).
  rewrite Hranked in Hdrop.
  split; [exact Hs|]. split; [exact Hp|]. split; [exact Hc|].
  split; [exact Htop|]. split; [exact (Hprompt "AI"%string Hc)|].
  split; [exact Hs'|]. split; [exact Hp' | exact Hdrop].
Defined.

Lemma get_events_by_location_sentence_witness :
  200 <= 200 <= 299
  /\ World.eventsApi world_listed []
       (events_url
          (Some (EventParams.mk None None None None (Some "Paris"%string)
                                None)))
     = ok_response 200 "OK"
         (EventsArray [conference; meetup; summit; undated])
  /\ "Paris"%string <> EmptyString
  /\ fst (get_events_by_location sample_stringify None (Some "Paris"%string)
            None world_listed [])
     = Normal
         (mkTool
            (data_block sample_stringify "EVENTS"
               (map event_summary [conference; meetup; summit; undated])
               ["Found "; "4"; " events in "; "Paris, undefined";
                "."]%string)
            false).
Proof.
  assert (Hst : 200 <= 200 <= 299) by lia.
  assert (Hw : World.eventsApi world_listed []
                 (events_url
                    (Some (EventParams.mk None None None None
                                          (Some "Paris"%string) None)))
               = ok_response 200 "OK"
                   (EventsArray [conference; meetup; summit; undated]))
    by reflexivity.
  assert (Hc : "Paris"%string <> EmptyString) by discriminate.
  pose proof (get_events_by_location_sentence sample_stringify world_listed
                [] None (Some "Paris"%string) None 200 "OK"%string
                [conference; meetup; summit; undated] Hst Hw) as H.
  cbv zeta beta in H. destruct H as (_ & _ & Hundefined).
  split; [exact Hst|]. split; [exact Hw|]. split; [exact Hc|].
  exact (Hundefined "Paris"%string eq_refl Hc eq_refl).
Defined.

Lemma http_sessions_guarded_witness :
  sample_handle_http
    (HttpRequest.mk "POST" (Some "/mcp"%string) None "init")
  = ConnectAndHandle (Some initialize_request)
  /\ sample_JSON_parse "init" = Some initialize_request
  /\ "s-9"%string <> EmptyString
  /\ sample_transports "s-9" = None
  /\ "POST"%string <> "OPTIONS"%string
  /\ (exists status text,
        sample_handle_http
          (HttpRequest.mk "POST" (Some "/mcp"%string) (Some "s-9"%string)
             "init")
        = Reply status (Some "application/json"%string) text
        /\ (status = 400 \/ status = 500))
  /\ sample_handle_http
       (HttpRequest.mk "GET" (Some "/mcp"%string) (Some "s-1"%string) "init")
     = HandleWith "s-1" None.
Proof.
  assert (Hnew : sample_handle_http
                   (HttpRequest.mk "POST" (Some "/mcp"%string) None "init")
                 = ConnectAndHandle (Some initialize_request))
    by reflexivity.
  assert (Hsid : "s-9"%string <> EmptyString) by discriminate.
  assert (Hunknown : sample_transports "s-9" = None) by reflexivity.
  assert (Hmethod : "POST"%string <> "OPTIONS"%string) by discriminate.
  destruct (http_sessions_guarded sample_stringify sample_JSON_parse
              sample_isInitializeRequest sample_transports
              (HttpRequest.mk "POST" (Some "/mcp"%string) None "init"))
    as (Hopen & _ & _).
  destruct (Hopen _ Hnew) as (_ & _ & _ & j & Hj & Hparse & _).
  injection Hj as <-.
  destruct (http_sessions_guarded sample_stringify sample_JSON_parse
              sample_isInitializeRequest sample_transports
              (HttpRequest.mk "POST" (Some "/mcp"%string)
                 (Some "s-9"%string) "init"))
    as (_ & _ & Hrefused).
  split; [exact Hnew|]. split; [exact Hparse|]. split; [exact Hsid|].
  split; [exact Hunknown|]. split; [exact Hmethod|].
  split; [exact (Hrefused "s-9"%string eq_refl Hsid Hunknown Hmethod eq_refl)|].
  reflexivity.
Defined.

Lemma http_front_routes_witness :
  "DELETE"%string <> "OPTIONS"%string
  /\ sample_handle_http
       (HttpRequest.mk "DELETE" (Some "/health"%string) (Some "s-1"%string)
          "")
     = Reply 200 (Some "application/json"%string)
         (sample_stringify health_doc)
  /\ sample_JSON_parse "{oops" = None
  /\ sample_handle_http
       (HttpRequest.mk "POST" (Some "/mcp"%string) (Some "s-1"%string)
          "{oops")
     = Reply 500 (Some "application/json"%string)
         (sample_stringify (jsonrpc_error (-32603) "Internal server error"))
  /\ sample_handle_http
       (HttpRequest.mk "OPTIONS" (Some "/nowhere"%string) None "")
     = Reply 200 None EmptyString.
Proof.
  assert (Hm : "DELETE"%string <> "OPTIONS"%string) by discriminate.
  assert (Hj : sample_JSON_parse "{oops" = None) by reflexivity.
  assert (Hb : "{oops"%string <> EmptyString) by discriminate.
  destruct (http_front_routes sample_stringify sample_JSON_parse
              sample_isInitializeRequest sample_transports
              (HttpRequest.mk "DELETE" (Some "/health"%string)
                 (Some "s-1"%string) ""))
    as (_ & Hhealth & _).
  destruct (http_front_routes sample_stringify sample_JSON_parse
              sample_isInitializeRequest sample_transports
              (HttpRequest.mk "POST" (Some "/mcp"%string) (Some "s-1"%string)
                 "{oops"))
    as (_ & _ & _ & Hbroken).
  destruct (http_front_routes sample_stringify sample_JSON_parse
              sample_isInitializeRequest sample_transports
              (HttpRequest.mk "OPTIONS" (Some "/nowhere"%string) None ""))
    as (Hpreflight & _).
  split; [exact Hm|]. split; [exact (Hhealth Hm eq_refl)|].
  split; [exact Hj|]. split; [exact (Hbroken eq_refl eq_refl Hb Hj)|].
  exact (Hpreflight eq_refl).
Defined.
